(** * FILTER map demonstrator: the spatial overlay API of [app_server.py]

    A shallow embedding of the overlay half of
    [Map Dashboard/Map Demonstrator/src/components/app_server.py]: the
    GeoJSON store ([_load_from_single_path], [load_geojson]), the CRS
    resolver ([guess_epsg_from_geojson]), the reprojector
    ([transform_coords], [reproject_feature_geometry]) and the request
    handler [precinct_overlay].

    Conventions of the model.
    - A parsed JSON document is a value of [json]; a Python [dict] read
      from JSON is the association list of its items.
    - Text is ASCII text ([string]); [lower] and [upper] are Python's
      [str.lower] and [str.upper] on that alphabet.
    - Python floats are idealised as exact rationals ([Q]).
    - A raised exception is a value of [exn]; code that can raise returns
      a [result]. *)

From Stdlib Require Import ZArith QArith Qround Lqa Lia Bool List.
From Stdlib Require Import Strings.String Strings.Ascii.
From Stdlib Require Import Sorting.Sorted Sorting.Permutation.
From stdpp Require Import gmap strings.

Import ListNotations.

Set Warnings "-register-all".

(** ** Exceptions and results *)

Inductive exn : Type :=
| OSError (errno : option Z)       (* OSError and its subclasses, e.g. FileNotFoundError *)
| TimeoutError (errno : option Z)  (* the builtin TimeoutError, itself a subclass of OSError *)
| JSONDecodeError
| AttributeError
| KeyError
| TypeError
| ValueError
| GeometryError.                   (* anything shapely / GEOS / pyproj raises *)

Inductive result (A : Type) : Type :=
| Ok (a : A)
| Raise (e : exn).
Arguments Ok {A} a.
Arguments Raise {A} e.

Definition rbind {A B} (r : result A) (k : A -> result B) : result B :=
  match r with
  | Ok a => k a
  | Raise e => Raise e
  end.

Notation "'let?' x ':=' r 'in' k" := (rbind r (fun x => k))
  (at level 10, x name, r at level 100, k at level 200).

(** ** JSON values as Python sees them *)

Inductive json : Type :=
| JNull
| JBool (b : bool)
| JNum (q : Q)
| JStr (s : string)
| JArr (l : list json)
| JObj (items : list (string * json)).

(** [bool(v)]: Python truthiness of a parsed JSON value. *)
Definition truthy (v : json) : bool :=
  match v with
  | JNull => false
  | JBool b => b
  | JNum q => negb (Qeq_bool q 0)
  | JStr s => negb (String.eqb s EmptyString)
  | JArr l => match l with [] => false | _ => true end
  | JObj kvs => match kvs with [] => false | _ => true end
  end.

Fixpoint assoc (k : string) (kvs : list (string * json)) : option json :=
  match kvs with
  | [] => None
  | (k', v) :: rest => if String.eqb k k' then Some v else assoc k rest
  end.

(** [d.get(k, default)]; only a dict has [.get], anything else raises
    [AttributeError]. *)
Definition py_get (d : json) (k : string) (default : json) : result json :=
  match d with
  | JObj kvs => Ok (match assoc k kvs with Some v => v | None => default end)
  | _ => Raise AttributeError
  end.

(** [a or b] *)
Definition py_or (a b : json) : json := if truthy a then a else b.

(** ** Python string operations on ASCII text *)

Module PyStr.

Definition code (c : ascii) : N := N_of_ascii c.

Definition is_digit (c : ascii) : bool := (48 <=? code c)%N && (code c <=? 57)%N.
Definition is_upper (c : ascii) : bool := (65 <=? code c)%N && (code c <=? 90)%N.
Definition is_lower (c : ascii) : bool := (97 <=? code c)%N && (code c <=? 122)%N.

(** [str.isspace] on ASCII: TAB..CR, FS..US and the blank. *)
Definition is_space (c : ascii) : bool :=
  ((9 <=? code c)%N && (code c <=? 13)%N) || ((28 <=? code c)%N && (code c <=? 32)%N).

Definition lower_char (c : ascii) : ascii :=
  if is_upper c then ascii_of_N (code c + 32) else c.
Definition upper_char (c : ascii) : ascii :=
  if is_lower c then ascii_of_N (code c - 32) else c.

Fixpoint lower (s : string) : string :=
  match s with
  | EmptyString => EmptyString
  | String c s' => String (lower_char c) (lower s')
  end.

Fixpoint upper (s : string) : string :=
  match s with
  | EmptyString => EmptyString
  | String c s' => String (upper_char c) (upper s')
  end.

(** [s.startswith(p)] *)
Definition startswith (s p : string) : bool := String.prefix p s.

(** [needle in hay] *)
Fixpoint contains (needle hay : string) : bool :=
  if String.prefix needle hay then true
  else match hay with
       | EmptyString => false
       | String _ hay' => contains needle hay'
       end.

Fixpoint lstrip (s : string) : string :=
  match s with
  | String c s' => if is_space c then lstrip s' else s
  | EmptyString => EmptyString
  end.

Fixpoint rstrip (s : string) : string :=
  match s with
  | EmptyString => EmptyString
  | String c s' =>
      match rstrip s' with
      | EmptyString => if is_space c then EmptyString else String c EmptyString
      | r => String c r
      end
  end.

(** [s.strip()] *)
Definition strip (s : string) : string := rstrip (lstrip s).

Definition digit_val (c : ascii) : Z := Z.of_N (code c) - 48.

Fixpoint int_acc (acc : Z) (s : string) : option Z :=
  match s with
  | EmptyString => Some acc
  | String c s' => if is_digit c then int_acc (10 * acc + digit_val c) s' else None
  end.

(** [sys.get_int_max_str_digits()] as the interpreter sets it at start:
    the longest run of digits [int] converts. *)
Definition int_max_str_digits : Z := 4300.

(** [int(s)] on a run of decimal digits; [None] stands for the
    [ValueError] raised on anything else, and on a run of more than
    [int_max_str_digits] digits.  Python integers are unbounded, and so
    is [Z]. *)
Definition int (s : string) : option Z :=
  match s with
  | EmptyString => None
  | _ =>
      if (int_max_str_digits <? Z.of_nat (String.length s))%Z then None
      else int_acc 0 s
  end.

End PyStr.

(** ** CRS resolver *)

Module Crs.
Import PyStr.

(** *** The regular expression [EPSG(?:::|:)[^0-9]*(\d+)] with [re.IGNORECASE]

    Each function below is one piece of the pattern, matched at the head
    of its argument; a successful match returns what it must, for the
    last piece the text of group 1. *)

(** [(\d+)], greedy: the longest run of digits, at least one. *)
Fixpoint take_digits (s : string) : string :=
  match s with
  | String c s' => if is_digit c then String c (take_digits s') else EmptyString
  | EmptyString => EmptyString
  end.

Definition re_digits (s : string) : option string :=
  match take_digits s with
  | EmptyString => None
  | ds => Some ds
  end.

(** [[^0-9]*(\d+)]: the star is greedy, so one more non-digit is consumed
    first and the engine backtracks to the shorter run when the rest
    fails. *)
Fixpoint re_skip_digits (s : string) : option string :=
  match s with
  | String c s' =>
      if is_digit c then re_digits s
      else match re_skip_digits s' with
           | Some g => Some g
           | None => re_digits s
           end
  | EmptyString => re_digits s
  end.

(** A literal, case-sensitively: the rest of [s] after [p]. *)
Fixpoint re_lit (p s : string) : option string :=
  match p, s with
  | EmptyString, _ => Some s
  | String a p', String b s' => if Ascii.eqb a b then re_lit p' s' else None
  | String _ _, EmptyString => None
  end.

(** A literal under [re.IGNORECASE]. *)
Fixpoint re_lit_ci (p s : string) : option string :=
  match p, s with
  | EmptyString, _ => Some s
  | String a p', String b s' =>
      if Ascii.eqb (lower_char a) (lower_char b) then re_lit_ci p' s' else None
  | String _ _, EmptyString => None
  end.

(** The whole pattern at the head of [s]; the alternation [(?:::|:)]
    tries [::] first and falls back to [:]. *)
Definition re_match_here (s : string) : option string :=
  match re_lit_ci "EPSG" s with
  | None => None
  | Some r =>
      match (match re_lit "::" r with
             | Some r2 => re_skip_digits r2
             | None => None
             end) with
      | Some g => Some g
      | None =>
          match re_lit ":" r with
          | Some r1 => re_skip_digits r1
          | None => None
          end
      end
  end.

(** [re.search]: the leftmost position where the pattern matches; the
    result is [m.group(1)]. *)
Fixpoint re_search (s : string) : option string :=
  match re_match_here s with
  | Some g => Some g
  | None =>
      match s with
      | String _ s' => re_search s'
      | EmptyString => None
      end
  end.

Section Resolver.

(** [str(v)] of a value that is not already a string is Python's [repr];
    the resolver only ever searches it, so it is left as a parameter. *)
Variable py_repr : json -> string.

Definition py_str (v : json) : string :=
  match v with
  | JStr s => s
  | _ => py_repr v
  end.

(** [str((fc.get('crs', {}).get('properties', {}) or {}).get('name', ''))] *)
Definition crs_name (fc : json) : result string :=
  let? crs := py_get fc "crs" (JObj []) in
  let? props := py_get crs "properties" (JObj []) in
  let? name := py_get (py_or props (JObj [])) "name" (JStr EmptyString) in
  Ok (py_str name).

(** The alias and default branches, after the numeric detection. *)
Definition guess_alias (upper : string) : Z :=
  if contains "CRS84" upper then 4326
  else if contains "EPSG::4283" upper || contains "EPSG:4283" upper
          || contains "GDA94" upper then 4283
  else if contains "EPSG::7844" upper || contains "EPSG:7844" upper
          || contains "GDA2020" upper then 7844
  else 4326.

Definition guess_epsg_from_name (name : string) : Z :=
  let upper := PyStr.upper name in
  match re_search name with
  | Some g =>
      match int g with
      | Some n => n
      | None => guess_alias upper
      end
  | None => guess_alias upper
  end.

Definition guess_epsg_from_geojson (fc : json) : result Z :=
  let? name := crs_name fc in
  Ok (guess_epsg_from_name name).

End Resolver.

End Crs.

(** ** GeoJSON store *)

Module Store.

(** One entry of [_GEOJSON_CACHE]: [{'mtime': ..., 'data': ...}]. *)
Record cache_entry : Type := CacheEntry { mtime : Q; data : json }.

(** What the store does to the outside world, in the order it does it. *)
Inductive event : Type :=
| EvExists (path : string)     (* os.path.exists *)
| EvGetmtime (path : string)   (* os.path.getmtime *)
| EvOpen (path : string)       (* open + json.load *)
| EvSleep (seconds : Q).       (* time.sleep *)

(** The process state the store reads and writes: the module-level cache
    and the log of what has been done so far. *)
Record state : Type := State {
  cache : gmap string cache_entry;
  trace : list event
}.

(** The environment: [os.path], the two data roots, [errno.ETIMEDOUT] and
    the file system.  [fs_read p n] is what the [n]-th [open]+[json.load]
    of [p] (counted from 0 over the life of the process) gives. *)
Record world : Type := World {
  abspath : string -> string;
  relpath : string -> string -> option string;   (* [None]: ValueError *)
  join : string -> string -> string;
  DATA_DIR : string;
  _ALT_DATA_DIR : string;
  ETIMEDOUT : Z;
  fs_exists : string -> bool;
  fs_getmtime : string -> result Q;
  fs_read : string -> nat -> result json
}.

Definition log (e : event) (s : state) : state :=
  State (cache s) (trace s ++ [e]).

Definition is_open (p : string) (e : event) : bool :=
  match e with
  | EvOpen p' => String.eqb p p'
  | _ => false
  end.

(** How often [p] has been opened so far. *)
Fixpoint opens (p : string) (tr : list event) : nat :=
  match tr with
  | [] => 0
  | e :: tr' => (if is_open p e then 1 else 0) + opens p tr'
  end.

Definition _GEOJSON_MAX_IO_RETRIES : nat := 5.

(** [isinstance(err, (TimeoutError, OSError))], the first [except] clause;
    both classes are [OSError]s, so the [isinstance(err, OSError)] of the
    clause's body holds for all of them. *)
Definition is_OSError (e : exn) : bool :=
  match e with
  | OSError _ | TimeoutError _ => true
  | _ => false
  end.

Definition errno_of (e : exn) : option Z :=
  match e with
  | OSError n | TimeoutError n => n
  | _ => None
  end.

(** [err.errno not in (errno.ETIMEDOUT,)] *)
Definition errno_not_timeout (w : world) (e : exn) : bool :=
  match errno_of e with
  | Some n => negb (n =? ETIMEDOUT w)%Z
  | None => true
  end.

(** [min(a, b)]: [b] when [b < a], else [a]. *)
Definition py_min (a b : Q) : Q := if Qle_bool a b then a else b.

(** How the [for attempt in range(...)] loop is left. *)
Inductive loop_exit : Type :=
| Returned (d : json)               (* [return data] inside the loop *)
| Fell (last_err : option exn).     (* [break], or the range ran out *)

Section Load.

Variable w : world.

Fixpoint retry_loop (abs_path : string) (mt : Q) (attempts : list nat)
    (backoff : Q) (last_err : option exn) (s : state) : loop_exit * state :=
  match attempts with
  | [] => (Fell last_err, s)
  | attempt :: rest =>
      let n := opens abs_path (trace s) in
      let s1 := log (EvOpen abs_path) s in
      match fs_read w abs_path n with
      | Ok d =>
          (Returned d,
           State (<[abs_path := CacheEntry mt d]> (cache s1)) (trace s1))
      | Raise err =>
          if is_OSError err then
            if errno_not_timeout w err then (Fell (Some err), s1)
            else if (attempt =? _GEOJSON_MAX_IO_RETRIES)%nat then (Fell (Some err), s1)
            else retry_loop abs_path mt rest
                   (py_min (backoff * (17 # 10)) (25 # 10)) (Some err)
                   (log (EvSleep backoff) s1)
          else (Fell (Some err), s1)
      end
  end.

(** [raise last_err]; raising [None] is itself a [TypeError]. *)
Definition raise_last {A} (last_err : option exn) : result A :=
  match last_err with
  | Some e => Raise e
  | None => Raise TypeError
  end.

Definition _load_from_single_path (abs_path : string) (s : state)
    : result json * state :=
  let s0 := log (EvGetmtime abs_path) s in
  match fs_getmtime w abs_path with
  | Raise e => (Raise e, s0)
  | Ok mt =>
      let cached := cache s0 !! abs_path in
      match cached with
      | Some c =>
          if Qeq_bool (mtime c) mt then (Ok (data c), s0)
          else
            match retry_loop abs_path mt (seq 1 _GEOJSON_MAX_IO_RETRIES)
                    (3 # 10) None s0 with
            | (Returned d, s1) => (Ok d, s1)
            | (Fell _, s1) => (Ok (data c), s1)
            end
      | None =>
          match retry_loop abs_path mt (seq 1 _GEOJSON_MAX_IO_RETRIES)
                  (3 # 10) None s0 with
          | (Returned d, s1) => (Ok d, s1)
          | (Fell last_err, s1) => (raise_last last_err, s1)
          end
      end
  end.

(** The candidate list of [load_geojson]; probing the mirror for
    existence is the only effect. *)
Definition candidates (path : string) (s : state) : list string * state :=
  let abs_path := abspath w path in
  match relpath w abs_path (DATA_DIR w) with
  | Some rel =>
      if negb (PyStr.startswith rel "..") then
        let alt_path := join w (_ALT_DATA_DIR w) rel in
        let s1 := log (EvExists alt_path) s in
        if fs_exists w alt_path then ([abs_path; abspath w alt_path], s1)
        else ([abs_path], s1)
      else ([abs_path], s)
  | None => ([abs_path], s)
  end.

Fixpoint try_candidates (cands : list string) (last_err : option exn)
    (s : state) : result json * state :=
  match cands with
  | [] => (raise_last last_err, s)
  | candidate :: rest =>
      match _load_from_single_path candidate s with
      | (Ok d, s1) => (Ok d, s1)
      | (Raise err, s1) => try_candidates rest (Some err) s1
      end
  end.

Definition load_geojson (path : string) (s : state) : result json * state :=
  let '(cands, s1) := candidates path s in
  try_candidates cands None s1.

End Load.

End Store.

(** ** Reprojector *)

Module Reproject.

(** [isinstance(v, (int, float))]; [bool] is a subclass of [int]. *)
Definition is_number (v : json) : bool :=
  match v with
  | JNum _ | JBool _ => true
  | _ => false
  end.

(** The two items of a list of length 2. *)
Definition as_pair (l : list json) : option (json * json) :=
  match l with
  | [x; y] => Some (x, y)
  | _ => None
  end.

(** [d[k]] *)
Definition py_item (d : json) (k : string) : result json :=
  match d with
  | JObj kvs => match assoc k kvs with Some v => Ok v | None => Raise KeyError end
  | _ => Raise TypeError
  end.

Definition is_str (v : json) (s : string) : bool :=
  match v with
  | JStr s' => String.eqb s' s
  | _ => false
  end.

Section WithPyproj.

(** pyproj: building a [Transformer] for a pair of EPSG codes (it raises
    on a code it does not know) and transforming one point. *)
Variable transformer : Type.
Variable from_crs : Z -> Z -> result transformer.
Variable transform : transformer -> json -> json -> result (Q * Q).

Variable t : transformer.

Fixpoint transform_coords (coords : json) : result json :=
  match coords with
  | JArr l =>
      match l with
      | [] => Ok coords
      | c0 :: _ =>
          match (if is_number c0 then as_pair l else None) with
          | Some (x, y) =>
              let? XY := transform t x y in
              Ok (JArr [JNum (fst XY); JNum (snd XY)])
          | None =>
              let? l' :=
                (fix each (cs : list json) : result (list json) :=
                   match cs with
                   | [] => Ok []
                   | c :: cs' =>
                       let? c' := transform_coords c in
                       let? r := each cs' in
                       Ok (c' :: r)
                   end) l in
              Ok (JArr l')
          end
      end
  | _ => Ok coords
  end.

End WithPyproj.

Section Geometry.

Variable transformer : Type.
Variable from_crs : Z -> Z -> result transformer.
Variable transform : transformer -> json -> json -> result (Q * Q).

Definition reproject_feature_geometry (feat_geom : json) (src_epsg dst_epsg : Z)
    : result json :=
  let? t := from_crs src_epsg dst_epsg in
  let? gtype := py_get feat_geom "type" JNull in
  if is_str gtype "Polygon" then
    let? coords := py_item feat_geom "coordinates" in
    let? new_coords := transform_coords transformer transform t coords in
    Ok (JObj [("type", JStr "Polygon"); ("coordinates", new_coords)])
  else if is_str gtype "MultiPolygon" then
    let? coords := py_item feat_geom "coordinates" in
    let? new_coords := transform_coords transformer transform t coords in
    Ok (JObj [("type", JStr "MultiPolygon"); ("coordinates", new_coords)])
  else Ok feat_geom.

End Geometry.

End Reproject.

(** ** Indicator resolver and dataset catalogue *)

Module Catalog.
Import PyStr.
Local Open Scope Z_scope.

(** The [if indicator: ... elif ...] chain of [precinct_overlay] on the
    stripped indicator text; the result is [ind_key] ([ind_label] is only
    ever printed and is left out). *)
Definition resolve_indicator (indicator : string) : string :=
  if negb (String.eqb indicator EmptyString) then
    let low := lower indicator in
    if contains "spec" low || contains "industry" low then "spec"
    else if (contains "social" low && contains "infra" low)
            || (contains "accessibility" low && contains "social" low) then "socinfra"
    else if (contains "housing" low && contains "stress" low)
            || (contains "housing" low && contains "percent" low) then "housing_stress"
    else if (contains "land" low && contains "mix" low) || contains "lum" low then "lum"
    else if contains "age" low && (contains "diversity" low || contains "resident" low)
      then "age_mix"
    else if contains "income" low && (contains "diversity" low || contains "resident" low)
      then "income_mix"
    else if contains "walk" low then "walkability"
    else if contains "resident" low && contains "sa1" low then "residents_sa1"
    else if contains "dwell" low then "dwellings"
    else if contains "resident" low || contains "mesh" low || contains "resdwel" low
      then "residents"
    else "jobs"
  else "jobs".

(** A dict literal with integer keys, and its [.get(year)]. *)
Fixpoint dict_get (d : list (Z * string)) (year : Z) : option string :=
  match d with
  | [] => None
  | (k, v) :: rest => if (year =? k)%Z then Some v else dict_get rest year
  end.

(** [year not in (2018, 2021)] *)
Definition not_in_18_21 (year : Z) : bool :=
  negb ((year =? 2018)%Z || (year =? 2021)%Z).

Definition key_is (ind_key k : string) : bool := String.eqb ind_key k.

(** The dataset a request reads: the year as the handler goes on to use
    it, [data_file] and [val_prop]. *)
Record selection : Type := Selection {
  sel_year : Z;
  data_file : option string;
  val_prop : option string
}.

Definition select_dataset (ind_key : string) (year : Z) : selection :=
  if key_is ind_key "spec" then
    Selection year
      (dict_get [(2011, "Inudstry_Specialisation_DZN_11.geojson");
                 (2016, "Inudstry_Specialisation_DZN_16.geojson");
                 (2021, "Inudstry_Specialisation_DZN_21.geojson")] year)
      (dict_get [(2011, "Special_11"); (2016, "Special_16"); (2021, "Special_21")] year)
  else if key_is ind_key "socinfra" then
    let year := if not_in_18_21 year then 2018 else year in
    Selection year (Some "Social_Infrastructure_Index_SA1_18_21.geojson")
      (dict_get [(2018, "SoInfra_18"); (2021, "SoInfra_21")] year)
  else if key_is ind_key "housing_stress" then
    let year := if not_in_18_21 year then 2018 else year in
    Selection year (Some "Housing_Stress_SA1_18_21.geojson")
      (dict_get [(2018, "HouStre_18"); (2021, "HouStre_21")] year)
  else if key_is ind_key "lum" then
    Selection year (Some "Land_Use_Mix__SA1_11_16_21.geojson")
      (dict_get [(2011, "LUM_11"); (2016, "LUM_16"); (2021, "LUM_21")] year)
  else if key_is ind_key "residents" || key_is ind_key "dwellings"
          || key_is ind_key "resdwel" || key_is ind_key "residents_sa1" then
    if key_is ind_key "residents_sa1" then
      Selection year (Some "Number_of_Residents_and_Dwellings_SA1_11_16_21.geojson")
        (dict_get [(2011, "Person_11"); (2016, "Person_16"); (2021, "Person_21")] year)
    else
      Selection year
        (dict_get [(2011, "Number_of_Residents_and_Dwellings_MB_11.geojson");
                   (2016, "Number_of_Residents_and_Dwellings_MB_16.geojson");
                   (2021, "Number_of_Residents_and_Dwellings_MB_21.geojson")] year)
        (if key_is ind_key "dwellings"
         then dict_get [(2011, "Dwell_11"); (2016, "Dwell_16"); (2021, "Dwell_21")] year
         else dict_get [(2011, "Person_11"); (2016, "Person_16"); (2021, "Person_21")] year)
  else if key_is ind_key "age_mix" then
    Selection year (Some "Age_Mix__SA1_16_21.geojson")
      (dict_get [(2016, "Age_Mix_16"); (2021, "Age_Mix_21")] year)
  else if key_is ind_key "income_mix" then
    Selection year (Some "Income_Mix_SA1_16_21.geojson")
      (dict_get [(2016, "Inc_Mix_16"); (2021, "Inc_Mix_21")] year)
  else if key_is ind_key "walkability" then
    let year := if not_in_18_21 year then 2018 else year in
    Selection year (Some "Walkability_SA1_16_21.geojson")
      (dict_get [(2018, "Walkabi_18"); (2021, "Walkabi_21")] year)
  else
    Selection year
      (dict_get [(2011, "Number_of_Jobs_DZN_11.geojson");
                 (2016, "Number_of_Jobs_DZN_16.geojson");
                 (2021, "Number_of_Jobs_DZN_21.geojson")] year)
      (dict_get [(2011, "TotJob_11"); (2016, "TotJob_16"); (2021, "TotJob_21")] year).

(** [not data_file] *)
Definition no_file (f : option string) : bool :=
  match f with
  | None => true
  | Some s => String.eqb s EmptyString
  end.

(** [code_prop] and [spatial_unit]; [d[year]] raises [KeyError] on a year
    the dict lacks. *)
Definition spatial_unit_of (ind_key : string) (year : Z) : result (string * string) :=
  let sa1 := Ok ("SA1_CODE_2", "SA1") in
  if key_is ind_key "lum" then sa1
  else if key_is ind_key "socinfra" then sa1
  else if key_is ind_key "housing_stress" then sa1
  else if key_is ind_key "residents" || key_is ind_key "dwellings"
          || key_is ind_key "resdwel" then
    match dict_get [(2011, "MB_CODE11"); (2016, "MB_CODE16"); (2021, "MB_CODE21")] year with
    | Some code_prop => Ok (code_prop, "MB")
    | None => Raise KeyError
    end
  else if key_is ind_key "age_mix" then sa1
  else if key_is ind_key "income_mix" then sa1
  else if key_is ind_key "walkability" then sa1
  else if key_is ind_key "residents_sa1" then sa1
  else
    match dict_get [(2011, "DZN_CODE11"); (2016, "DZN_CODE16"); (2021, "DZN_CODE21")] year with
    | Some code_prop => Ok (code_prop, "DZN")
    | None => Raise KeyError
    end.

End Catalog.

(** ** Overlay engine and request handler *)

Module Overlay.
Import Catalog Reproject.

(** One item of [intersections]. *)
Record intersection_record : Type := Intersection {
  code : json;
  value : Q;
  area : Q;
  areaPct : Q;
  featureArea : Q;
  areaPctPrecinct : Q;
  areaPctFeature : Q
}.

(** The body of a 200 response. *)
Record overlay_result : Type := OverlayResult {
  precinct : string;
  year : Z;
  precinctArea : Q;
  spatialUnit : string;
  intersectCount : nat;
  dznIntersectCount : nat;
  intersections : list intersection_record
}.

(** The [error] text of a failure response. *)
Inductive error_message : Type :=
| MissingPrecinctName                 (* 'Missing precinctName' *)
| UnsupportedYear (y : Z)             (* f'Unsupported year {year}' *)
| PrecinctNotFound (name : string)    (* f'Precinct {precinct_name} not found' *)
| PrecinctGeometryInvalid             (* 'Precinct geometry invalid after reprojection' *)
| Unhandled (e : exn).                (* str(e) of the exception caught at the top *)

Inductive response : Type :=
| Success (r : overlay_result)
| Failure (status : Z) (message : error_message).

(** The JSON body of a request, with fields of the documented types:
    [None] is a key that is absent (or, for the two texts, null). *)
Record request : Type := Request {
  precinctName : option string;
  req_year : option Z;
  indicator : option string
}.

(** The libraries the handler calls: the builtins [repr] and [float],
    pyproj and shapely.  [float_of_num] is [float] of a JSON number, the
    double nearest to it, and [float_of_str] is [float] of a text; [None]
    is the exception [float] raises ([OverflowError] on an integer beyond
    the doubles, [ValueError] on a text that is no number).  [shape],
    [unary_union], [intersects] and [intersection] may raise. *)
Record libs : Type := Libs {
  py_repr : json -> string;
  float_of_num : Q -> option Q;
  float_of_str : string -> option Q;
  transformer : Type;
  from_crs : Z -> Z -> result transformer;
  transform : transformer -> json -> json -> result (Q * Q);
  geom : Type;
  shape : json -> result geom;
  is_empty : geom -> bool;
  geom_area : geom -> Q;
  unary_union : list geom -> result geom;
  intersects : geom -> geom -> result bool;
  intersection : geom -> geom -> result geom
}.

(** [x > 0] and [x <= 0] on floats. *)
Definition positive (x : Q) : bool := negb (Qle_bool x 0).
Definition nonpositive (x : Q) : bool := Qle_bool x 0.

(** [l.sort(key=..., reverse=True)]: a stable sort, greatest key first;
    items of equal key keep the order they had.  The newest item is put in
    front of everything that is not strictly greater. *)
Fixpoint insert_reverse {A} (key : A -> Q) (x : A) (l : list A) : list A :=
  match l with
  | [] => [x]
  | y :: ys =>
      if negb (Qle_bool (key y) (key x)) then y :: insert_reverse key x ys
      else x :: l
  end.

Definition sort_reverse {A} (key : A -> Q) (l : list A) : list A :=
  fold_right (insert_reverse key) [] l.

(** [for x in v]: what iterating a parsed JSON value yields. *)
Definition py_iter (v : json) : result (list json) :=
  match v with
  | JArr l => Ok l
  | JObj kvs => Ok (map (fun kv => JStr (fst kv)) kvs)
  | JStr s => Ok (map (fun c => JStr (String c EmptyString)) (list_ascii_of_string s))
  | _ => Raise TypeError
  end.

Section Handler.

Variable L : libs.
Variable w : Store.world.

(** [float(val)]; [None] is the exception the handler turns into 0.0. *)
Definition py_float (v : json) : option Q :=
  match v with
  | JNum q => float_of_num L q
  | JBool b => Some (if b then 1%Q else 0%Q)
  | JStr s => float_of_str L s
  | _ => None
  end.

Definition reproject (g : json) (src_epsg : Z) : result json :=
  reproject_feature_geometry (transformer L) (from_crs L) (transform L) g src_epsg 3857.

(** [[f for f in ... if f.get('properties', {}).get('name') == precinct_name]] *)
Fixpoint p_feats_of (feats : list json) (precinct_name : string) : result (list json) :=
  match feats with
  | [] => Ok []
  | f :: rest =>
      let? props := py_get f "properties" (JObj []) in
      let? name := py_get props "name" JNull in
      let? tail := p_feats_of rest precinct_name in
      Ok (if is_str name precinct_name then f :: tail else tail)
  end.

(** The loop that fills [p_geoms]. *)
Fixpoint p_geoms_of (p_feats : list json) (precinct_epsg : Z) (p_geoms : list (geom L))
    : result (list (geom L)) :=
  match p_feats with
  | [] => Ok p_geoms
  | f :: rest =>
      let? fg := py_item f "geometry" in
      let? g := reproject fg precinct_epsg in
      match shape L g with
      | Ok shp =>
          if negb (is_empty L shp) && positive (geom_area L shp)
          then p_geoms_of rest precinct_epsg (p_geoms ++ [shp])
          else p_geoms_of rest precinct_epsg p_geoms
      | Raise _ => p_geoms_of rest precinct_epsg p_geoms
      end
  end.

(** The [try] body of the feature loop: [Ok None] is a [continue],
    [Raise] an exception the loop swallows. *)
Definition feature_record (p_union : geom L) (p_area : Q) (data_epsg : Z)
    (code_prop : string) (val_prop : option string) (f g : json)
    : result (option intersection_record) :=
  let? g_reproj := reproject g data_epsg in
  let? shp := shape L g_reproj in
  if is_empty L shp || nonpositive (geom_area L shp) then Ok None else
  let? hit := intersects L p_union shp in
  if negb hit then Ok None else
  let? inter := intersection L p_union shp in
  if is_empty L inter then Ok None else
  let a := geom_area L inter in
  if nonpositive a then Ok None else
  let? props := py_get f "properties" (JObj []) in
  let? code := py_get props code_prop (JStr EmptyString) in
  let? props' := py_get f "properties" (JObj []) in
  let? val :=
    match val_prop with
    | Some vp => py_get props' vp (JNum 0)
    | None => let? _ := py_get props' EmptyString JNull in Ok (JNum 0)
    end in
  let val := match py_float val with Some v => v | None => 0%Q end in
  let feat_area := geom_area L shp in
  let area_pct_precinct := if positive p_area then (a / p_area)%Q else 0%Q in
  let area_pct_feature := if positive feat_area then (a / feat_area)%Q else 0%Q in
  Ok (Some (Intersection code val a area_pct_precinct feat_area
              area_pct_precinct area_pct_feature)).

(** [for f in feats: ...] *)
Fixpoint scan_features (p_union : geom L) (p_area : Q) (data_epsg : Z)
    (code_prop : string) (val_prop : option string) (feats : list json)
    (acc : list intersection_record) : result (list intersection_record) :=
  match feats with
  | [] => Ok acc
  | f :: rest =>
      let? g := py_get f "geometry" JNull in
      if negb (truthy g) then
        scan_features p_union p_area data_epsg code_prop val_prop rest acc
      else
        match feature_record p_union p_area data_epsg code_prop val_prop f g with
        | Ok (Some r) =>
            scan_features p_union p_area data_epsg code_prop val_prop rest (acc ++ [r])
        | Ok None | Raise _ =>
            scan_features p_union p_area data_epsg code_prop val_prop rest acc
        end
  end.

(** Everything after the two files are loaded. *)
Definition overlay (precinct_name : string) (year : Z) (ind_key : string)
    (val_prop : option string) (precincts_fc data_fc : json) : result response :=
  let? precinct_epsg := Crs.guess_epsg_from_geojson (py_repr L) precincts_fc in
  let? data_epsg := Crs.guess_epsg_from_geojson (py_repr L) data_fc in
  let? pf := py_get precincts_fc "features" (JArr []) in
  let? pfl := py_iter pf in
  let? p_feats := p_feats_of pfl precinct_name in
  match p_feats with
  | [] => Ok (Failure 404 (PrecinctNotFound precinct_name))
  | _ =>
      let? p_geoms := p_geoms_of p_feats precinct_epsg [] in
      match p_geoms with
      | [] => Ok (Failure 500 PrecinctGeometryInvalid)
      | _ =>
          let? p_union := unary_union L p_geoms in
          let p_area := geom_area L p_union in
          let? unit := spatial_unit_of ind_key year in
          let? df := py_get data_fc "features" (JArr []) in
          let? feats := py_iter df in
          let? found :=
            scan_features p_union p_area data_epsg (fst unit) val_prop feats [] in
          let intersections := sort_reverse areaPct found in
          Ok (Success
                (OverlayResult precinct_name year p_area (snd unit)
                   (length intersections) (length intersections) intersections))
      end
  end.

(** The [try] body of [precinct_overlay]. *)
Definition handle (req : request) (s : Store.state) : result response * Store.state :=
  let precinct_name := precinctName req in
  let year := match req_year req with Some y => y | None => 2011%Z end in
  let indicator :=
    PyStr.strip (match indicator req with Some i => i | None => EmptyString end) in
  match precinct_name with
  | None => (Ok (Failure 400 MissingPrecinctName), s)
  | Some precinct_name =>
      if String.eqb precinct_name EmptyString
      then (Ok (Failure 400 MissingPrecinctName), s)
      else
        let ind_key := resolve_indicator indicator in
        let sel := select_dataset ind_key year in
        let year := sel_year sel in
        if no_file (data_file sel)
        then (Ok (Failure 400 (UnsupportedYear year)), s)
        else
          match data_file sel with
          | None => (Raise TypeError, s)
          | Some file =>
              let precincts_path :=
                Store.join w (Store.DATA_DIR w) "fb-precincts-official-boundary.geojson" in
              let data_path := Store.join w (Store.DATA_DIR w) file in
              match Store.load_geojson w precincts_path s with
              | (Raise e, s1) => (Raise e, s1)
              | (Ok precincts_fc, s1) =>
                  match Store.load_geojson w data_path s1 with
                  | (Raise e, s2) => (Raise e, s2)
                  | (Ok data_fc, s2) =>
                      (overlay precinct_name year ind_key (val_prop sel)
                         precincts_fc data_fc, s2)
                  end
              end
          end
  end.

(** [POST /api/precinct_overlay] *)
Definition precinct_overlay (req : request) (s : Store.state)
    : response * Store.state :=
  match handle req s with
  | (Ok r, s') => (r, s')
  | (Raise e, s') => (Failure 500 (Unhandled e), s')
  end.

End Handler.

End Overlay.

(** * Properties *)

(** ** CRS resolver *)

Module CrsFacts.
Import PyStr Crs.

(** Specification-side vocabulary: the text after the first
    case-insensitive occurrence of [EPSG:], and the first maximal run of
    digits of a text. *)
Fixpoint after_tag (s : string) : option string :=
  match re_lit_ci "EPSG:" s with
  | Some r => Some r
  | None =>
      match s with
      | String _ s' => after_tag s'
      | EmptyString => None
      end
  end.

Fixpoint first_digit_run (s : string) : option string :=
  match s with
  | EmptyString => None
  | String c s' => if is_digit c then Some (take_digits s) else first_digit_run s'
  end.

(** A non-empty text made of digits only. *)
Fixpoint all_digits (s : string) : bool :=
  match s with
  | EmptyString => true
  | String c s' => is_digit c && all_digits s'
  end.

Definition is_number_text (s : string) : bool :=
  negb (String.eqb s EmptyString) && all_digits s.

(** A text short enough for [int]. *)
Definition fits (s : string) : Prop :=
  (Z.of_nat (String.length s) <= int_max_str_digits)%Z.

(** [n] times the digit 1. *)
Fixpoint ones (n : nat) : string :=
  match n with
  | O => EmptyString
  | S n' => String "1" (ones n')
  end.

(** A FeatureCollection whose [crs.properties.name] is [name]. *)
Definition fc_named (name : string) : json :=
  JObj [("type", JStr "FeatureCollection");
        ("crs", JObj [("type", JStr "name");
                      ("properties", JObj [("name", JStr name)])]);
        ("features", JArr [])].

Ltac each_char c :=
  destruct c as [[] [] [] [] [] [] [] []].

Lemma upper_char_fold (a b : ascii) :
  Ascii.eqb a (upper_char b) = true ->
  Ascii.eqb (lower_char a) (lower_char b) = true.
Proof.
  intros H. apply Ascii.eqb_eq in H. subst a.
  each_char b; reflexivity.
Qed.

Lemma colon_fold (b : ascii) :
  Ascii.eqb ":" (lower_char b) = Ascii.eqb ":" b.
Proof. each_char b; reflexivity. Qed.

Lemma upper_char_digit (c : ascii) :
  is_digit (upper_char c) = is_digit c.
Proof. each_char c; reflexivity. Qed.

Lemma take_digits_all (s : string) : all_digits (take_digits s) = true.
Proof.
  induction s as [|c s IH]; simpl; [reflexivity|].
  destruct (is_digit c) eqn:E; simpl; [|reflexivity].
  now rewrite E, IH.
Qed.

Lemma int_acc_digits (s : string) :
  forall acc, all_digits s = true -> exists n, int_acc acc s = Some n.
Proof.
  induction s as [|c s IH]; intros acc H; simpl in *.
  - now exists acc.
  - apply andb_true_iff in H as [Hc Hs]. rewrite Hc. now apply IH.
Qed.

Lemma int_number_text (s : string) :
  is_number_text s = true -> fits s -> exists n, int s = Some n.
Proof.
  unfold is_number_text, int, fits. intros H Hfit.
  apply andb_true_iff in H as [Hne Hd].
  destruct s as [|c s]; [discriminate|].
  destruct (Z.ltb_spec int_max_str_digits (Z.of_nat (String.length (String c s))));
    [lia|].
  now apply int_acc_digits.
Qed.

Lemma int_too_long (s : string) : ~ fits s -> int s = None.
Proof.
  unfold int, fits. intros Hlong. destruct s as [|c s]; [reflexivity|].
  destruct (Z.ltb_spec int_max_str_digits (Z.of_nat (String.length (String c s))));
    [reflexivity|lia].
Qed.

(** [[^0-9]*(\d+)] finds the first run of digits, however the engine
    backtracks. *)
Lemma re_skip_digits_first (s : string) :
  re_skip_digits s = first_digit_run s.
Proof.
  induction s as [|c s IH]; simpl; [reflexivity|].
  unfold re_digits. simpl. destruct (is_digit c) eqn:E; [reflexivity|].
  rewrite IH. now destruct (first_digit_run s).
Qed.

Lemma first_digit_run_number (s g : string) :
  first_digit_run s = Some g -> is_number_text g = true.
Proof.
  induction s as [|c s IH]; simpl; [discriminate|].
  destruct (is_digit c) eqn:E; [|exact IH].
  intros H. injection H as <-. unfold is_number_text. simpl.
  now rewrite E, take_digits_all.
Qed.

Lemma re_lit_ci_app (p q s : string) :
  re_lit_ci (p ++ q) s =
  match re_lit_ci p s with
  | Some r => re_lit_ci q r
  | None => None
  end.
Proof.
  revert s. induction p as [|a p IH]; intros s; simpl.
  - now destruct q, s.
  - destruct s as [|b s]; [reflexivity|].
    destruct (Ascii.eqb (lower_char a) (lower_char b)); [apply IH|reflexivity].
Qed.

Lemma re_lit_ci_colon (s : string) : re_lit_ci ":" s = re_lit ":" s.
Proof.
  destruct s as [|b s]; [reflexivity|]. cbn [re_lit_ci re_lit].
  change (lower_char ":") with ":"%char. now rewrite colon_fold.
Qed.

Lemma first_digit_run_colon (s r : string) :
  re_lit ":" s = Some r -> first_digit_run s = first_digit_run r.
Proof.
  destruct s as [|b s]; cbn [re_lit first_digit_run]; [intros H; discriminate H|].
  destruct (Ascii.eqb ":" b) eqn:E; [|intros H; discriminate H].
  apply Ascii.eqb_eq in E. subst b. intros H. now injection H as <-.
Qed.

Lemma re_lit_two (s : string) :
  re_lit "::" s =
  match re_lit ":" s with
  | Some r => re_lit ":" r
  | None => None
  end.
Proof.
  destruct s as [|b s]; cbn [re_lit]; [reflexivity|].
  now destruct (Ascii.eqb ":" b).
Qed.

(** At one position the pattern matches exactly when [EPSG:] stands there
    and a digit follows somewhere; group 1 is the first run of digits
    after it, whichever branch of the alternation was taken. *)
Lemma re_match_here_tag (s : string) :
  re_match_here s =
  match re_lit_ci "EPSG:" s with
  | Some r => first_digit_run r
  | None => None
  end.
Proof.
  unfold re_match_here.
  change "EPSG:"%string with ("EPSG" ++ ":")%string.
  rewrite re_lit_ci_app.
  destruct (re_lit_ci "EPSG" s) as [r4|]; [|reflexivity].
  rewrite re_lit_ci_colon, re_lit_two.
  destruct (re_lit ":" r4) as [r1|]; [|reflexivity].
  rewrite (re_skip_digits_first r1).
  destruct (re_lit ":" r1) as [r2|] eqn:E2; [|reflexivity].
  rewrite re_skip_digits_first, (first_digit_run_colon _ _ E2).
  now destruct (first_digit_run r2).
Qed.

(** The search returns the first run of digits after the first
    occurrence of the tag. *)
Lemma re_search_first (s r g : string) :
  after_tag s = Some r -> first_digit_run r = Some g -> re_search s = Some g.
Proof.
  induction s as [|c s IH]; intros Ha Hg.
  - cbn in Ha. discriminate.
  - cbn [after_tag] in Ha. cbn [re_search]. rewrite re_match_here_tag.
    destruct (re_lit_ci "EPSG:" (String c s)) as [r0|].
    + injection Ha as ->. now rewrite Hg.
    + now apply IH.
Qed.

(** No tag, no match. *)
Lemma re_search_no_tag (s : string) : after_tag s = None -> re_search s = None.
Proof.
  induction s as [|c s IH]; intros Ha.
  - reflexivity.
  - cbn [after_tag] in Ha. cbn [re_search]. rewrite re_match_here_tag.
    destruct (re_lit_ci "EPSG:" (String c s)); [discriminate|]. now apply IH.
Qed.

(** Whatever the search returns is a number, so [int] accepts it. *)
Lemma re_search_number (s g : string) :
  re_search s = Some g -> is_number_text g = true.
Proof.
  induction s as [|c s IH]; cbn [re_search]; rewrite re_match_here_tag.
  - cbn. discriminate.
  - destruct (re_lit_ci "EPSG:" (String c s)) as [r|].
    + destruct (first_digit_run r) as [g'|] eqn:E.
      * intros H. injection H as <-. eapply first_digit_run_number, E.
      * exact IH.
    + exact IH.
Qed.

Lemma lower_char_digit (c : ascii) : is_digit (lower_char c) = is_digit c.
Proof. each_char c; reflexivity. Qed.

Lemma fold_same_digit (a b : ascii) :
  Ascii.eqb (lower_char a) (lower_char b) = true -> is_digit a = is_digit b.
Proof.
  intros H. apply Ascii.eqb_eq in H.
  rewrite <- (lower_char_digit a), <- (lower_char_digit b). now rewrite H.
Qed.

(** A text that matches a literal with a digit in it has a digit too. *)
Lemma re_lit_ci_digit (q s r : string) :
  re_lit_ci q s = Some r ->
  is_Some (first_digit_run q) -> is_Some (first_digit_run s).
Proof.
  revert s. induction q as [|a q IH]; intros s Hm Hq.
  - cbn in Hq. destruct Hq as [? Hq]. discriminate Hq.
  - destruct s as [|b s]; cbn [re_lit_ci] in Hm; [discriminate Hm|].
    destruct (Ascii.eqb (lower_char a) (lower_char b)) eqn:E; [|discriminate Hm].
    cbn [first_digit_run] in *. rewrite <- (fold_same_digit _ _ E).
    destruct (is_digit a); [eauto|]. now apply IH.
Qed.

Lemma prefix_upper_lit_ci (p s : string) :
  String.prefix p (upper s) = true -> is_Some (re_lit_ci p s).
Proof.
  revert s. induction p as [|a p IH]; intros s H.
  - destruct s; cbn; eauto.
  - destruct s as [|b s]; cbn [upper String.prefix] in H; [discriminate H|].
    destruct (ascii_dec a (upper_char b)) as [->|]; [|discriminate H].
    cbn [re_lit_ci].
    rewrite (upper_char_fold (upper_char b) b (Ascii.eqb_refl _)).
    now apply IH.
Qed.

(** The pattern matches wherever the upper-cased text shows [EPSG:]
    followed by something with a digit in it. *)
Lemma re_match_here_upper (q s : string) :
  is_Some (first_digit_run q) ->
  String.prefix ("EPSG:" ++ q) (upper s) = true ->
  is_Some (re_match_here s).
Proof.
  intros Hq H. apply prefix_upper_lit_ci in H as [r H].
  rewrite re_lit_ci_app in H. rewrite re_match_here_tag.
  destruct (re_lit_ci "EPSG:" s) as [r5|]; [|discriminate H].
  eapply re_lit_ci_digit; eauto.
Qed.

Lemma re_search_here (s : string) :
  is_Some (re_match_here s) -> is_Some (re_search s).
Proof.
  intros [g H]. destruct s; cbn [re_search]; rewrite H; eauto.
Qed.

Lemma re_search_upper (q s : string) :
  is_Some (first_digit_run q) ->
  contains ("EPSG:" ++ q) (upper s) = true ->
  is_Some (re_search s).
Proof.
  intros Hq. induction s as [|c s IH]; intros H.
  - cbn [upper contains] in H.
    destruct (String.prefix ("EPSG:" ++ q) EmptyString) eqn:E; [|discriminate H].
    apply re_search_here. now apply (re_match_here_upper q EmptyString).
  - cbn [upper contains] in H.
    destruct (String.prefix ("EPSG:" ++ q) (String (upper_char c) (upper s))) eqn:E.
    + apply re_search_here. now apply (re_match_here_upper q (String c s)).
    + cbn [re_search]. destruct (re_match_here (String c s)); [eauto|].
      now apply IH.
Qed.

(** Somewhere in [s], in any letter case: [EPSG:] or [EPSG::] with a digit
    right behind it. *)
Definition starts_with_digit (s : string) : bool :=
  match s with
  | String c _ => is_digit c
  | EmptyString => false
  end.

Fixpoint code_written (s : string) : bool :=
  (match re_lit_ci "EPSG:" s with
   | Some r =>
       starts_with_digit r
       || match re_lit ":" r with
          | Some r2 => starts_with_digit r2
          | None => false
          end
   | None => false
   end)
  || match s with
     | String _ s' => code_written s'
     | EmptyString => false
     end.

Lemma starts_with_digit_run (s : string) :
  starts_with_digit s = true -> is_Some (first_digit_run s).
Proof.
  destruct s as [|c s]; cbn; [discriminate|]. intros ->. eauto.
Qed.

Lemma code_written_search (s : string) :
  code_written s = true -> is_Some (re_search s).
Proof.
  induction s as [|c s IH]; cbn [code_written]; intros H;
    apply orb_true_iff in H as [H|H].
  - cbn in H. discriminate H.
  - discriminate H.
  - apply re_search_here. rewrite re_match_here_tag.
    destruct (re_lit_ci "EPSG:" (String c s)) as [r|]; [|discriminate H].
    apply orb_true_iff in H as [H|H]; [now apply starts_with_digit_run|].
    destruct (re_lit ":" r) as [r2|] eqn:E; [|discriminate H].
    rewrite (first_digit_run_colon _ _ E). now apply starts_with_digit_run.
  - cbn [re_search]. destruct (re_match_here (String c s)); [eauto|].
    now apply IH.
Qed.

Section Resolver.

Variable py_repr : json -> string.

Lemma guess_from_search (name g : string) :
  re_search name = Some g -> fits g ->
  exists n, int g = Some n /\ guess_epsg_from_name name = n.
Proof.
  intros H Hfit.
  destruct (int_number_text g (re_search_number _ _ H) Hfit) as [n Hn].
  exists n. split; [exact Hn|]. unfold guess_epsg_from_name. now rewrite H, Hn.
Qed.

(** A captured run too long for [int] leaves the decision to the
    aliases. *)
Lemma guess_from_long_search (name g : string) :
  re_search name = Some g -> ~ fits g ->
  guess_epsg_from_name name = guess_alias (upper name).
Proof.
  intros H Hlong. unfold guess_epsg_from_name.
  now rewrite H, (int_too_long g Hlong).
Qed.

Lemma guess_without_search (name : string) :
  re_search name = None ->
  guess_epsg_from_name name = guess_alias (upper name).
Proof. intros H. unfold guess_epsg_from_name. now rewrite H. Qed.

Lemma guess_of_name (fc : json) (name : string) :
  crs_name py_repr fc = Ok name ->
  guess_epsg_from_geojson py_repr fc = Ok (guess_epsg_from_name name).
Proof. unfold guess_epsg_from_geojson. now intros ->. Qed.

Lemma crs_name_absent (items : list (string * json)) :
  assoc "crs" items = None -> crs_name py_repr (JObj items) = Ok EmptyString.
Proof. unfold crs_name. cbn. now intros ->. Qed.

End Resolver.

(** [str] of a name that is a JSON string is the string itself, so any
    [repr] will do where the examples need one. *)
Definition no_repr (v : json) : string := EmptyString.

(** C4 as stated fails where the captured number is too long for [int]:
    the pattern matches a run of 4301 digits, [int] raises, the handler
    swallows the exception and the alias [GDA2020] decides. *)
Lemma captured_number_not_returned :
  re_search ("EPSG:" ++ ones 4301 ++ " GDA2020") = Some (ones 4301)
  /\ int (ones 4301) = None
  /\ guess_epsg_from_geojson no_repr (fc_named ("EPSG:" ++ ones 4301 ++ " GDA2020"))
     = Ok 7844%Z.
Proof. split; [|split]; vm_compute; reflexivity. Qed.

(** C4, amended.  [guess_epsg_from_geojson] works through three steps in
    order.  (1) The numeric detection comes first: the regular expression
    matches every name in which [EPSG:<n>] or [EPSG::<n>] is written, in
    any letter case, and whenever it matches a run of at most 4300 digits
    the result is the captured number, whatever aliases the name also
    holds.  (2) When it does not match, or the captured run is longer
    than that, the aliases are looked at, [CRS84] before the 4283 family
    before the 7844 family.  (3) Otherwise the result is 4326; in
    particular a FeatureCollection without a [crs] member gives 4326. *)
Theorem guess_epsg_order (py_repr : json -> string) :
  (forall (fc : json) (name : string),
      crs_name py_repr fc = Ok name ->
      (code_written name = true -> is_Some (re_search name))
      /\ (forall g, re_search name = Some g -> fits g ->
            exists n, int g = Some n /\ guess_epsg_from_geojson py_repr fc = Ok n)
      /\ (re_search name = None
          \/ (exists g, re_search name = Some g /\ ~ fits g) ->
          guess_epsg_from_geojson py_repr fc =
          Ok (if contains "CRS84" (upper name) then 4326
              else if contains "EPSG::4283" (upper name)
                      || contains "EPSG:4283" (upper name)
                      || contains "GDA94" (upper name) then 4283
              else if contains "EPSG::7844" (upper name)
                      || contains "EPSG:7844" (upper name)
                      || contains "GDA2020" (upper name) then 7844
              else 4326)%Z))
  /\ (forall items : list (string * json),
        assoc "crs" items = None ->
        guess_epsg_from_geojson py_repr (JObj items) = Ok 4326%Z).
Proof.
  split.
  - intros fc name Hname. rewrite (guess_of_name py_repr fc name Hname).
    split; [apply code_written_search|]. split.
    + intros g Hg Hfit.
      destruct (guess_from_search name g Hg Hfit) as (n & Hn & Hr).
      exists n. now rewrite Hr.
    + intros [Hnone|(g & Hg & Hlong)].
      * now rewrite (guess_without_search name Hnone).
      * now rewrite (guess_from_long_search name g Hg Hlong).
  - intros items Hno.
    now rewrite (guess_of_name py_repr _ _ (crs_name_absent py_repr items Hno)).
Qed.

Lemma guess_epsg_order_witness :
  guess_epsg_from_geojson no_repr (fc_named "urn:ogc:def:crs:EPSG::4283") = Ok 4283%Z
  /\ guess_epsg_from_geojson no_repr (fc_named "epsg:3857 / CRS84") = Ok 3857%Z
  /\ guess_epsg_from_geojson no_repr (fc_named "urn:ogc:def:crs:OGC:1.3:CRS84") = Ok 4326%Z
  /\ guess_epsg_from_geojson no_repr (fc_named "GDA94 / GDA2020") = Ok 4283%Z
  /\ guess_epsg_from_geojson no_repr (fc_named "GDA2020") = Ok 7844%Z
  /\ guess_epsg_from_geojson no_repr (fc_named "Web Mercator") = Ok 4326%Z
  /\ guess_epsg_from_geojson no_repr (fc_named ("EPSG:" ++ ones 4301 ++ " CRS84"))
     = Ok 4326%Z
  /\ guess_epsg_from_geojson no_repr (JObj [("features", JArr [])]) = Ok 4326%Z.
Proof.
  pose proof (guess_epsg_order no_repr) as [Hname Hnone].
  assert (Hfit : fits "4283" /\ fits "3857") by (split; vm_compute; discriminate).
  split.
  { destruct (Hname (fc_named "urn:ogc:def:crs:EPSG::4283") _ eq_refl)
      as (_ & H & _).
    destruct (H "4283"%string eq_refl (proj1 Hfit)) as (n & Hn & ->).
    vm_compute in Hn. now injection Hn as <-. }
  split.
  { destruct (Hname (fc_named "epsg:3857 / CRS84") _ eq_refl) as (_ & H & _).
    destruct (H "3857"%string eq_refl (proj2 Hfit)) as (n & Hn & ->).
    vm_compute in Hn. now injection Hn as <-. }
  split.
  { destruct (Hname (fc_named "urn:ogc:def:crs:OGC:1.3:CRS84") _ eq_refl)
      as (_ & _ & H). now rewrite (H (or_introl eq_refl)). }
  split.
  { destruct (Hname (fc_named "GDA94 / GDA2020") _ eq_refl) as (_ & _ & H).
    now rewrite (H (or_introl eq_refl)). }
  split.
  { destruct (Hname (fc_named "GDA2020") _ eq_refl) as (_ & _ & H).
    now rewrite (H (or_introl eq_refl)). }
  split.
  { destruct (Hname (fc_named "Web Mercator") _ eq_refl) as (_ & _ & H).
    now rewrite (H (or_introl eq_refl)). }
  split.
  { destruct (Hname (fc_named ("EPSG:" ++ ones 4301 ++ " CRS84")) _ eq_refl)
      as (_ & _ & H).
    rewrite H; [vm_compute; reflexivity|].
    right. exists (ones 4301). split; [vm_compute; reflexivity|].
    vm_compute. intros Hle. now apply Hle. }
  now apply Hnone.
Defined.

(** C10 as stated fails: this name contains [EPSG:9999], yet the result
    is 1, the first run of digits after the first [EPSG:]. *)
Lemma epsg_code_not_the_written_one :
  contains "EPSG:9999" "EPSG:x1 EPSG:9999" = true
  /\ guess_epsg_from_geojson no_repr (fc_named "EPSG:x1 EPSG:9999") = Ok 1%Z
  /\ guess_epsg_from_geojson no_repr (fc_named "EPSG:x1 EPSG:9999") <> Ok 9999%Z.
Proof. split; [reflexivity|]. split; [reflexivity|discriminate]. Qed.

(** It fails a second way: behind a run of 4301 digits, which [int]
    refuses, the literal [EPSG:4283] is the deciding branch. *)
Lemma alias_decides_after_long_run :
  after_tag ("EPSG:" ++ ones 4301 ++ " EPSG:4283") = Some (ones 4301 ++ " EPSG:4283")%string
  /\ first_digit_run (ones 4301 ++ " EPSG:4283") = Some (ones 4301)
  /\ contains "CRS84" (upper ("EPSG:" ++ ones 4301 ++ " EPSG:4283")) = false
  /\ contains "EPSG:4283" (upper ("EPSG:" ++ ones 4301 ++ " EPSG:4283")) = true
  /\ guess_epsg_from_geojson no_repr (fc_named ("EPSG:" ++ ones 4301 ++ " EPSG:4283"))
     = Ok 4283%Z.
Proof. repeat split; vm_compute; reflexivity. Qed.

(** C10, amended.  For every crs name in which [EPSG:] occurs (in any
    letter case) with a digit somewhere behind its first occurrence, look
    at the first run of digits after that first occurrence.  When it has
    at most 4300 digits the result is that run read as an integer,
    whether or not it is a documented code; digits written right behind
    [EPSG:] or [EPSG::] are the case where that run is the code itself.
    When it is longer, [int] raises and the aliases decide.  So when the
    upper-cased name holds one of the literals [EPSG::4283], [EPSG:4283],
    [EPSG::7844], [EPSG:7844], the pattern has matched, and that literal
    can be the deciding branch only behind a run of more than 4300
    digits. *)
Theorem epsg_code_first_run (py_repr : json -> string) (fc : json) (name : string) :
  crs_name py_repr fc = Ok name ->
  (forall r g, after_tag name = Some r -> first_digit_run r = Some g ->
     (fits g ->
      exists n, int g = Some n /\ guess_epsg_from_geojson py_repr fc = Ok n)
     /\ (~ fits g ->
         guess_epsg_from_geojson py_repr fc = Ok (guess_alias (upper name))))
  /\ (contains "EPSG::4283" (upper name) || contains "EPSG:4283" (upper name)
      || contains "EPSG::7844" (upper name) || contains "EPSG:7844" (upper name) = true ->
      exists g, re_search name = Some g
                /\ (fits g ->
                    exists n, int g = Some n
                              /\ guess_epsg_from_geojson py_repr fc = Ok n)).
Proof.
  intros Hname. rewrite (guess_of_name py_repr fc name Hname). split.
  - intros r g Ha Hg. pose proof (re_search_first _ _ _ Ha Hg) as Hs. split.
    + intros Hfit. destruct (guess_from_search name g Hs Hfit) as (n & Hn & Hr).
      exists n. now rewrite Hr.
    + intros Hlong. now rewrite (guess_from_long_search name g Hs Hlong).
  - intros H.
    assert (Hs : is_Some (re_search name)).
    { repeat (apply orb_true_iff in H as [H|H]).
      - apply (re_search_upper ":4283"); [cbn; eauto|exact H].
      - apply (re_search_upper "4283"); [cbn; eauto|exact H].
      - apply (re_search_upper ":7844"); [cbn; eauto|exact H].
      - apply (re_search_upper "7844"); [cbn; eauto|exact H]. }
    destruct Hs as [g Hg]. exists g. split; [exact Hg|]. intros Hfit.
    destruct (guess_from_search name g Hg Hfit) as (n & Hn & Hr).
    exists n. now rewrite Hr.
Qed.

Lemma epsg_code_first_run_witness :
  guess_epsg_from_geojson no_repr (fc_named "EPSG:9999") = Ok 9999%Z
  /\ guess_epsg_from_geojson no_repr (fc_named "urn:x-ogc:def:crs:epsg::7844") = Ok 7844%Z.
Proof.
  assert (Hfit : fits "9999" /\ fits "7844") by (split; vm_compute; discriminate).
  split.
  - destruct (epsg_code_first_run no_repr (fc_named "EPSG:9999") _ eq_refl) as [H _].
    destruct (H "9999"%string "9999"%string eq_refl eq_refl) as [Hshort _].
    destruct (Hshort (proj1 Hfit)) as (n & Hn & ->).
    vm_compute in Hn. now injection Hn as <-.
  - destruct (epsg_code_first_run no_repr
                (fc_named "urn:x-ogc:def:crs:epsg::7844") _ eq_refl) as [_ H].
    destruct (H eq_refl) as (g & Hg & Hshort).
    vm_compute in Hg. injection Hg as <-.
    destruct (Hshort (proj2 Hfit)) as (n & Hn & ->).
    vm_compute in Hn. now injection Hn as <-.
Defined.

End CrsFacts.

(** ** Indicator resolver and dataset catalogue *)

Module CatalogFacts.
Import PyStr Catalog.

(** The resolution rules as the table the specification gives, in its
    order: the test on the lower-cased text and the key it selects. *)
Definition rules : list ((string -> bool) * string) :=
  [ (fun low => contains "spec" low || contains "industry" low, "spec"%string);
    (fun low => (contains "social" low && contains "infra" low)
                || (contains "accessibility" low && contains "social" low),
     "socinfra"%string);
    (fun low => (contains "housing" low && contains "stress" low)
                || (contains "housing" low && contains "percent" low),
     "housing_stress"%string);
    (fun low => (contains "land" low && contains "mix" low) || contains "lum" low,
     "lum"%string);
    (fun low => contains "age" low
                && (contains "diversity" low || contains "resident" low),
     "age_mix"%string);
    (fun low => contains "income" low
                && (contains "diversity" low || contains "resident" low),
     "income_mix"%string);
    (fun low => contains "walk" low, "walkability"%string);
    (fun low => contains "resident" low && contains "sa1" low, "residents_sa1"%string);
    (fun low => contains "dwell" low, "dwellings"%string);
    (fun low => contains "resident" low || contains "mesh" low
                || contains "resdwel" low,
     "residents"%string) ].

(** The key of the first rule whose test holds; [jobs] when none does. *)
Fixpoint first_match (rs : list ((string -> bool) * string)) (low : string) : string :=
  match rs with
  | [] => "jobs"
  | (test, key) :: rest => if test low then key else first_match rest low
  end.

(** No rule recognises the text. *)
Definition unrecognized (text : string) : Prop :=
  Forall (fun r => fst r (lower text) = false) rules.

Lemma first_match_none (rs : list ((string -> bool) * string)) (low : string) :
  Forall (fun r => fst r low = false) rs -> first_match rs low = "jobs"%string.
Proof.
  induction 1 as [|[test key] rest H _ IH]; [reflexivity|].
  cbn in *. now rewrite H.
Qed.

Lemma resolve_first_match (text : string) :
  resolve_indicator text = first_match rules (lower text).
Proof.
  unfold resolve_indicator.
  destruct (String.eqb text EmptyString) eqn:E.
  - apply String.eqb_eq in E. now subst text.
  - cbn [negb first_match rules].
    repeat match goal with
           | |- (if ?c then _ else _) = (if ?c then _ else _) =>
               destruct c; [reflexivity|]
           end.
    reflexivity.
Qed.

(** C6.  The resolver is the ordered rule table applied to the
    lower-cased text, the first rule that holds deciding: so it cannot
    tell texts apart that differ in letter case only, ["Housing Stress
    (%)"] gives [housing_stress], ["industry specialisation"] gives
    [spec], a text with both a housing-stress and an industry keyword goes
    to the earlier rule, and the empty text and every text no rule
    recognises give [jobs]. *)
Theorem resolve_indicator_first_match :
  (forall text, resolve_indicator text = first_match rules (lower text))
  /\ (forall a b, lower a = lower b -> resolve_indicator a = resolve_indicator b)
  /\ resolve_indicator "Housing Stress (%)" = "housing_stress"%string
  /\ resolve_indicator "industry specialisation" = "spec"%string
  /\ resolve_indicator "Housing stress by INDUSTRY" = "spec"%string
  /\ resolve_indicator EmptyString = "jobs"%string
  /\ (forall text, unrecognized text -> resolve_indicator text = "jobs"%string).
Proof.
  split; [exact resolve_first_match|].
  split; [intros a b H; now rewrite !resolve_first_match, H|].
  split; [reflexivity|]. split; [reflexivity|]. split; [reflexivity|].
  split; [reflexivity|].
  intros text H. rewrite resolve_first_match. now apply first_match_none.
Qed.

End CatalogFacts.

(** ** GeoJSON store *)

Module StoreFacts.
Import Store.

(** A timeout-class error: an [OSError] (or [TimeoutError]) whose [errno]
    is [ETIMEDOUT]; every other exception ends the retrying. *)
Definition timeout_class (w : world) (e : exn) : bool :=
  is_OSError e && negb (errno_not_timeout w e).

Definition transient (w : world) (o : result json) : bool :=
  match o with
  | Raise e => timeout_class w e
  | Ok _ => false
  end.

(** The pauses of a run that starts with backoff [b]. *)
Fixpoint pauses (b : Q) (k : nat) : list Q :=
  match k with
  | O => []
  | S k' => b :: pauses (py_min (b * (17 # 10)) (25 # 10)) k'
  end.


(** [k] failed attempts, each followed by its pause. *)
Definition failed_attempts (p : string) (b : Q) (k : nat) : list event :=
  flat_map (fun pause => [EvOpen p; EvSleep pause]) (pauses b k).

Definition exit_of (o : result json) : loop_exit :=
  match o with
  | Ok d => Returned d
  | Raise e => Fell (Some e)
  end.

Definition cache_after (p : string) (mt : Q) (o : result json)
    (c : gmap string cache_entry) : gmap string cache_entry :=
  match o with
  | Ok d => <[p := CacheEntry mt d]> c
  | Raise _ => c
  end.

Lemma opens_app (p : string) (a b : list event) :
  opens p (a ++ b) = (opens p a + opens p b)%nat.
Proof. induction a as [|e a IH]; cbn; [reflexivity|]. rewrite IH. lia. Qed.

Lemma opens_open (p : string) (tr : list event) :
  opens p (tr ++ [EvOpen p]) = S (opens p tr).
Proof. rewrite opens_app. cbn. rewrite String.eqb_refl. lia. Qed.

Section Load.

Variable w : world.

(** The loop, run to the attempt that ends it: after [m] timeout-class
    failures the next outcome [o] ends the loop when it is a success, an
    error of another kind, or the last attempt allowed. *)
Lemma retry_loop_run (p : string) (mt : Q) (m : nat) :
  forall (a k : nat) (b : Q) (last_err : option exn) (s : state),
    (a + k = 6)%nat -> (m < k)%nat ->
    (forall i, (i < m)%nat ->
       transient w (fs_read w p (opens p (trace s) + i)) = true) ->
    let o := fs_read w p (opens p (trace s) + m) in
    transient w o = false \/ S m = k ->
    retry_loop w p mt (seq a k) b last_err s =
    (exit_of o,
     State (cache_after p mt o (cache s))
       (trace s ++ failed_attempts p b m ++ [EvOpen p])).
Proof.
  induction m as [|m IH]; intros a k b last_err s Hak Hm Hfail o Hstop.
  - destruct k as [|k]; [lia|]. subst o. cbn [seq retry_loop].
    revert Hstop. rewrite Nat.add_0_r.
    destruct (fs_read w p (opens p (trace s))) as [d|e]; cbn; [reflexivity|].
    unfold timeout_class.
    destruct (is_OSError e); [|reflexivity].
    destruct (errno_not_timeout w e); [reflexivity|]. cbn.
    intros [H|H]; [discriminate H|].
    assert (a = 5)%nat as -> by lia. reflexivity.
  - destruct k as [|k]; [lia|]. cbn [seq retry_loop].
    pose proof (Hfail 0%nat ltac:(lia)) as H0. rewrite Nat.add_0_r in H0.
    destruct (fs_read w p (opens p (trace s))) as [d|e]; [discriminate H0|].
    cbn in H0. unfold timeout_class in H0.
    apply andb_true_iff in H0 as [Hos Hto]. rewrite Hos.
    apply negb_true_iff in Hto. rewrite Hto.
    assert ((a =? _GEOJSON_MAX_IO_RETRIES)%nat = false) as ->.
    { apply Nat.eqb_neq. unfold _GEOJSON_MAX_IO_RETRIES. lia. }
    set (s2 := log (EvSleep b) (log (EvOpen p) s)).
    assert (Hop : opens p (trace s2) = S (opens p (trace s))).
    { unfold s2. cbn. rewrite opens_app, opens_open. cbn. lia. }
    rewrite (IH (S a) k _ (Some e) s2); try lia.
    + rewrite Hop. subst o. rewrite Nat.add_succ_comm.
      unfold s2. cbn. unfold failed_attempts. cbn.
      now rewrite <- !app_assoc.
    + intros i Hi. rewrite Hop, Nat.add_succ_comm. apply Hfail. lia.
    + rewrite Hop, Nat.add_succ_comm. destruct Hstop as [H|H]; [now left|right; lia].
Qed.

(** Opening a path or reading its modification time; a probe with
    [os.path.exists] is not counted here, see [mirror_probe]. *)
Definition touches (q : string) (e : event) : bool :=
  match e with
  | EvGetmtime q' | EvOpen q' => String.eqb q q'
  | _ => false
  end.

(** The cache has no entry for [p] that is still fresh at [mt]. *)
Definition not_fresh (s : state) (p : string) (mt : Q) : Prop :=
  forall c, cache s !! p = Some c -> Qeq_bool (mtime c) mt = false.



Lemma touches_failed_attempts (p q : string) (m : nat) :
  q <> p -> forall b, Forall (fun e => touches q e = false) (failed_attempts p b m).
Proof.
  intros Hne. apply String.eqb_neq in Hne.
  unfold failed_attempts. induction m as [|m IH]; intros b; cbn; [constructor|].
  constructor; [exact Hne|]. constructor; [reflexivity|]. apply IH.
Qed.


(** One path, when the cache cannot answer: the modification time is
    read, then the loop runs. *)
Lemma load_single_run (p : string) (mt : Q) (m : nat) (s : state) :
  fs_getmtime w p = Ok mt ->
  not_fresh s p mt ->
  (m < 5)%nat ->
  (forall i, (i < m)%nat ->
     transient w (fs_read w p (opens p (trace s) + i)) = true) ->
  forall d, fs_read w p (opens p (trace s) + m) = Ok d ->
  _load_from_single_path w p s =
  (Ok d,
   State (<[p := CacheEntry mt d]> (cache s))
     (trace s ++ [EvGetmtime p] ++ failed_attempts p (3 # 10) m ++ [EvOpen p])).
Proof.
  intros Hmt Hstale Hm Hfail d Hd.
  unfold _load_from_single_path. rewrite Hmt.
  set (s0 := log (EvGetmtime p) s).
  assert (Hop : opens p (trace s0) = opens p (trace s)).
  { unfold s0. cbn. rewrite opens_app. cbn. lia. }
  assert (Hrun : retry_loop w p mt (seq 1 _GEOJSON_MAX_IO_RETRIES) (3 # 10) None s0 =
                 (Returned d,
                  State (<[p := CacheEntry mt d]> (cache s))
                    (trace s ++ [EvGetmtime p]
                       ++ failed_attempts p (3 # 10) m ++ [EvOpen p]))).
  { unfold _GEOJSON_MAX_IO_RETRIES.
    rewrite (retry_loop_run p mt m 1 5 (3 # 10) None s0); try lia.
    - rewrite Hop, Hd. cbn. now rewrite <- !app_assoc.
    - intros i Hi. rewrite Hop. now apply Hfail.
    - rewrite Hop, Hd. now left. }
  change (cache s0) with (cache s).
  destruct (cache s !! p) as [c|] eqn:Hc.
  - rewrite (Hstale c Hc). now rewrite Hrun.
  - now rewrite Hrun.
Qed.

(** Building the candidate list leaves the cache alone and at most probes
    the mirror for existence; the requested path always comes first. *)
Lemma candidates_shape (path : string) (s : state) :
  exists probe rest,
    (probe = [] \/ exists alt, probe = [EvExists alt])
    /\ candidates w path s =
       (abspath w path :: rest, State (cache s) (trace s ++ probe)).
Proof.
  unfold candidates.
  destruct (relpath w (abspath w path) (DATA_DIR w)) as [rel|].
  - destruct (negb (PyStr.startswith rel "..")).
    + destruct (fs_exists w (join w (_ALT_DATA_DIR w) rel)); eexists _, _;
        (split; [right; eexists; reflexivity|reflexivity]).
    + exists [], []. rewrite app_nil_r. destruct s. now split; [left|].
  - exists [], []. rewrite app_nil_r. destruct s. now split; [left|].
Qed.



(** In every world the loop ends at some attempt [m + 1 <= 5]: the first
    whose outcome is not a timeout-class error, or the fifth. *)
Lemma retry_loop_stops (p : string) (mt : Q) (s : state) :
  exists m, (m < 5)%nat
    /\ (forall i, (i < m)%nat ->
          transient w (fs_read w p (opens p (trace s) + i)) = true)
    /\ (transient w (fs_read w p (opens p (trace s) + m)) = false \/ m = 4%nat).
Proof.
  set (o := fun i => transient w (fs_read w p (opens p (trace s) + i))).
  assert (Hstep : forall m, (m <= 4)%nat ->
            (forall i, (i < m)%nat -> o i = true) ->
            exists m', (m' < 5)%nat /\ (forall i, (i < m')%nat -> o i = true)
                       /\ (o m' = false \/ m' = 4%nat)).
  { intros m Hm. remember (4 - m)%nat as fuel eqn:Hf. revert m Hm Hf.
    induction fuel as [|fuel IH]; intros m Hm Hf Hall.
    - exists m. repeat split; [lia|exact Hall|right; lia].
    - destruct (o m) eqn:Em.
      + apply (IH (S m)); [lia|lia|].
        intros i Hi. destruct (Nat.eq_dec i m) as [->|]; [exact Em|apply Hall; lia].
      + exists m. repeat split; [lia|exact Hall|now left]. }
  apply (Hstep 0%nat); [lia|]. intros i Hi. lia.
Qed.

(** The loop writes the cache exactly when it returns data it has just
    read. *)
Lemma retry_loop_cache (p : string) (mt : Q) (attempts : list nat) :
  forall (b : Q) (last_err : option exn) (s : state) (x : loop_exit) (s' : state),
    retry_loop w p mt attempts b last_err s = (x, s') ->
    match x with
    | Fell _ => cache s' = cache s
    | Returned d =>
        (exists n, fs_read w p n = Ok d)
        /\ cache s' = <[p := CacheEntry mt d]> (cache s)
    end.
Proof.
  induction attempts as [|attempt rest IH]; intros b last_err s x s' H.
  - cbn in H. now injection H as <- <-.
  - cbn [retry_loop] in H.
    destruct (fs_read w p (opens p (trace s))) as [d|e] eqn:Hr.
    + injection H as <- <-. cbn. eauto.
    + destruct (is_OSError e).
      * destruct (errno_not_timeout w e); [now injection H as <- <-|].
        destruct (attempt =? _GEOJSON_MAX_IO_RETRIES)%nat; [now injection H as <- <-|].
        apply IH in H. exact H.
      * now injection H as <- <-.
Qed.

Lemma load_single_cache (p : string) (s : state) (r : result json) (s' : state) :
  _load_from_single_path w p s = (r, s') ->
  (forall e, r = Raise e -> cache s' = cache s)
  /\ (cache s' = cache s
      \/ exists mt d n,
           fs_getmtime w p = Ok mt /\ fs_read w p n = Ok d /\ r = Ok d
           /\ cache s' = <[p := CacheEntry mt d]> (cache s)).
Proof.
  unfold _load_from_single_path.
  destruct (fs_getmtime w p) as [mt|e0]; [|intros H; injection H as <- <-; now split; [|left]].
  change (cache (log (EvGetmtime p) s)) with (cache s).
  destruct (retry_loop w p mt (seq 1 _GEOJSON_MAX_IO_RETRIES) (3 # 10) None
              (log (EvGetmtime p) s)) as [x s1] eqn:Hloop.
  apply retry_loop_cache in Hloop. change (cache (log (EvGetmtime p) s)) with (cache s) in Hloop.
  destruct (cache s !! p) as [c|].
  - destruct (Qeq_bool (mtime c) mt).
    + intros H; injection H as <- <-. now split; [|left].
    + destruct x as [d|last_err]; intros H; injection H as <- <-.
      * destruct Hloop as [[n Hn] Hc]. split; [discriminate|].
        right. now exists mt, d, n.
      * split; [discriminate|now left].
  - destruct x as [d|last_err]; intros H; injection H as <- <-.
    + destruct Hloop as [[n Hn] Hc]. split; [discriminate|].
      right. now exists mt, d, n.
    + split; [now intros|now left].
Qed.

(** One path with a stale entry, when the loop ends in an error: the
    entry's data is the result. *)
Lemma load_single_stale (p : string) (mt : Q) (c : cache_entry) (m : nat) (s : state) :
  fs_getmtime w p = Ok mt ->
  cache s !! p = Some c ->
  Qeq_bool (mtime c) mt = false ->
  (m < 5)%nat ->
  (forall i, (i < m)%nat ->
     transient w (fs_read w p (opens p (trace s) + i)) = true) ->
  forall e, fs_read w p (opens p (trace s) + m) = Raise e ->
  timeout_class w e = false \/ m = 4%nat ->
  _load_from_single_path w p s =
  (Ok (data c),
   State (cache s)
     (trace s ++ [EvGetmtime p] ++ failed_attempts p (3 # 10) m ++ [EvOpen p])).
Proof.
  intros Hmt Hc Hstale Hm Hfail e He Hstop.
  unfold _load_from_single_path. rewrite Hmt.
  set (s0 := log (EvGetmtime p) s).
  assert (Hop : opens p (trace s0) = opens p (trace s)).
  { unfold s0. cbn. rewrite opens_app. cbn. lia. }
  change (cache s0) with (cache s). rewrite Hc, Hstale.
  unfold _GEOJSON_MAX_IO_RETRIES.
  rewrite (retry_loop_run p mt m 1 5 (3 # 10) None s0); try lia.
  - rewrite Hop, He. cbn. now rewrite <- !app_assoc.
  - intros i Hi. rewrite Hop. now apply Hfail.
  - rewrite Hop, He. cbn. destruct Hstop as [H|H]; [now left|right; lia].
Qed.

(** The candidates raise one after the other; the error that comes out is
    the last one's. *)
Lemma try_candidates_raise (cands : list string) :
  forall (last_err : option exn) (s : state) (e : exn) (s' : state) (dflt : string),
    try_candidates w cands last_err s = (Raise e, s') ->
    Forall (fun cand => exists sa sb ec,
              _load_from_single_path w cand sa = (Raise ec, sb)) cands
    /\ cache s' = cache s
    /\ (cands <> [] ->
        exists sa, _load_from_single_path w (List.last cands dflt) sa = (Raise e, s')).
Proof.
  induction cands as [|cand rest IH]; intros last_err s e s' dflt H.
  - cbn in H. injection H as _ <-. now repeat split.
  - cbn [try_candidates] in H.
    destruct (_load_from_single_path w cand s) as [[d|ec] s1] eqn:Hl; [discriminate H|].
    destruct (load_single_cache _ _ _ _ Hl) as [Hc _].
    destruct (IH _ _ _ _ dflt H) as (Hall & Hcache & Hlast).
    split; [constructor; eauto|]. split; [now rewrite Hcache, (Hc ec eq_refl)|].
    intros _. destruct rest as [|cand' rest'].
    + cbn in H. injection H as <- <-. now exists s.
    + now apply Hlast.
Qed.

End Load.


(** C9.  A single-path load that raises leaves the cache as it found
    it.  The only write a load ever makes is the entry for its own path,
    made from a modification time and a document it has just read
    successfully, and then the load returns that document; the entries of
    all other paths stay as they are whatever happens. *)
Theorem failed_load_keeps_cache (w : world) (p : string) (s : state)
    (r : result json) (s' : state) :
  _load_from_single_path w p s = (r, s') ->
  (forall e, r = Raise e -> cache s' = cache s)
  /\ (cache s' = cache s
      \/ exists mt d n,
           fs_getmtime w p = Ok mt /\ fs_read w p n = Ok d /\ r = Ok d
           /\ cache s' = <[p := CacheEntry mt d]> (cache s))
  /\ (forall q, q <> p -> cache s' !! q = cache s !! q).
Proof.
  intros H. destruct (load_single_cache w p s r s' H) as [Hraise Hwrite].
  split; [exact Hraise|]. split; [exact Hwrite|].
  intros q Hq. destruct Hwrite as [->|(mt & d & n & _ & _ & _ & ->)].
  - reflexivity.
  - apply lookup_insert_ne. congruence.
Qed.

(** C3, amended.  The stale-cache fallback belongs to each candidate path
    on its own.  When the modification time of the requested path can be
    read, its cached entry is out of date and its read attempts end in an
    error, [load_geojson] returns that entry's data at once: the cache is
    left as it was and no other path is opened or has its time read.  An
    error comes out of [load_geojson] only when every candidate has
    raised; it is the last candidate's error, and the cache is unchanged. *)
Theorem stale_cache_per_path (w : world) :
  (forall (path : string) (s : state) (c : cache_entry) (mt : Q) (m : nat) (e : exn),
      let p := abspath w path in
      fs_getmtime w p = Ok mt ->
      cache s !! p = Some c ->
      Qeq_bool (mtime c) mt = false ->
      (m < 5)%nat ->
      (forall i, (i < m)%nat ->
         transient w (fs_read w p (opens p (trace s) + i)) = true) ->
      fs_read w p (opens p (trace s) + m) = Raise e ->
      timeout_class w e = false \/ m = 4%nat ->
      exists s' added,
        load_geojson w path s = (Ok (data c), s')
        /\ cache s' = cache s
        /\ trace s' = trace s ++ added
        /\ (forall q, q <> p -> Forall (fun ev => touches q ev = false) added))
  /\ (forall (path : string) (s : state) (e : exn) (s' : state),
        load_geojson w path s = (Raise e, s') ->
        exists cands s1,
          candidates w path s = (cands, s1)
          /\ Forall (fun cand => exists sa sb ec,
                       _load_from_single_path w cand sa = (Raise ec, sb)) cands
          /\ (exists sa,
                _load_from_single_path w (List.last cands (abspath w path)) sa
                = (Raise e, s'))
          /\ cache s' = cache s).
Proof.
  split.
  - intros path s c mt m e p Hmt Hc Hstale Hm Hfail He Hstop.
    destruct (candidates_shape w path s) as (probe & rest & Hprobe & Hcands).
    fold p in Hcands.
    set (s1 := State (cache s) (trace s ++ probe)) in *.
    assert (Hop : opens p (trace s1) = opens p (trace s)).
    { unfold s1. cbn. rewrite opens_app.
      destruct Hprobe as [->|[alt ->]]; cbn; lia. }
    pose proof (load_single_stale w p mt c m s1 Hmt Hc Hstale Hm) as Hload.
    rewrite Hop in Hload. specialize (Hload Hfail e He Hstop).
    eexists _, (probe ++ [EvGetmtime p] ++ failed_attempts p (3 # 10) m ++ [EvOpen p]).
    split; [unfold load_geojson; rewrite Hcands; cbn [try_candidates];
            now rewrite Hload|].
    cbn [cache trace]. split; [reflexivity|].
    split; [unfold s1; cbn; now rewrite <- !app_assoc|].
    intros q Hq. apply Forall_app. split.
    { destruct Hprobe as [->|[alt ->]]; repeat constructor. }
    pose proof Hq as Hq'. apply String.eqb_neq in Hq'.
    constructor; [exact Hq'|].
    apply Forall_app. split; [now apply touches_failed_attempts|].
    constructor; [exact Hq'|constructor].
  - intros path s e s' H. unfold load_geojson in H.
    destruct (candidates_shape w path s) as (probe & rest & _ & Hcands).
    rewrite Hcands in H. eexists (abspath w path :: rest), _.
    split; [exact Hcands|].
    destruct (try_candidates_raise w _ _ _ _ _ (abspath w path) H)
      as (Hall & Hcache & Hlast).
    split; [exact Hall|]. split; [now apply Hlast|exact Hcache].
Qed.

End StoreFacts.

(** ** Concrete worlds *)

Module Fixture.
Import Store.
Local Open Scope string_scope.

Definition data_dir : string := "/app/public/data".
Definition alt_dir : string := "/app/build/data".

(** [os.path.relpath] for paths that are already absolute and normal:
    what follows the base directory, or a path that climbs out of it. *)
Definition rel_to (path base : string) : option string :=
  match Crs.re_lit (base ++ "/") path with
  | Some rest => Some rest
  | None => Some ("../../.." ++ path)
  end.

Definition path_join (a b : string) : string := a ++ "/" ++ b.

(** A POSIX world (ETIMEDOUT is 110 on Linux) over a given file system. *)
Definition posix (exists_ : string -> bool) (getmtime : string -> result Q)
    (read : string -> nat -> result json) : world :=
  World (fun p => p) rel_to path_join data_dir alt_dir 110 exists_ getmtime read.

Definition ENOENT : Z := 2.
Definition EIO : Z := 5.

Definition primary : string := "/app/public/data/units.geojson".
Definition mirror : string := "/app/build/data/units.geojson".

Definition doc (tag : string) : json :=
  JObj [("type", JStr "FeatureCollection"); ("name", JStr tag); ("features", JArr [])].

Definition fresh : state := State ∅ [].

(** A process that loaded the primary file earlier, at modification
    time 1. *)
Definition warmed : state := State {[primary := CacheEntry 1 (doc "old")]} [].

(** The primary file times out twice, then reads; the mirror exists. *)
Definition flaky : world :=
  posix (fun p => String.eqb p mirror)
    (fun p => Ok 7%Q)
    (fun p n =>
       if String.eqb p primary then
         match n with
         | 0%nat => Raise (TimeoutError (Some 110%Z))
         | 1%nat => Raise (OSError (Some 110%Z))
         | _ => Ok (doc "primary")
         end
       else Ok (doc "mirror")).

(** The primary file has changed and no longer reads (EIO); the mirror
    exists and reads. *)
Definition broken_primary : world :=
  posix (fun p => String.eqb p mirror)
    (fun p => Ok 7%Q)
    (fun p n =>
       if String.eqb p primary then Raise (OSError (Some EIO))
       else Ok (doc "mirror")).

(** The primary file is gone (ENOENT from [getmtime]) and the mirror
    exists but does not read. *)
Definition both_broken : world :=
  posix (fun p => String.eqb p mirror)
    (fun p => if String.eqb p primary then Raise (OSError (Some ENOENT)) else Ok 7%Q)
    (fun p n => Raise (OSError (Some EIO))).

End Fixture.

Module StoreExamples.
Import Store StoreFacts Fixture.



Lemma failed_load_keeps_cache_witness :
  exists s',
    _load_from_single_path both_broken mirror warmed = (Raise (OSError (Some EIO)), s')
    /\ cache s' = cache warmed.
Proof.
  eexists. split; [vm_compute; reflexivity|].
  eapply (failed_load_keeps_cache both_broken mirror warmed); [|reflexivity].
  vm_compute. reflexivity.
Defined.

(** C3 as stated fails, twice over.  With a stale entry for the
    requested path and a primary file that no longer reads, the entry is
    returned without the mirror ever being tried, although the mirror
    would have loaded.  And when the primary file is gone altogether and
    the mirror fails, the error is propagated although the cache holds an
    entry for the requested path. *)
Lemma stale_entry_before_mirror :
  (fst (load_geojson broken_primary primary warmed) = Ok (doc "old")
   /\ trace (snd (load_geojson broken_primary primary warmed))
      = [EvExists mirror; EvGetmtime primary; EvOpen primary]
   /\ fst (_load_from_single_path broken_primary mirror warmed) = Ok (doc "mirror"))
  /\ (cache warmed !! primary = Some (CacheEntry 1 (doc "old"))
      /\ fst (load_geojson both_broken primary warmed) = Raise (OSError (Some EIO))).
Proof.
  split; [split; [|split]|split]; vm_compute; reflexivity.
Qed.

Lemma stale_cache_per_path_witness :
  exists s',
    load_geojson broken_primary primary warmed = (Ok (doc "old"), s')
    /\ cache s' = cache warmed.
Proof.
  destruct (stale_cache_per_path broken_primary) as [H _].
  destruct (H primary warmed (CacheEntry 1 (doc "old")) 7%Q 0%nat (OSError (Some EIO)))
    as (s' & added & Hl & Hc & _).
  - reflexivity.
  - vm_compute. reflexivity.
  - reflexivity.
  - lia.
  - intros i Hi. lia.
  - reflexivity.
  - now left.
  - exists s'. now split.
Defined.

End StoreExamples.

(** ** Reprojector *)

Module ReprojectFacts.
Import Reproject.

(** A list comprehension whose body may raise: the results in order, or
    the first exception. *)
Fixpoint map_result {A B} (f : A -> result B) (l : list A) : result (list B) :=
  match l with
  | [] => Ok []
  | a :: l' =>
      let? b := f a in
      let? r := map_result f l' in
      Ok (b :: r)
  end.

(** Typed geometry: a position, a ring of positions, a polygon of rings,
    and the JSON they are written as. *)
Definition position (xy : Q * Q) : json := JArr [JNum (fst xy); JNum (snd xy)].
Definition ring (r : list (Q * Q)) : json := JArr (map position r).
Definition polygon (rings : list (list (Q * Q))) : json := JArr (map ring rings).

Definition polygon_geometry (rings : list (list (Q * Q))) : json :=
  JObj [("type", JStr "Polygon"); ("coordinates", polygon rings)].

Section WithPyproj.

Variable transformer : Type.
Variable from_crs : Z -> Z -> result transformer.
Variable transform : transformer -> json -> json -> result (Q * Q).
Variable t : transformer.

Abbreviation transform_coords := (transform_coords transformer transform t).

(** One coordinate pair on its own. *)
Definition transform_pair (xy : Q * Q) : result (Q * Q) :=
  transform t (JNum (fst xy)) (JNum (snd xy)).

Lemma transform_coords_position (xy : Q * Q) :
  transform_coords (position xy) = let? XY := transform_pair xy in Ok (position XY).
Proof. reflexivity. Qed.

(** A list that is not a coordinate pair is transformed item by item. *)
Lemma transform_coords_items (c0 : json) (l : list json) :
  is_number c0 = false ->
  transform_coords (JArr (c0 :: l)) =
  let? l' := map_result transform_coords (c0 :: l) in Ok (JArr l').
Proof.
  intros Hc.
  assert (Heach : forall cs,
             (fix each (cs : list json) : result (list json) :=
                match cs with
                | [] => Ok []
                | c :: cs' =>
                    let? c' := transform_coords c in
                    let? r := each cs' in
                    Ok (c' :: r)
                end) cs = map_result transform_coords cs).
  { induction cs as [|c cs IH]; [reflexivity|]. cbn [map_result]. now rewrite <- IH. }
  cbn [Reproject.transform_coords]. rewrite Hc.
  cbn [map_result]. now rewrite Heach.
Qed.

Lemma map_result_ext {A B} (f g : A -> result B) (l : list A) :
  (forall a, f a = g a) -> map_result f l = map_result g l.
Proof.
  intros H. induction l as [|a l IH]; cbn; [reflexivity|]. now rewrite H, IH.
Qed.

Lemma map_result_map {A B C} (g : A -> B) (f : B -> result C) (l : list A) :
  map_result f (map g l) = map_result (fun a => f (g a)) l.
Proof. induction l as [|a l IH]; cbn; [reflexivity|]. now rewrite IH. Qed.

Lemma map_result_then {A B C} (f : A -> result B) (g : B -> C) (l : list A) :
  map_result (fun a => let? b := f a in Ok (g b)) l =
  let? r := map_result f l in Ok (map g r).
Proof.
  induction l as [|a l IH]; cbn; [reflexivity|].
  destruct (f a) as [b|e]; cbn; [|reflexivity].
  rewrite IH. now destruct (map_result f l).
Qed.

Lemma map_result_length {A B} (f : A -> result B) (l : list A) (r : list B) :
  map_result f l = Ok r -> length r = length l.
Proof.
  revert r. induction l as [|a l IH]; cbn; intros r H.
  - now injection H as <-.
  - destruct (f a) as [b|e]; cbn in H; [|discriminate H].
    destruct (map_result f l) as [r'|e]; cbn in H; [|discriminate H].
    injection H as <-. cbn. now rewrite (IH r' eq_refl).
Qed.

Lemma transform_coords_ring (r : list (Q * Q)) :
  transform_coords (ring r) = let? r' := map_result transform_pair r in Ok (ring r').
Proof.
  unfold ring. destruct r as [|xy r]; [reflexivity|].
  cbn [map]. rewrite transform_coords_items by reflexivity.
  change (position xy :: map position r) with (map position (xy :: r)).
  rewrite map_result_map.
  rewrite (map_result_then transform_pair position).
  now destruct (map_result transform_pair (xy :: r)).
Qed.

Lemma transform_coords_polygon (rings : list (list (Q * Q))) :
  transform_coords (polygon rings) =
  let? rings' := map_result (map_result transform_pair) rings in Ok (polygon rings').
Proof.
  unfold polygon. destruct rings as [|r rings]; [reflexivity|].
  cbn [map]. rewrite transform_coords_items by reflexivity.
  change (ring r :: map ring rings) with (map ring (r :: rings)).
  rewrite map_result_map.
  rewrite (map_result_ext _ (fun r => let? r' := map_result transform_pair r in Ok (ring r'))).
  - rewrite (map_result_then (map_result transform_pair) ring).
    now destruct (map_result (map_result transform_pair) (r :: rings)).
  - intros r0. apply transform_coords_ring.
Qed.

Lemma map_result_lengths {A B} (f : A -> result B) (ls : list (list A))
    (rs : list (list B)) :
  map_result (map_result f) ls = Ok rs -> map (@length B) rs = map (@length A) ls.
Proof.
  revert rs. induction ls as [|l ls IH]; cbn; intros rs H.
  - now injection H as <-.
  - destruct (map_result f l) as [r|e] eqn:Hr; cbn in H; [|discriminate H].
    destruct (map_result (map_result f) ls) as [rs'|e]; cbn in H; [|discriminate H].
    injection H as <-. cbn. now rewrite (map_result_length f l r Hr), (IH rs' eq_refl).
Qed.

(** Transforming the pairs of a polygon one by one, each through
    [transform_coords] itself, and putting the results back ring by ring. *)
Definition pair_by_pair (rings : list (list (Q * Q))) : result json :=
  let? rings' :=
    map_result (map_result (fun xy => transform_coords (position xy))) rings in
  Ok (JArr (map JArr rings')).

Lemma pair_by_pair_rings (rings : list (list (Q * Q))) :
  pair_by_pair rings =
  let? rings' := map_result (map_result transform_pair) rings in Ok (polygon rings').
Proof.
  unfold pair_by_pair.
  rewrite (map_result_ext _
             (fun r => let? r' := map_result transform_pair r in Ok (map position r'))).
  - rewrite (map_result_then (map_result transform_pair) (map position)).
    destruct (map_result (map_result transform_pair) rings) as [rs|e]; [|reflexivity].
    cbn. unfold polygon, ring. now rewrite map_map.
  - intros r. apply (map_result_then transform_pair position).
Qed.

End WithPyproj.

Section Geometry.

Variable transformer : Type.
Variable from_crs : Z -> Z -> result transformer.
Variable transform : transformer -> json -> json -> result (Q * Q).

(** [feat_geom.get('type')] of a dict. *)
Definition gtype_of (items : list (string * json)) : json :=
  match assoc "type" items with
  | Some v => v
  | None => JNull
  end.

(** C5, amended.  Reprojection follows the structure of the coordinates.
    For every polygon, [transform_coords] gives what transforming its
    coordinate pairs one by one and reassembling them ring by ring gives
    (an exception included); a result it returns is again a polygon, with
    as many rings and as many positions in each ring.
    [reproject_feature_geometry] builds the transformer for the two codes
    before it looks at the geometry: when pyproj refuses a code the call
    raises that exception for every geometry, of whatever type.  With the
    transformer built, a Polygon is wrapped around the transformed
    coordinates and a geometry of any type other than Polygon and
    MultiPolygon is returned as it is. *)
Theorem reproject_homomorphism :
  (forall (t : transformer) (rings : list (list (Q * Q))),
      transform_coords transformer transform t (polygon rings)
      = pair_by_pair transformer transform t rings)
  /\ (forall (t : transformer) (rings : list (list (Q * Q))) (out : json),
        transform_coords transformer transform t (polygon rings) = Ok out ->
        exists rings', out = polygon rings'
                       /\ length rings' = length rings
                       /\ map (@length (Q * Q)) rings' = map (@length (Q * Q)) rings)
  /\ (forall (src dst : Z) (rings : list (list (Q * Q))),
        reproject_feature_geometry transformer from_crs transform
          (polygon_geometry rings) src dst
        = let? t := from_crs src dst in
          let? coords := pair_by_pair transformer transform t rings in
          Ok (JObj [("type", JStr "Polygon"); ("coordinates", coords)]))
  /\ (forall (src dst : Z) (items : list (string * json)),
        is_str (gtype_of items) "Polygon" = false ->
        is_str (gtype_of items) "MultiPolygon" = false ->
        reproject_feature_geometry transformer from_crs transform (JObj items) src dst
        = let? t := from_crs src dst in Ok (JObj items))
  /\ (forall (src dst : Z) (e : exn) (feat_geom : json),
        from_crs src dst = Raise e ->
        reproject_feature_geometry transformer from_crs transform feat_geom src dst
        = Raise e).
Proof.
  split; [|split; [|split; [|split]]].
  - intros t rings. now rewrite transform_coords_polygon, pair_by_pair_rings.
  - intros t rings out. rewrite transform_coords_polygon.
    destruct (map_result (map_result (transform_pair transformer transform t)) rings)
      as [rings'|e] eqn:Hr; cbn; [|discriminate].
    intros H. injection H as <-. exists rings'. split; [reflexivity|].
    split; [now apply (map_result_length _ _ _ Hr)|now apply (map_result_lengths _ _ _ Hr)].
  - intros src dst rings. unfold reproject_feature_geometry.
    destruct (from_crs src dst) as [t|e]; [|reflexivity]. cbn [rbind].
    transitivity
      (let? new_coords := transform_coords transformer transform t (polygon rings) in
       Ok (JObj [("type", JStr "Polygon"); ("coordinates", new_coords)]));
      [reflexivity|].
    now rewrite transform_coords_polygon, pair_by_pair_rings.
  - intros src dst items Hp Hm. unfold reproject_feature_geometry.
    destruct (from_crs src dst) as [t|e]; [|reflexivity].
    cbn. fold (gtype_of items). now rewrite Hp, Hm.
  - intros src dst e feat_geom He. unfold reproject_feature_geometry.
    now rewrite He.
Qed.

End Geometry.

End ReprojectFacts.

(** ** Overlay engine *)

Module OverlayFacts.
Import Catalog Reproject Overlay.

(** *** The sort *)

Section Sort.

Context {A : Type} (key : A -> Q).

(** Greatest key first. *)
Definition descending (l : list A) : Prop :=
  StronglySorted (fun a b => (key b <= key a)%Q) l.


Lemma insert_reverse_perm (x : A) (l : list A) :
  Permutation (x :: l) (insert_reverse key x l).
Proof.
  induction l as [|y ys IH]; cbn; [reflexivity|].
  destruct (negb (Qle_bool (key y) (key x))); [|reflexivity].
  rewrite perm_swap. now apply perm_skip.
Qed.

Lemma sort_reverse_perm (l : list A) : Permutation l (sort_reverse key l).
Proof.
  induction l as [|x l IH]; cbn; [reflexivity|].
  rewrite <- insert_reverse_perm. now apply perm_skip.
Qed.

Lemma insert_reverse_descending (x : A) (l : list A) :
  descending l -> descending (insert_reverse key x l).
Proof.
  unfold descending. induction 1 as [|y ys Hs IH Hy]; cbn.
  - repeat constructor.
  - destruct (Qle_bool (key y) (key x)) eqn:E; cbn.
    + apply Qle_bool_iff in E. constructor; [now constructor|].
      constructor; [exact E|].
      revert Hy. apply List.Forall_impl. intros b Hb.
      eapply Qle_trans; eassumption.
    + constructor; [exact IH|].
      assert (Hlt : (key x < key y)%Q).
      { apply Qnot_le_lt. intros H. apply Qle_bool_iff in H. congruence. }
      rewrite <- (insert_reverse_perm x ys).
      constructor; [now apply Qlt_le_weak|exact Hy].
Qed.

Lemma sort_reverse_descending (l : list A) : descending (sort_reverse key l).
Proof.
  induction l as [|x l IH]; cbn; [constructor|].
  now apply insert_reverse_descending.
Qed.



End Sort.

(** *** Area fractions *)

Lemma positive_lt (x : Q) : positive x = true -> (0 < x)%Q.
Proof.
  unfold positive. intros H. apply negb_true_iff in H.
  apply Qnot_le_lt. intros Hle. apply Qle_bool_iff in Hle. congruence.
Qed.

Lemma nonpositive_lt (x : Q) : nonpositive x = false -> (0 < x)%Q.
Proof.
  unfold nonpositive. intros H.
  apply Qnot_le_lt. intros Hle. apply Qle_bool_iff in Hle. congruence.
Qed.

(** *** The feature loop *)

(** Unfolds one [let?] or one [if] of a computation that is known to
    have succeeded. *)
Ltac step H :=
  match type of H with
  | rbind ?r _ = _ =>
      let E := fresh "E" in
      destruct r eqn:E; cbn [rbind] in H; [|discriminate H]
  | (if ?c then _ else _) = _ =>
      let E := fresh "E" in
      destruct c eqn:E; try discriminate H
  | match ?l with [] => _ | _ :: _ => _ end = _ =>
      let E := fresh "E" in
      destruct l eqn:E; try discriminate H
  end.

Section Handler.

Variable L : libs.

(** The records one dataset feature contributes: one or none. *)
Definition record_of (p_union : geom L) (p_area : Q) (data_epsg : Z)
    (code_prop : string) (val_prop : option string) (f : json)
    : list intersection_record :=
  match py_get f "geometry" JNull with
  | Ok g =>
      if truthy g then
        match feature_record L p_union p_area data_epsg code_prop val_prop f g with
        | Ok (Some r) => [r]
        | _ => []
        end
      else []
  | Raise _ => []
  end.

Lemma record_of_length p_union p_area data_epsg code_prop val_prop f :
  (length (record_of p_union p_area data_epsg code_prop val_prop f) <= 1)%nat.
Proof.
  unfold record_of. destruct (py_get f "geometry" JNull) as [g|]; cbn; [|lia].
  destruct (truthy g); cbn; [|lia].
  destruct (feature_record L p_union p_area data_epsg code_prop val_prop f g)
    as [[r|]|]; cbn; lia.
Qed.

(** The records of one feature, without any assumption on shapely. *)
Lemma feature_record_facts (p_union : geom L) (p_area : Q) (data_epsg : Z)
    (code_prop : string) (val_prop : option string) (f g : json)
    (r : intersection_record) :
  feature_record L p_union p_area data_epsg code_prop val_prop f g = Ok (Some r) ->
  (0 < area r)%Q /\ (0 < featureArea r)%Q
  /\ areaPctFeature r = (area r / featureArea r)%Q
  /\ areaPctPrecinct r = (if positive p_area then (area r / p_area)%Q else 0%Q)
  /\ areaPct r = areaPctPrecinct r.
Proof.
  intros H. unfold feature_record in H.
  repeat step H. injection H as <-. cbn.
  match goal with
  | Hn : nonpositive _ = false |- _ => apply nonpositive_lt in Hn
  end.
  match goal with
  | He : _ || nonpositive (geom_area L ?shp) = false |- _ =>
      assert (Hshp : nonpositive (geom_area L shp) = false)
        by (now apply orb_false_iff in He);
      assert (Hpos : positive (geom_area L shp) = true)
        by (unfold positive; unfold nonpositive in Hshp; now rewrite Hshp)
  end.
  rewrite Hpos. apply nonpositive_lt in Hshp.
  split; [assumption|]. split; [assumption|]. now repeat split.
Qed.

Lemma record_of_facts (p_union : geom L) (p_area : Q) (data_epsg : Z)
    (code_prop : string) (val_prop : option string) (f : json) :
  Forall (fun r =>
            (0 < area r)%Q /\ (0 < featureArea r)%Q
            /\ areaPctFeature r = (area r / featureArea r)%Q
            /\ areaPctPrecinct r = (if positive p_area then (area r / p_area)%Q else 0%Q)
            /\ areaPct r = areaPctPrecinct r)
    (record_of p_union p_area data_epsg code_prop val_prop f).
Proof.
  unfold record_of.
  destruct (py_get f "geometry" JNull) as [g|]; [|constructor].
  destruct (truthy g); [|constructor].
  destruct (feature_record L p_union p_area data_epsg code_prop val_prop f g)
    as [[r|]|] eqn:E; try constructor; [|constructor].
  eapply feature_record_facts, E.
Qed.

(** The loop appends the records of the features in dataset order. *)
Lemma scan_features_flat p_union p_area data_epsg code_prop val_prop feats :
  forall acc found,
    scan_features L p_union p_area data_epsg code_prop val_prop feats acc = Ok found ->
    found = acc ++ flat_map (record_of p_union p_area data_epsg code_prop val_prop) feats.
Proof.
  induction feats as [|f feats IH]; intros acc found H; cbn [scan_features] in H.
  - injection H as <-. cbn. now rewrite app_nil_r.
  - cbn [flat_map]. unfold record_of at 1.
    destruct (py_get f "geometry" JNull) as [g|]; cbn [rbind] in H; [|discriminate H].
    destruct (truthy g); cbn [negb] in H; [|now apply IH].
    destruct (feature_record L p_union p_area data_epsg code_prop val_prop f g)
      as [[r|]|]; apply IH in H; [|exact H|exact H].
    now rewrite <- app_assoc in H.
Qed.

Variable w : Store.world.

(** A 200 response of [overlay]: its fields, and where its records come
    from. *)
Lemma overlay_success (name : string) (yr : Z) (key : string) (vp : option string)
    (precincts_fc data_fc : json) (r : overlay_result) :
  overlay L name yr key vp precincts_fc data_fc = Ok (Success r) ->
  exists (p_union : geom L) (data_epsg : Z) (unit : string * string)
         (df : json) (feats : list json),
    py_get data_fc "features" (JArr []) = Ok df
    /\ py_iter df = Ok feats
    /\ let found :=
         flat_map (record_of p_union (geom_area L p_union) data_epsg (fst unit) vp)
           feats in
       r = OverlayResult name yr (geom_area L p_union) (snd unit)
             (length (sort_reverse areaPct found))
             (length (sort_reverse areaPct found))
             (sort_reverse areaPct found).
Proof.
  intros H. unfold overlay in H.
  repeat step H.
  injection H as <-.
  match goal with
  | Hs : scan_features _ ?pu _ ?ep (fst ?u) _ ?fs _ = Ok _,
    Hd : py_get data_fc _ _ = Ok ?df |- _ =>
      apply scan_features_flat in Hs; cbn [app] in Hs; subst;
      exists pu, ep, u, df, fs
  end.
  split; [reflexivity|]. split; [assumption|]. reflexivity.
Qed.

(** A 200 response of the handler comes out of [overlay], run on the two
    files it has loaded for the dataset the catalogue selected. *)
Lemma precinct_overlay_success (req : request) (s s' : Store.state)
    (r : overlay_result) :
  precinct_overlay L w req s = (Success r, s') ->
  let key :=
    resolve_indicator
      (PyStr.strip (match indicator req with Some i => i | None => EmptyString end)) in
  let sel :=
    select_dataset key (match req_year req with Some y => y | None => 2011%Z end) in
  exists (name file : string) (s1 : Store.state) (precincts_fc data_fc : json),
    precinctName req = Some name
    /\ data_file sel = Some file
    /\ Store.load_geojson w (Store.join w (Store.DATA_DIR w) file) s1 = (Ok data_fc, s')
    /\ overlay L name (sel_year sel) key (val_prop sel) precincts_fc data_fc
       = Ok (Success r).
Proof.
  intros H key sel. unfold precinct_overlay in H.
  destruct (handle L w req s) as [[resp|e] s2] eqn:Hh; [|discriminate H].
  injection H as -> ->. unfold handle in Hh. fold key sel in Hh.
  destruct (precinctName req) as [name|]; [|discriminate Hh].
  destruct (String.eqb name EmptyString); [discriminate Hh|].
  destruct (no_file (data_file sel)); [discriminate Hh|].
  destruct (data_file sel) as [file|]; [|discriminate Hh].
  destruct (Store.load_geojson w _ s) as [[precincts_fc|e] s1]; [|discriminate Hh].
  destruct (Store.load_geojson w _ s1) as [[data_fc|e] s2] eqn:Hd; [|discriminate Hh].
  injection Hh as Ho ->.
  exists name, file, s1, precincts_fc, data_fc. now repeat split.
Qed.

(** The union of the shapes of the precinct [name] in a boundary
    collection, step by step as the handler builds it. *)
Definition precinct_union (name : string) (precincts_fc : json) (p_union : geom L)
    : Prop :=
  exists (precinct_epsg : Z) (pf : json) (pfl p_feats : list json)
         (p_geoms : list (geom L)),
    Crs.guess_epsg_from_geojson (py_repr L) precincts_fc = Ok precinct_epsg
    /\ py_get precincts_fc "features" (JArr []) = Ok pf
    /\ py_iter pf = Ok pfl
    /\ p_feats_of pfl name = Ok p_feats
    /\ p_geoms_of L p_feats precinct_epsg [] = Ok p_geoms
    /\ unary_union L p_geoms = Ok p_union.

(** There is one such union at most. *)
Lemma precinct_union_unique (name : string) (precincts_fc : json) (p q : geom L) :
  precinct_union name precincts_fc p -> precinct_union name precincts_fc q -> p = q.
Proof.
  intros (e1 & pf1 & pfl1 & fs1 & gs1 & H1 & H2 & H3 & H4 & H5 & H6)
         (e2 & pf2 & pfl2 & fs2 & gs2 & K1 & K2 & K3 & K4 & K5 & K6).
  rewrite H1 in K1. injection K1 as <-.
  rewrite H2 in K2. injection K2 as <-.
  rewrite H3 in K3. injection K3 as <-.
  rewrite H4 in K4. injection K4 as <-.
  rewrite H5 in K5. injection K5 as <-.
  rewrite H6 in K6. now injection K6.
Qed.




End Handler.


(** C8.  For the three indicators whose unsupported years are snapped, the
    [year] of a 200 response is the year after snapping: 2018 whenever the
    year asked for is neither 2018 nor 2021. *)
Theorem response_year_is_snapped (L : libs) (w : Store.world)
    (req : request) (s s' : Store.state) (r : overlay_result) :
  let key :=
    resolve_indicator
      (PyStr.strip (match indicator req with Some i => i | None => EmptyString end)) in
  let asked := match req_year req with Some y => y | None => 2011%Z end in
  key = "socinfra"%string \/ key = "housing_stress"%string
  \/ key = "walkability"%string ->
  precinct_overlay L w req s = (Success r, s') ->
  year r = (if not_in_18_21 asked then 2018%Z else asked)
  /\ (asked <> 2018%Z -> asked <> 2021%Z -> year r = 2018%Z).
Proof.
  intros key asked Hkey H.
  destruct (precinct_overlay_success L w req s s' r H)
    as (name & file & s1 & precincts_fc & data_fc & _ & _ & _ & Ho).
  destruct (overlay_success L _ _ _ _ _ _ _ Ho)
    as (p_union & data_epsg & unit & df & feats & _ & _ & ->).
  cbn [year]. fold key asked.
  assert (Hy : sel_year (select_dataset key asked)
               = (if not_in_18_21 asked then 2018%Z else asked)).
  { destruct Hkey as [Hk | [Hk | Hk]]; rewrite Hk; reflexivity. }
  split; [exact Hy|]. intros H18 H21. rewrite Hy.
  unfold not_in_18_21.
  apply Z.eqb_neq in H18, H21. now rewrite H18, H21.
Qed.

End OverlayFacts.

(** ** Stand-ins for pyproj and shapely

    A flat world of axis-parallel boxes: enough to run the handler, and
    exact on polygons that are such boxes. *)

Module Boxes.
Import Overlay.
Local Open Scope Q_scope.

(** pyproj: four codes are known; a degree is 100 km in both directions
    when the codes differ. *)
Definition known_epsg (c : Z) : bool :=
  ((c =? 4326) || (c =? 4283) || (c =? 7844) || (c =? 3857))%Z.

Definition flat_from_crs (src dst : Z) : result (Z * Z) :=
  if known_epsg src && known_epsg dst then Ok (src, dst) else Raise GeometryError.

Definition flat_transform (t : Z * Z) (x y : json) : result (Q * Q) :=
  match x, y with
  | JNum a, JNum b =>
      if (fst t =? snd t)%Z then Ok (a, b) else Ok (a * 100000, b * 100000)
  | _, _ => Raise TypeError
  end.

(** shapely: a geometry is the box around its outer ring. *)
Record box : Type := Box { x0 : Q; y0 : Q; x1 : Q; y1 : Q }.

Definition qmin (a b : Q) : Q := if Qle_bool a b then a else b.
Definition qmax (a b : Q) : Q := if Qle_bool a b then b else a.

Definition hull (p g : box) : box :=
  Box (qmin (x0 p) (x0 g)) (qmin (y0 p) (y0 g)) (qmax (x1 p) (x1 g)) (qmax (y1 p) (y1 g)).

Definition meet (p g : box) : box :=
  Box (qmax (x0 p) (x0 g)) (qmax (y0 p) (y0 g)) (qmin (x1 p) (x1 g)) (qmin (y1 p) (y1 g)).

(** No interior. *)
Definition flat (b : box) : bool :=
  Qle_bool (x1 b) (x0 b) || Qle_bool (y1 b) (y0 b).

(** Not even a point. *)
Definition void (b : box) : bool :=
  negb (Qle_bool (x0 b) (x1 b) && Qle_bool (y0 b) (y1 b)).

Definition box_area (b : box) : Q :=
  if flat b then 0 else (x1 b - x0 b) * (y1 b - y0 b).

Definition point_box (v : json) : result box :=
  match v with
  | JArr [JNum x; JNum y] => Ok (Box x y x y)
  | _ => Raise GeometryError
  end.

Fixpoint ring_box (ps : list json) : result box :=
  match ps with
  | [] => Raise GeometryError
  | [p] => point_box p
  | p :: rest =>
      let? b := point_box p in
      let? r := ring_box rest in
      Ok (hull b r)
  end.

Definition box_shape (g : json) : result box :=
  match g with
  | JObj items =>
      match assoc "type" items, assoc "coordinates" items with
      | Some (JStr "Polygon"), Some (JArr (JArr outer :: _)) => ring_box outer
      | _, _ => Raise GeometryError
      end
  | _ => Raise GeometryError
  end.

Fixpoint box_union (gs : list box) : result box :=
  match gs with
  | [] => Raise GeometryError
  | [g] => Ok g
  | g :: rest => let? r := box_union rest in Ok (hull g r)
  end.

Definition lib : libs :=
  Libs (fun _ => EmptyString) (fun q => Some q) (fun _ => None)
    (Z * Z)%type flat_from_crs flat_transform
    box box_shape void box_area box_union
    (fun p g => Ok (negb (void (meet p g))))
    (fun p g => Ok (meet p g)).

End Boxes.

(** ** A small city *)

Module City.
Import Store Fixture Overlay.
Local Open Scope string_scope.

Definition num (z : Z) : json := JNum (inject_Z z).
Definition pos (x y : Z) : json := JArr [num x; num y].

(** The rectangle from [(a, b)] to [(c, d)] as a GeoJSON Polygon. *)
Definition rect (a b c d : Z) : json :=
  JObj [("type", JStr "Polygon");
        ("coordinates", JArr [JArr [pos a b; pos c b; pos c d; pos a d; pos a b]])].

Definition feature (props : list (string * json)) (geometry : json) : json :=
  JObj [("type", JStr "Feature"); ("properties", JObj props); ("geometry", geometry)].

Definition collection (crs : string) (features : list json) : json :=
  JObj [("type", JStr "FeatureCollection");
        ("crs", JObj [("type", JStr "name"); ("properties", JObj [("name", JStr crs)])]);
        ("features", JArr features)].

Definition unit (code : string) (v : Z) (geometry : json) : json :=
  feature [("SA1_CODE_2", JStr code); ("DZN_CODE16", JStr code);
           ("Walkabi_18", num v); ("Walkabi_21", num (v + 1));
           ("LUM_11", num v); ("LUM_16", num v); ("LUM_21", num v);
           ("TotJob_16", num (100 * v))] geometry.

Definition precincts : json :=
  collection "urn:ogc:def:crs:EPSG::3857"
    [feature [("name", JStr "Fishermans Bend")] (rect 0 0 10 10);
     feature [("name", JStr "Docklands")] (rect 50 50 60 60)].

(** Units A and C overlap the precinct by the same area; D lies outside;
    two features have no polygon. *)
Definition units : json :=
  collection "EPSG:3857"
    [unit "A" 1 (rect 0 0 5 4);
     unit "B" 2 (rect 5 0 12 10);
     unit "C" 3 (rect 2 5 6 10);
     unit "D" 4 (rect 20 20 30 30);
     unit "E" 5 JNull;
     unit "F" 6 (JObj [("type", JStr "Point"); ("coordinates", pos 1 1)])].

Definition precincts_path : string :=
  "/app/public/data/fb-precincts-official-boundary.geojson".

Definition city : world :=
  posix (fun _ => false) (fun _ => Ok 1%Q)
    (fun p _ => if String.eqb p precincts_path then Ok precincts else Ok units).

Definition ask (year : Z) (indicator : string) : request :=
  Request (Some "Fishermans Bend") (Some year) (Some indicator).

End City.

(** ** Areas in rounded arithmetic

    A second stand-in for shapely, whose areas are computed the way
    floating-point areas are: every sum is rounded to the precision of
    the format.  The format is a small one, two significant decimal
    digits, so that the rounding shows in small examples. *)

Module Rounded.
Import Store Fixture Overlay City.
Local Open Scope Q_scope.

(** The multiple of [u] nearest to [q], halves upwards. *)
Definition round_to (u q : Q) : Q := inject_Z (Qfloor (q / u + (1 # 2))) * u.

(** Two significant digits, for magnitudes below 1000. *)
Definition rnd (q : Q) : Q :=
  if Qle_bool 100 q then round_to 10 q
  else if Qle_bool 10 q then round_to 1 q
  else round_to (1 # 10) q.

Definition fadd (a b : Q) : Q := rnd (a + b).

(** A geometry is a list of boxes with disjoint interiors; its area is
    the sum of their areas, added up in the order the boxes are kept. *)
Definition parts_area (g : list Boxes.box) : Q :=
  fold_left fadd (map (fun b => rnd (Boxes.box_area b)) g) 0.

Definition parts_shape (g : json) : result (list Boxes.box) :=
  let? b := Boxes.box_shape g in Ok [b].

(** The non-empty pieces two geometries share. *)
Definition pieces (p g : list Boxes.box) : list Boxes.box :=
  List.filter (fun b => negb (Boxes.void b))
    (flat_map (fun a => map (Boxes.meet a) g) p).

(** The overlay of two geometries hands its pieces out last first; the
    order of the parts of a result is the library's own business. *)
Definition lib : libs :=
  Libs (fun _ => EmptyString) (fun q => Some q) (fun _ => None)
    (Z * Z)%type Boxes.flat_from_crs Boxes.flat_transform
    (list Boxes.box) parts_shape (forallb Boxes.void) parts_area
    (fun gs => Ok (concat gs))
    (fun p g => Ok (match pieces p g with [] => false | _ => true end))
    (fun p g => Ok (rev (pieces p g))).

(** A precinct drawn as three polygons, of areas 99, 4 and 4, and one
    unit that covers all of it. *)
Definition precincts : json :=
  collection "EPSG:3857"
    [feature [("name", JStr "Fishermans Bend")] (rect 0 0 11 9);
     feature [("name", JStr "Fishermans Bend")] (rect 11 0 13 2);
     feature [("name", JStr "Fishermans Bend")] (rect 13 0 15 2)].

Definition units : json :=
  collection "EPSG:3857" [unit "A" 1 (rect (-5) (-5) 20 20)].


End Rounded.

Module Examples.
Import Store Fixture Catalog Reproject Overlay City.
Import ReprojectFacts OverlayFacts.

(** The reprojector on the stand-in: a polygon in degrees goes to metres
    pair by pair, and a point comes back as it went in. *)
Lemma reproject_homomorphism_witness :
  reproject_feature_geometry (Z * Z) Boxes.flat_from_crs Boxes.flat_transform
    (polygon_geometry [[(1, 2); (3, 4); (1, 2)]%Q]) 4326 3857
  = Ok (polygon_geometry [[(100000, 200000); (300000, 400000); (100000, 200000)]%Q])
  /\ reproject_feature_geometry (Z * Z) Boxes.flat_from_crs Boxes.flat_transform
       (JObj [("type", JStr "Point"); ("coordinates", pos 1 1)]) 4326 3857
     = Ok (JObj [("type", JStr "Point"); ("coordinates", pos 1 1)])
  /\ exists rings',
       polygon [[(100000, 200000); (300000, 400000); (100000, 200000)]%Q]
       = polygon rings'
       /\ map (@length (Q * Q)) rings' = [3%nat].
Proof.
  destruct (reproject_homomorphism (Z * Z) Boxes.flat_from_crs Boxes.flat_transform)
    as (_ & Hshape & Hpoly & Hother & _).
  split; [|split].
  - rewrite (Hpoly 4326%Z 3857%Z). reflexivity.
  - now rewrite (Hother 4326%Z 3857%Z).
  - destruct (Hshape (4326, 3857)%Z [[(1, 2); (3, 4); (1, 2)]%Q] _ eq_refl)
      as (rings' & Hout & _ & Hlen).
    exists rings'. now split.
Defined.

(** C5 as stated fails: a Point is neither a Polygon nor a MultiPolygon,
    yet with a source code pyproj does not know it is not returned
    unchanged; the call raises, because the transformer is built before
    the type is looked at. *)
Lemma other_geometry_raises :
  is_str (gtype_of [("type", JStr "Point"); ("coordinates", pos 1 1)]) "Polygon" = false
  /\ is_str (gtype_of [("type", JStr "Point"); ("coordinates", pos 1 1)]) "MultiPolygon"
     = false
  /\ reproject_feature_geometry (Z * Z) Boxes.flat_from_crs Boxes.flat_transform
       (JObj [("type", JStr "Point"); ("coordinates", pos 1 1)]) 9999 3857
     = Raise GeometryError.
Proof. split; [|split]; reflexivity. Qed.



Lemma response_year_is_snapped_witness :
  exists r s',
    precinct_overlay Boxes.lib city (ask 2011 "Walkability") Fixture.fresh
    = (Success r, s')
    /\ year r = 2018%Z.
Proof.
  assert (Hrun : exists r s',
             precinct_overlay Boxes.lib city (ask 2011 "Walkability") Fixture.fresh
             = (Success r, s')).
  { vm_compute. eexists _, _. reflexivity. }
  destruct Hrun as (r & s' & Hrun).
  exists r, s'. split; [exact Hrun|].
  refine (proj2 (response_year_is_snapped Boxes.lib city _ _ s' r _ Hrun) _ _).
  - right. right. reflexivity.
  - discriminate.
  - discriminate.
Defined.

(** Years the per-year datasets do not have are turned down with a 400. *)
Lemma unsupported_year_rejected (L : libs) (w : world) (name : string)
    (yr : Z) (text : option string) (s : state) :
  let key :=
    resolve_indicator
      (PyStr.strip (match text with Some i => i | None => EmptyString end)) in
  String.eqb name EmptyString = false ->
  key = "jobs"%string \/ key = "spec"%string \/ key = "residents"%string
  \/ key = "dwellings"%string ->
  yr <> 2011%Z -> yr <> 2016%Z -> yr <> 2021%Z ->
  precinct_overlay L w (Request (Some name) (Some yr) text) s
  = (Failure 400 (UnsupportedYear yr), s).
Proof.
  intros key Hname Hkey H11 H16 H21.
  apply Z.eqb_neq in H11, H16, H21.
  unfold precinct_overlay, handle. cbn [precinctName req_year indicator].
  fold key. rewrite Hname.
  assert (Hsel : select_dataset key yr = Selection yr None None).
  { destruct Hkey as [Hk | [Hk | [Hk | Hk]]]; rewrite Hk;
      cbv [select_dataset key_is String.eqb Ascii.eqb Bool.eqb orb dict_get];
      now rewrite H11, H16, H21. }
  now rewrite Hsel.
Qed.

(** C7 on the code.  The land-use-mix dataset is one file for all years,
    so the unsupported-year guard, which looks at the file name only,
    never fires for it: a request for 1999 is answered with a 200 whose
    year is 1999 and whose values are all 0.0, where the same year for
    [jobs] is turned down with a 400. *)
Theorem unsupported_year_passes_for_lum :
  (forall yr, no_file (data_file (select_dataset "lum" yr)) = false)
  /\ val_prop (select_dataset (resolve_indicator "Land use mix") 1999) = None
  /\ (exists r s',
        precinct_overlay Boxes.lib city (ask 1999 "Land use mix") Fixture.fresh
        = (Success r, s')
        /\ year r = 1999%Z
        /\ map value (intersections r) = [0; 0; 0]%Q)
  /\ fst (precinct_overlay Boxes.lib city (ask 1999 "jobs") Fixture.fresh)
     = Failure 400 (UnsupportedYear 1999).
Proof.
  split; [reflexivity|]. split; [reflexivity|]. split.
  - vm_compute. eexists _, _. repeat split.
  - vm_compute. reflexivity.
Qed.

End Examples.

(** * Further properties *)

(** ** GeoJSON store: cache hits, the mirror, effort and provenance *)

Module StoreMore.
Import Store StoreFacts.

(** Counting what a stretch of the log did. *)
Definition is_any_open (e : event) : bool :=
  match e with EvOpen _ => true | _ => false end.

Definition is_sleep (e : event) : bool :=
  match e with EvSleep _ => true | _ => false end.

Fixpoint count (f : event -> bool) (tr : list event) : nat :=
  match tr with
  | [] => 0
  | e :: tr' => (if f e then 1 else 0) + count f tr'
  end.

(** Seconds spent in [time.sleep]. *)
Fixpoint slept (tr : list event) : Q :=
  match tr with
  | [] => 0
  | EvSleep q :: tr' => q + slept tr'
  | _ :: tr' => slept tr'
  end.



(** The paths [load_geojson] may look at for [path]: the path itself
    and, when it lies under the public data root, its mirror. *)
Definition file_paths (w : world) (path : string) : list string :=
  abspath w path ::
  match relpath w (abspath w path) (DATA_DIR w) with
  | Some rel =>
      if PyStr.startswith rel ".." then []
      else [join w (_ALT_DATA_DIR w) rel; abspath w (join w (_ALT_DATA_DIR w) rel)]
  | None => []
  end.

(** An event that concerns one of the paths [ps], or a pause. *)
Definition about (ps : list string) (e : event) : bool :=
  match e with
  | EvExists q | EvGetmtime q | EvOpen q => existsb (String.eqb q) ps
  | EvSleep _ => true
  end.

Lemma count_app (f : event -> bool) (a b : list event) :
  count f (a ++ b) = (count f a + count f b)%nat.
Proof. induction a as [|e a IH]; cbn; [reflexivity|]. rewrite IH. lia. Qed.

Lemma slept_app (a b : list event) : (slept (a ++ b) == slept a + slept b)%Q.
Proof.
  induction a as [|e a IH]; cbn; [lra|]. destruct e; cbn; rewrite ?IH; lra.
Qed.

Section Load.

Variable w : world.

(** What one run of the retry loop adds to the log. *)
Lemma retry_loop_trace (p : string) (mt : Q) (s : state) (x : loop_exit) (s' : state) :
  retry_loop w p mt (seq 1 5) (3 # 10) None s = (x, s') ->
  exists m, (m < 5)%nat
    /\ trace s' = trace s ++ failed_attempts p (3 # 10) m ++ [EvOpen p].
Proof.
  intros H.
  destruct (retry_loop_stops w p mt s) as (m & Hm & Hfail & Hstop).
  rewrite (retry_loop_run w p mt m 1 5 (3 # 10) None s) in H; try lia; try assumption.
  - injection H as _ <-. exists m. now split.
  - destruct Hstop as [Hs|Hs]; [now left|right; lia].
Qed.

Lemma failed_attempts_effort (p : string) (m : nat) :
  (m < 5)%nat ->
  count is_any_open (failed_attempts p (3 # 10) m ++ [EvOpen p]) = S m
  /\ count is_sleep (failed_attempts p (3 # 10) m ++ [EvOpen p]) = m
  /\ (slept (failed_attempts p (3 # 10) m ++ [EvOpen p]) <= 31509 # 10000)%Q.
Proof.
  intros Hm.
  destruct m as [|[|[|[|[|m]]]]]; try lia;
    (split; [reflexivity|]; split; [reflexivity|];
     apply Qle_bool_imp_le; reflexivity).
Qed.

Lemma loop_effort (p : string) (mt : Q) (s : state) (x : loop_exit) (s1 : state) :
  retry_loop w p mt (seq 1 _GEOJSON_MAX_IO_RETRIES) (3 # 10) None
    (log (EvGetmtime p) s) = (x, s1) ->
  exists added,
    trace s1 = trace s ++ added
    /\ (count is_any_open added <= 5)%nat
    /\ (count is_sleep added <= 4)%nat
    /\ (slept added <= 31509 # 10000)%Q.
Proof.
  intros H. apply retry_loop_trace in H as (m & Hm & ->).
  destruct (failed_attempts_effort p m Hm) as (Ho & Hs & Hq).
  exists (EvGetmtime p :: failed_attempts p (3 # 10) m ++ [EvOpen p]).
  split; [cbn; now rewrite <- app_assoc|].
  cbn [count slept is_any_open is_sleep]. rewrite Ho, Hs.
  split; [lia|]. split; [lia|exact Hq].
Qed.

(** One path: at most five opens, four pauses and 3.1509 s asleep. *)
Lemma load_single_effort (p : string) (s : state) (r : result json) (s' : state) :
  _load_from_single_path w p s = (r, s') ->
  exists added,
    trace s' = trace s ++ added
    /\ (count is_any_open added <= 5)%nat
    /\ (count is_sleep added <= 4)%nat
    /\ (slept added <= 31509 # 10000)%Q.
Proof.
  unfold _load_from_single_path.
  assert (Hquiet : forall r0,
             (r0, log (EvGetmtime p) s) = (r, s') ->
             exists added,
               trace s' = trace s ++ added
               /\ (count is_any_open added <= 5)%nat
               /\ (count is_sleep added <= 4)%nat
               /\ (slept added <= 31509 # 10000)%Q).
  { intros r0 H. injection H as _ <-. exists [EvGetmtime p]. cbn.
    repeat split; try lia. apply Qle_bool_imp_le. reflexivity. }
  destruct (fs_getmtime w p) as [mt|e]; [|apply Hquiet].
  destruct (cache (log (EvGetmtime p) s) !! p) as [c|].
  - destruct (Qeq_bool (mtime c) mt); [apply Hquiet|].
    destruct (retry_loop w p mt _ _ _ _) as [x s1] eqn:Hl.
    apply loop_effort in Hl.
    destruct x; intros H; injection H as _ <-; exact Hl.
  - destruct (retry_loop w p mt _ _ _ _) as [x s1] eqn:Hl.
    apply loop_effort in Hl.
    destruct x; intros H; injection H as _ <-; exact Hl.
Qed.

Lemma try_candidates_effort (cands : list string) :
  forall (last_err : option exn) (s : state) (r : result json) (s' : state),
    try_candidates w cands last_err s = (r, s') ->
    exists added,
      trace s' = trace s ++ added
      /\ (count is_any_open added <= 5 * length cands)%nat
      /\ (count is_sleep added <= 4 * length cands)%nat
      /\ (slept added <= (31509 # 10000) * inject_Z (Z.of_nat (length cands)))%Q.
Proof.
  induction cands as [|cand rest IH]; intros last_err s r s' H.
  - cbn in H. injection H as _ <-. exists []. rewrite app_nil_r. cbn.
    repeat split; try lia. apply Qle_bool_imp_le. reflexivity.
  - cbn [try_candidates] in H.
    destruct (_load_from_single_path w cand s) as [[d|e] s1] eqn:Hl;
      apply load_single_effort in Hl as (a1 & Ht1 & Ho1 & Hs1 & Hq1).
    + injection H as _ <-. exists a1. split; [exact Ht1|].
      cbn [length]. split; [lia|]. split; [lia|].
      rewrite Nat2Z.inj_succ, <- Z.add_1_r, inject_Z_plus.
      assert (0 <= inject_Z (Z.of_nat (length rest)))%Q.
      { change 0%Q with (inject_Z 0). rewrite <- Zle_Qle. lia. }
      change (inject_Z 1) with 1%Q. nra.
    + apply IH in H as (a2 & Ht2 & Ho2 & Hs2 & Hq2).
      exists (a1 ++ a2). split; [now rewrite Ht2, Ht1, app_assoc|].
      rewrite !count_app. cbn [length]. split; [lia|]. split; [lia|].
      rewrite slept_app, Nat2Z.inj_succ, <- Z.add_1_r, inject_Z_plus.
      change (inject_Z 1) with 1%Q. lra.
Qed.

Lemma candidates_count (path : string) (s : state) (cands : list string) (s1 : state) :
  candidates w path s = (cands, s1) ->
  (length cands <= 2)%nat
  /\ exists probe, trace s1 = trace s ++ probe
       /\ count is_any_open probe = 0%nat /\ count is_sleep probe = 0%nat
       /\ (slept probe == 0)%Q.
Proof.
  unfold candidates.
  destruct (relpath w (abspath w path) (DATA_DIR w)) as [rel|].
  - destruct (negb (PyStr.startswith rel "..")).
    + destruct (fs_exists w _); intros H; injection H as <- <-; cbn;
        (split; [lia|]); eexists; (split; [reflexivity|]); cbn; repeat split; lra.
    + intros H; injection H as <- <-. cbn. split; [lia|].
      exists []. rewrite app_nil_r. cbn. repeat split; lra.
  - intros H; injection H as <- <-. cbn. split; [lia|].
    exists []. rewrite app_nil_r. cbn. repeat split; lra.
Qed.

Lemma load_single_hit (p : string) (mt : Q) (c : cache_entry) (s : state) :
  fs_getmtime w p = Ok mt ->
  cache s !! p = Some c ->
  Qeq_bool (mtime c) mt = true ->
  _load_from_single_path w p s = (Ok (data c), log (EvGetmtime p) s).
Proof.
  intros Hmt Hc Hfresh. unfold _load_from_single_path. rewrite Hmt.
  change (cache (log (EvGetmtime p) s)) with (cache s). now rewrite Hc, Hfresh.
Qed.

(** The requested path read on attempt [m + 1], as [load_geojson] sees
    it. *)
Lemma load_geojson_run (path : string) (s : state) (m : nat) (mt : Q) (d : json) :
  fs_getmtime w (abspath w path) = Ok mt ->
  not_fresh s (abspath w path) mt ->
  (m < 5)%nat ->
  (forall i, (i < m)%nat ->
     transient w (fs_read w (abspath w path)
                    (opens (abspath w path) (trace s) + i)) = true) ->
  fs_read w (abspath w path) (opens (abspath w path) (trace s) + m) = Ok d ->
  exists probe,
    (probe = [] \/ exists alt, probe = [EvExists alt])
    /\ load_geojson w path s =
       (Ok d,
        State (<[abspath w path := CacheEntry mt d]> (cache s))
          ((trace s ++ probe) ++ [EvGetmtime (abspath w path)]
             ++ failed_attempts (abspath w path) (3 # 10) m
             ++ [EvOpen (abspath w path)])).
Proof.
  intros Hmt Hstale Hm Hfail Hd.
  destruct (candidates_shape w path s) as (probe & rest & Hprobe & Hc).
  exists probe. split; [exact Hprobe|].
  set (p := abspath w path) in *.
  set (s1 := State (cache s) (trace s ++ probe)) in *.
  assert (Hop : opens p (trace s1) = opens p (trace s)).
  { unfold s1. cbn. rewrite opens_app.
    destruct Hprobe as [->|[alt ->]]; cbn; lia. }
  pose proof (load_single_run w p mt m s1 Hmt Hstale Hm) as Hload.
  rewrite Hop in Hload. unfold load_geojson. rewrite Hc. cbn [try_candidates].
  now rewrite (Hload Hfail d Hd).
Qed.






(** What one path adds to the log concerns that path alone. *)
Lemma load_single_about (ps : list string) (p : string) (s : state)
    (r : result json) (s' : state) :
  existsb (String.eqb p) ps = true ->
  _load_from_single_path w p s = (r, s') ->
  exists added,
    trace s' = trace s ++ added /\ Forall (fun e => about ps e = true) added.
Proof.
  intros Hp. unfold _load_from_single_path.
  assert (Hquiet : forall r0,
             (r0, log (EvGetmtime p) s) = (r, s') ->
             exists added,
               trace s' = trace s ++ added /\ Forall (fun e => about ps e = true) added).
  { intros r0 H. injection H as _ <-. exists [EvGetmtime p].
    split; [reflexivity|]. now repeat constructor. }
  assert (Hloop : forall mt x s1,
             retry_loop w p mt (seq 1 _GEOJSON_MAX_IO_RETRIES) (3 # 10) None
               (log (EvGetmtime p) s) = (x, s1) ->
             exists added,
               trace s1 = trace s ++ added /\ Forall (fun e => about ps e = true) added).
  { intros mt x s1 H. apply retry_loop_trace in H as (m & Hm & ->).
    exists (EvGetmtime p :: failed_attempts p (3 # 10) m ++ [EvOpen p]).
    split; [cbn; now rewrite <- app_assoc|].
    constructor; [exact Hp|]. apply Forall_app. split; [|now repeat constructor].
    unfold failed_attempts. generalize (3 # 10)%Q.
    induction m as [|m IH]; intros b0; cbn; constructor; [exact Hp|].
    constructor; [reflexivity|]. apply IH. lia. }
  destruct (fs_getmtime w p) as [mt|e]; [|apply Hquiet].
  destruct (cache (log (EvGetmtime p) s) !! p) as [c|].
  - destruct (Qeq_bool (mtime c) mt); [apply Hquiet|].
    destruct (retry_loop w p mt _ _ _ _) as [x s1] eqn:Hl.
    apply Hloop in Hl.
    destruct x; intros H; injection H as _ <-; exact Hl.
  - destruct (retry_loop w p mt _ _ _ _) as [x s1] eqn:Hl.
    apply Hloop in Hl.
    destruct x; intros H; injection H as _ <-; exact Hl.
Qed.

Lemma try_candidates_about (ps cands : list string) :
  Forall (fun c => existsb (String.eqb c) ps = true) cands ->
  forall (last_err : option exn) (s : state) (r : result json) (s' : state),
    try_candidates w cands last_err s = (r, s') ->
    exists added,
      trace s' = trace s ++ added /\ Forall (fun e => about ps e = true) added.
Proof.
  induction 1 as [|cand rest Hc Hrest IH]; intros last_err s r s' H.
  - cbn in H. injection H as _ <-. exists []. now rewrite app_nil_r.
  - cbn [try_candidates] in H.
    destruct (_load_from_single_path w cand s) as [[d|e] s1] eqn:Hl;
      apply (load_single_about ps) in Hl as (a1 & Ht1 & Ha1); try exact Hc.
    + injection H as _ <-. now exists a1.
    + apply IH in H as (a2 & Ht2 & Ha2). exists (a1 ++ a2).
      split; [now rewrite Ht2, Ht1, app_assoc|]. apply Forall_app. now split.
Qed.

(** Everything [load_geojson] adds to the log concerns the requested
    file or its mirror. *)
Lemma load_geojson_about (path : string) (s : state) (r : result json) (s' : state) :
  load_geojson w path s = (r, s') ->
  exists added,
    trace s' = trace s ++ added
    /\ Forall (fun e => about (file_paths w path) e = true) added.
Proof.
  unfold load_geojson, candidates, file_paths.
  assert (Hself : forall l, existsb (String.eqb (abspath w path)) (abspath w path :: l) = true).
  { intros l. cbn. now rewrite String.eqb_refl. }
  destruct (relpath w (abspath w path) (DATA_DIR w)) as [rel|].
  - destruct (PyStr.startswith rel ".."); cbn [negb].
    + intros H. eapply try_candidates_about in H; [exact H|]. now repeat constructor.
    + set (alt := join w (_ALT_DATA_DIR w) rel).
      set (ps := [abspath w path; alt; abspath w alt]).
      assert (Halt : existsb (String.eqb alt) ps = true).
      { cbn. rewrite String.eqb_refl. now rewrite orb_true_r. }
      assert (Habs : existsb (String.eqb (abspath w alt)) ps = true).
      { cbn. rewrite String.eqb_refl. now rewrite !orb_true_r. }
      destruct (fs_exists w alt); intros H;
        apply (try_candidates_about ps) in H as (added & Ht & Ha);
        try (repeat constructor; solve [apply Hself | exact Habs]).
      * exists (EvExists alt :: added). split; [cbn in *; now rewrite Ht, <- app_assoc|].
        constructor; [exact Halt|exact Ha].
      * exists (EvExists alt :: added). split; [cbn in *; now rewrite Ht, <- app_assoc|].
        constructor; [exact Halt|exact Ha].
  - intros H. eapply try_candidates_about in H; [exact H|]. now repeat constructor.
Qed.

End Load.

(** X1.  A cached entry whose recorded modification time equals the
    file's current one is returned without opening the file and without
    sleeping, whatever reading the file would give now; the cache stays as
    it is. *)
Theorem cache_hit_skips_file (w : world) (path : string) (s : state)
    (c : cache_entry) (mt : Q) :
  fs_getmtime w (abspath w path) = Ok mt ->
  cache s !! abspath w path = Some c ->
  Qeq_bool (mtime c) mt = true ->
  exists s' added,
    load_geojson w path s = (Ok (data c), s')
    /\ cache s' = cache s
    /\ trace s' = trace s ++ added
    /\ count is_any_open added = 0%nat
    /\ count is_sleep added = 0%nat.
Proof.
  intros Hmt Hc Hfresh.
  destruct (candidates_shape w path s) as (probe & rest & Hprobe & Hcands).
  set (s1 := State (cache s) (trace s ++ probe)) in *.
  exists (log (EvGetmtime (abspath w path)) s1), (probe ++ [EvGetmtime (abspath w path)]).
  split.
  { unfold load_geojson. rewrite Hcands. cbn [try_candidates].
    now rewrite (load_single_hit w _ mt c s1 Hmt Hc Hfresh). }
  split; [reflexivity|]. split; [cbn; now rewrite app_assoc|].
  rewrite !count_app. destruct Hprobe as [->|[alt ->]]; now cbn.
Qed.

(** X2.  After a load that read the file, loading the same path again
    while its modification time is unchanged returns the same document
    from the cache: the second call opens nothing and leaves the cache
    alone. *)
Theorem load_twice_reads_once (w : world) (path : string) (s : state)
    (m : nat) (mt : Q) (d : json) :
  fs_getmtime w (abspath w path) = Ok mt ->
  not_fresh s (abspath w path) mt ->
  (m < 5)%nat ->
  (forall i, (i < m)%nat ->
     transient w (fs_read w (abspath w path)
                    (opens (abspath w path) (trace s) + i)) = true) ->
  fs_read w (abspath w path) (opens (abspath w path) (trace s) + m) = Ok d ->
  exists s1 s2 added,
    load_geojson w path s = (Ok d, s1)
    /\ load_geojson w path s1 = (Ok d, s2)
    /\ cache s2 = cache s1
    /\ trace s2 = trace s1 ++ added
    /\ count is_any_open added = 0%nat.
Proof.
  intros Hmt Hstale Hm Hfail Hd.
  destruct (load_geojson_run w path s m mt d Hmt Hstale Hm Hfail Hd)
    as (probe & _ & Hfirst).
  set (s1 := State _ _) in Hfirst. exists s1.
  assert (Hc : cache s1 !! abspath w path = Some (CacheEntry mt d)).
  { unfold s1. cbn. apply lookup_insert_eq. }
  assert (Hfresh : Qeq_bool (mtime (CacheEntry mt d)) mt = true).
  { cbn. apply Qeq_bool_iff. reflexivity. }
  destruct (candidates_shape w path s1) as (probe2 & rest & Hprobe2 & Hcands).
  exists (log (EvGetmtime (abspath w path)) (State (cache s1) (trace s1 ++ probe2))),
         (probe2 ++ [EvGetmtime (abspath w path)]).
  split; [exact Hfirst|]. split.
  { unfold load_geojson. rewrite Hcands. cbn [try_candidates].
    now rewrite (load_single_hit w _ mt _ (State (cache s1) (trace s1 ++ probe2))
                   Hmt Hc Hfresh). }
  split; [reflexivity|]. split; [cbn; now rewrite app_assoc|].
  rewrite count_app. destruct Hprobe2 as [->|[alt ->]]; now cbn.
Qed.

(** X3.  A file that is missing from the public data root (its
    modification time cannot be read) but present under the build data
    root at the same relative path is loaded from there: the primary file
    is never opened, and the cache entry is made under the mirror's
    path. *)
Theorem fallback_when_primary_missing (w : world) (path rel : string) (s : state)
    (e : exn) (mt : Q) (d : json) :
  let p := abspath w path in
  let alt := join w (_ALT_DATA_DIR w) rel in
  let q := abspath w alt in
  relpath w p (DATA_DIR w) = Some rel ->
  PyStr.startswith rel ".." = false ->
  fs_exists w alt = true ->
  fs_getmtime w p = Raise e ->
  fs_getmtime w q = Ok mt ->
  not_fresh s q mt ->
  fs_read w q (opens q (trace s)) = Ok d ->
  load_geojson w path s =
  (Ok d,
   State (<[q := CacheEntry mt d]> (cache s))
     (trace s ++ [EvExists alt; EvGetmtime p; EvGetmtime q; EvOpen q])).
Proof.
  intros p alt q Hrel Hdots Hex Hp Hq Hstale Hd.
  unfold load_geojson, candidates. fold p. rewrite Hrel, Hdots. cbn [negb].
  fold alt. rewrite Hex. fold q. cbn [try_candidates].
  unfold _load_from_single_path at 1. rewrite Hp.
  set (s1 := log (EvGetmtime p) (log (EvExists alt) s)).
  assert (Hop : opens q (trace s1) = opens q (trace s)).
  { unfold s1. cbn. rewrite !opens_app. cbn. lia. }
  pose proof (load_single_run w q mt 0 s1 Hq Hstale ltac:(lia)) as Hload.
  rewrite Hop, Nat.add_0_r in Hload.
  rewrite (Hload ltac:(intros i Hi; lia) d Hd).
  unfold s1. cbn. now rewrite <- !app_assoc.
Qed.

(** X4.  For a path outside the public data root ([relpath] fails or
    climbs out with [..]) [load_geojson] is exactly the single-path load:
    the build data root is not even probed and there is no second
    candidate. *)
Theorem no_mirror_outside_data_dir (w : world) (path : string) (s : state) :
  relpath w (abspath w path) (DATA_DIR w) = None
  \/ (exists rel, relpath w (abspath w path) (DATA_DIR w) = Some rel
                  /\ PyStr.startswith rel ".." = true) ->
  load_geojson w path s = _load_from_single_path w (abspath w path) s.
Proof.
  intros H. unfold load_geojson, candidates.
  destruct H as [->|(rel & -> & ->)]; cbn [negb try_candidates];
    now destruct (_load_from_single_path w (abspath w path) s) as [[d|e] s1].
Qed.

(** X5.  One call of [load_geojson] opens files at most 10 times, sleeps
    at most 8 times and spends at most 6.3018 s asleep, in every world. *)
Theorem load_effort_bounded (w : world) (path : string) (s : state)
    (r : result json) (s' : state) :
  load_geojson w path s = (r, s') ->
  exists added,
    trace s' = trace s ++ added
    /\ (count is_any_open added <= 10)%nat
    /\ (count is_sleep added <= 8)%nat
    /\ (slept added <= 63018 # 10000)%Q.
Proof.
  unfold load_geojson.
  destruct (candidates w path s) as [cands s1] eqn:Hc. intros H.
  destruct (candidates_count w path s cands s1 Hc)
    as (Hlen & probe & Hp & Ho0 & Hs0 & Hq0).
  destruct (try_candidates_effort w cands None s1 r s' H)
    as (added & Ht & Ho & Hs & Hq).
  exists (probe ++ added). split; [now rewrite Ht, Hp, app_assoc|].
  rewrite !count_app, Ho0, Hs0. split; [lia|]. split; [lia|].
  rewrite slept_app, Hq0.
  assert (inject_Z (Z.of_nat (length cands)) <= 2)%Q.
  { change 2%Q with (inject_Z 2). rewrite <- Zle_Qle. lia. }
  assert (63018 # 10000 == (31509 # 10000) * 2)%Q as -> by reflexivity.
  nra.
Qed.


End StoreMore.

Module StoreMoreExamples.
Import Store StoreFacts StoreMore Fixture.

(** The primary file is unchanged since it was cached but can no longer
    be read. *)
Definition unreadable : world :=
  posix (fun p => false) (fun p => Ok 1%Q) (fun p n => Raise (OSError (Some EIO))).

(** The primary file is gone; the mirror is there and reads. *)
Definition primary_gone : world :=
  posix (fun p => String.eqb p mirror)
    (fun p => if String.eqb p primary then Raise (OSError (Some ENOENT)) else Ok 7%Q)
    (fun p n => Ok (doc "mirror")).

Definition elsewhere : string := "/srv/other/units.geojson".

Lemma cache_hit_skips_file_witness :
  exists s', load_geojson unreadable primary warmed = (Ok (doc "old"), s')
             /\ cache s' = cache warmed.
Proof.
  destruct (cache_hit_skips_file unreadable primary warmed
              (CacheEntry 1 (doc "old")) 1%Q) as (s' & added & Hl & Hc & _).
  - reflexivity.
  - vm_compute. reflexivity.
  - reflexivity.
  - exists s'. now split.
Defined.

Lemma load_twice_reads_once_witness :
  exists s1 s2,
    load_geojson flaky primary fresh = (Ok (doc "primary"), s1)
    /\ load_geojson flaky primary s1 = (Ok (doc "primary"), s2)
    /\ cache s2 = cache s1.
Proof.
  destruct (load_twice_reads_once flaky primary fresh 2%nat 7%Q (doc "primary"))
    as (s1 & s2 & added & H1 & H2 & Hc & _).
  - reflexivity.
  - intros c Hc. vm_compute in Hc. discriminate Hc.
  - lia.
  - intros [|[|i]] Hi; [reflexivity|reflexivity|lia].
  - reflexivity.
  - exists s1, s2. now repeat split.
Defined.

Lemma fallback_when_primary_missing_witness :
  fst (load_geojson primary_gone primary fresh) = Ok (doc "mirror")
  /\ trace (snd (load_geojson primary_gone primary fresh))
     = [EvExists mirror; EvGetmtime primary; EvGetmtime mirror; EvOpen mirror].
Proof.
  rewrite (fallback_when_primary_missing primary_gone primary "units.geojson" fresh
             (OSError (Some ENOENT)) 7%Q (doc "mirror")).
  - split; reflexivity.
  - reflexivity.
  - reflexivity.
  - reflexivity.
  - reflexivity.
  - reflexivity.
  - intros c Hc. vm_compute in Hc. discriminate Hc.
  - reflexivity.
Defined.

Lemma no_mirror_outside_data_dir_witness :
  load_geojson flaky elsewhere fresh = _load_from_single_path flaky elsewhere fresh.
Proof.
  apply no_mirror_outside_data_dir. right.
  exists "../../../srv/other/units.geojson"%string. split; reflexivity.
Defined.

Lemma load_effort_bounded_witness :
  exists added,
    trace (snd (load_geojson both_broken primary fresh)) = trace fresh ++ added
    /\ (count is_any_open added <= 10)%nat.
Proof.
  destruct (load_geojson both_broken primary fresh) as [r s'] eqn:H.
  destruct (load_effort_bounded both_broken primary fresh r s' H)
    as (added & Ht & Ho & _).
  exists added. now split.
Defined.




End StoreMoreExamples.

(** ** CRS resolver: malformed [crs] members, letter case, range *)

Module CrsMore.
Import PyStr Crs CrsFacts.

Lemma lower_upper_char (c : ascii) : lower_char (upper_char c) = lower_char c.
Proof. each_char c; reflexivity. Qed.

Lemma upper_char_of_digit (c : ascii) : is_digit c = true -> upper_char c = c.
Proof. each_char c; intros H; try reflexivity; discriminate H. Qed.

Lemma digit_val_nonneg (c : ascii) : is_digit c = true -> (0 <= digit_val c)%Z.
Proof. each_char c; intros H; try discriminate H; vm_compute; discriminate. Qed.

(** Texts that differ in letter case only agree on their digits. *)
Lemma same_upper_cons (c d : ascii) (a b : string) :
  upper (String c a) = upper (String d b) ->
  upper a = upper b /\ is_digit c = is_digit d
  /\ (is_digit c = true -> c = d)
  /\ Ascii.eqb (lower_char c) (lower_char d) = true.
Proof.
  cbn [upper]. intros H. injection H as Hc Hs. split; [exact Hs|].
  assert (Hd : is_digit c = is_digit d).
  { now rewrite <- (upper_char_digit c), <- (upper_char_digit d), Hc. }
  split; [exact Hd|]. split.
  - intros H. rewrite <- (upper_char_of_digit c H), Hc.
    apply upper_char_of_digit. now rewrite <- Hd.
  - apply Ascii.eqb_eq.
    now rewrite <- (lower_upper_char c), <- (lower_upper_char d), Hc.
Qed.

Lemma same_upper_take_digits (a : string) :
  forall b, upper a = upper b -> take_digits a = take_digits b.
Proof.
  induction a as [|c a IH]; intros [|d b] H; try discriminate H; [reflexivity|].
  apply same_upper_cons in H as (Hs & Hd & Hcd & _). cbn [take_digits].
  rewrite <- Hd. destruct (is_digit c) eqn:E; [|reflexivity].
  now rewrite <- (Hcd eq_refl), (IH b Hs).
Qed.

Lemma same_upper_first_digit_run (a : string) :
  forall b, upper a = upper b -> first_digit_run a = first_digit_run b.
Proof.
  induction a as [|c a IH]; intros [|d b] H; try discriminate H; [reflexivity|].
  pose proof (same_upper_take_digits _ _ H) as Ht.
  apply same_upper_cons in H as (Hs & Hd & _ & _). cbn [first_digit_run].
  rewrite <- Hd. destruct (is_digit c); [now rewrite Ht|now apply IH].
Qed.

Lemma same_upper_re_lit_ci (p : string) :
  forall a b, upper a = upper b ->
    match re_lit_ci p a, re_lit_ci p b with
    | Some ra, Some rb => upper ra = upper rb
    | None, None => True
    | _, _ => False
    end.
Proof.
  induction p as [|x p IH]; intros a b H.
  - now destruct a, b.
  - destruct a as [|c a], b as [|d b]; try discriminate H; [exact I|].
    apply same_upper_cons in H as (Hs & _ & _ & Hl). cbn [re_lit_ci].
    apply Ascii.eqb_eq in Hl. rewrite <- Hl.
    destruct (Ascii.eqb (lower_char x) (lower_char c)); [now apply IH|exact I].
Qed.

Lemma same_upper_re_match_here (a b : string) :
  upper a = upper b -> re_match_here a = re_match_here b.
Proof.
  intros H. rewrite !re_match_here_tag.
  pose proof (same_upper_re_lit_ci "EPSG:" a b H) as Hr.
  destruct (re_lit_ci "EPSG:" a) as [ra|], (re_lit_ci "EPSG:" b) as [rb|];
    try contradiction; [|reflexivity].
  now apply same_upper_first_digit_run.
Qed.

Lemma same_upper_re_search (a : string) :
  forall b, upper a = upper b -> re_search a = re_search b.
Proof.
  induction a as [|c a IH]; intros [|d b] H; try discriminate H; [reflexivity|].
  cbn [re_search]. rewrite (same_upper_re_match_here _ _ H).
  destruct (re_match_here (String d b)); [reflexivity|].
  apply IH. now apply same_upper_cons in H.
Qed.

Lemma int_acc_nonneg (s : string) :
  forall acc n, (0 <= acc)%Z -> int_acc acc s = Some n -> (0 <= n)%Z.
Proof.
  induction s as [|c s IH]; intros acc n Hacc H; cbn in H.
  - now injection H as <-.
  - destruct (is_digit c) eqn:E; [|discriminate H].
    eapply IH; [|exact H]. pose proof (digit_val_nonneg c E). lia.
Qed.

Lemma guess_alias_known (u : string) :
  guess_alias u = 4326%Z \/ guess_alias u = 4283%Z \/ guess_alias u = 7844%Z.
Proof.
  unfold guess_alias.
  destruct (contains "CRS84" u); [now left|].
  destruct (_ || _ || _); [now right; left|].
  destruct (_ || _ || _); [now right; right|now left].
Qed.

Section Resolver.

Variable py_repr : json -> string.

(** X7.  What a malformed [crs] member does.  A collection that is not an
    object, a [crs] that is not an object ([null] included) and a
    [properties] that is truthy but not an object all raise
    [AttributeError]; a [crs] without [properties], a falsy [properties]
    ([null], [{}], [0], the empty text) and a [properties] without [name]
    are all taken as no declaration and give 4326. *)
Theorem crs_member_edge_cases :
  (forall fc, (forall items, fc <> JObj items) ->
      guess_epsg_from_geojson py_repr fc = Raise AttributeError)
  /\ (forall items v, assoc "crs" items = Some v -> (forall kvs, v <> JObj kvs) ->
        guess_epsg_from_geojson py_repr (JObj items) = Raise AttributeError)
  /\ (forall items kvs, assoc "crs" items = Some (JObj kvs) ->
        assoc "properties" kvs = None ->
        guess_epsg_from_geojson py_repr (JObj items) = Ok 4326%Z)
  /\ (forall items kvs p, assoc "crs" items = Some (JObj kvs) ->
        assoc "properties" kvs = Some p -> truthy p = false ->
        guess_epsg_from_geojson py_repr (JObj items) = Ok 4326%Z)
  /\ (forall items kvs p, assoc "crs" items = Some (JObj kvs) ->
        assoc "properties" kvs = Some p -> truthy p = true ->
        (forall props, p <> JObj props) ->
        guess_epsg_from_geojson py_repr (JObj items) = Raise AttributeError)
  /\ (forall items kvs props, assoc "crs" items = Some (JObj kvs) ->
        assoc "properties" kvs = Some (JObj props) -> assoc "name" props = None ->
        guess_epsg_from_geojson py_repr (JObj items) = Ok 4326%Z).
Proof.
  unfold guess_epsg_from_geojson, crs_name.
  split; [|split; [|split; [|split; [|split]]]].
  - intros fc H. destruct fc; try reflexivity. now destruct (H items).
  - intros items v Hc H. cbn. rewrite Hc.
    destruct v; try reflexivity. now destruct (H items0).
  - intros items kvs Hc Hp. cbn. now rewrite Hc; cbn; rewrite Hp.
  - intros items kvs p Hc Hp Hf. cbn. rewrite Hc. cbn. rewrite Hp.
    unfold py_or. rewrite Hf. reflexivity.
  - intros items kvs p Hc Hp Ht H. cbn. rewrite Hc. cbn. rewrite Hp.
    unfold py_or. rewrite Ht.
    destruct p; try reflexivity. now destruct (H items0).
  - intros items kvs props Hc Hp Hn. cbn. rewrite Hc. cbn. rewrite Hp.
    unfold py_or. destruct (truthy (JObj props)); cbn; [now rewrite Hn|reflexivity].
Qed.

(** X8.  The resolver does not look at letter case: two collections whose
    crs names agree once upper-cased get the same code. *)
Theorem guess_ignores_letter_case (fc1 fc2 : json) (a b : string) :
  crs_name py_repr fc1 = Ok a ->
  crs_name py_repr fc2 = Ok b ->
  upper a = upper b ->
  guess_epsg_from_geojson py_repr fc1 = guess_epsg_from_geojson py_repr fc2.
Proof.
  intros Ha Hb H. rewrite (guess_of_name py_repr fc1 a Ha), (guess_of_name py_repr fc2 b Hb).
  unfold guess_epsg_from_name. now rewrite (same_upper_re_search a b H), H.
Qed.

(** X9.  The code returned is never negative, and for a name without any
    [EPSG:] tag it is one of 4326, 4283 and 7844. *)
Theorem guess_range (fc : json) (name : string) (n : Z) :
  crs_name py_repr fc = Ok name ->
  guess_epsg_from_geojson py_repr fc = Ok n ->
  (0 <= n)%Z
  /\ (after_tag name = None -> n = 4326%Z \/ n = 4283%Z \/ n = 7844%Z).
Proof.
  intros Hname. rewrite (guess_of_name py_repr fc name Hname).
  intros H. injection H as <-. unfold guess_epsg_from_name. split.
  - assert (Halias : (0 <= guess_alias (upper name))%Z).
    { destruct (guess_alias_known (upper name)) as [H | [H | H]]; rewrite H; lia. }
    destruct (re_search name) as [g|]; [|exact Halias].
    destruct (int g) as [m|] eqn:E; [|exact Halias].
    unfold int in E. destruct g as [|c g]; [discriminate E|].
    destruct (_ <? _)%Z; [discriminate E|].
    now apply (int_acc_nonneg _ _ _ (Z.le_refl 0) E).
  - intros Hno. rewrite (re_search_no_tag name Hno). apply guess_alias_known.
Qed.

End Resolver.

Lemma crs_member_edge_cases_witness :
  guess_epsg_from_geojson no_repr (JObj [("crs", JNull)]) = Raise AttributeError
  /\ guess_epsg_from_geojson no_repr (JObj [("crs", JObj [("properties", JNull)])])
     = Ok 4326%Z.
Proof.
  destruct (crs_member_edge_cases no_repr) as (_ & Hcrs & _ & Hfalsy & _).
  split.
  - apply (Hcrs [("crs", JNull)] JNull eq_refl). discriminate.
  - now apply (Hfalsy _ [("properties", JNull)] JNull).
Defined.

Lemma guess_ignores_letter_case_witness :
  guess_epsg_from_geojson no_repr (fc_named "urn:ogc:def:crs:epsg::7844")
  = guess_epsg_from_geojson no_repr (fc_named "URN:OGC:DEF:CRS:EPSG::7844").
Proof.
  now apply (guess_ignores_letter_case no_repr _ _
               "urn:ogc:def:crs:epsg::7844" "URN:OGC:DEF:CRS:EPSG::7844").
Defined.

Lemma guess_range_witness :
  exists n, guess_epsg_from_geojson no_repr (fc_named "GDA94") = Ok n
            /\ (0 <= n)%Z /\ (n = 4326 \/ n = 4283 \/ n = 7844)%Z.
Proof.
  exists 4283%Z. split; [reflexivity|].
  destruct (guess_range no_repr (fc_named "GDA94") "GDA94" 4283%Z eq_refl eq_refl)
    as [H0 H1].
  split; [exact H0|]. now apply H1.
Defined.

End CrsMore.

(** ** Reprojector: MultiPolygons, positions with altitude, composition *)

Module ReprojectMore.
Import Reproject ReprojectFacts.

(** A MultiPolygon's coordinates: a list of polygons. *)
Definition multipolygon (polys : list (list (list (Q * Q)))) : json :=
  JArr (map polygon polys).

Definition multipolygon_geometry (polys : list (list (list (Q * Q)))) : json :=
  JObj [("type", JStr "MultiPolygon"); ("coordinates", multipolygon polys)].

(** A position with an altitude, and a polygon made of such positions. *)
Definition position3 (xyz : Q * Q * Q) : json :=
  JArr [JNum (fst (fst xyz)); JNum (snd (fst xyz)); JNum (snd xyz)].

Definition polygon3 (rings : list (list (Q * Q * Q))) : json :=
  JArr (map (fun r => JArr (map position3 r)) rings).

(** Anything but a list. *)
Definition scalar (c : json) : bool :=
  match c with
  | JArr _ => false
  | _ => true
  end.

Section WithPyproj.

Variable transformer : Type.
Variable transform : transformer -> json -> json -> result (Q * Q).

Abbreviation transform_coords := (Reproject.transform_coords transformer transform).
Abbreviation transform_pair := (ReprojectFacts.transform_pair transformer transform).

(** A list that is not of length 2 is transformed item by item, numbers
    or not. *)
Lemma transform_coords_not_pair (t : transformer) (c0 : json) (l : list json) :
  as_pair (c0 :: l) = None ->
  transform_coords t (JArr (c0 :: l)) =
  let? l' := map_result (transform_coords t) (c0 :: l) in Ok (JArr l').
Proof.
  intros Hp.
  assert (Heach : forall cs,
             (fix each (cs : list json) : result (list json) :=
                match cs with
                | [] => Ok []
                | c :: cs' =>
                    let? c' := transform_coords t c in
                    let? r := each cs' in
                    Ok (c' :: r)
                end) cs = map_result (transform_coords t) cs).
  { induction cs as [|c cs IH]; [reflexivity|]. cbn [map_result]. now rewrite <- IH. }
  cbn [Reproject.transform_coords]. rewrite Hp.
  destruct (is_number c0); cbn [map_result]; now rewrite Heach.
Qed.

Lemma map_result_fixed (t : transformer) (l : list json) :
  (forall c, In c l -> transform_coords t c = Ok c) ->
  map_result (transform_coords t) l = Ok l.
Proof.
  induction l as [|c l IH]; intros H; [reflexivity|].
  cbn [map_result]. rewrite (H c (or_introl eq_refl)). cbn.
  rewrite IH; [reflexivity|]. intros c' Hc'. apply H. now right.
Qed.

Lemma transform_coords_scalar (t : transformer) (c : json) :
  scalar c = true -> transform_coords t c = Ok c.
Proof. destruct c; now intros H. Qed.

Lemma transform_coords_fixed_items (t : transformer) (l : list json) :
  length l <> 2%nat ->
  (forall c, In c l -> transform_coords t c = Ok c) ->
  transform_coords t (JArr l) = Ok (JArr l).
Proof.
  intros Hlen H. destruct l as [|c0 l]; [reflexivity|].
  rewrite transform_coords_not_pair.
  - now rewrite (map_result_fixed t _ H).
  - destruct l as [|c1 [|c2 l]]; try reflexivity. now destruct Hlen.
Qed.

Lemma transform_coords_position3 (t : transformer) (xyz : Q * Q * Q) :
  transform_coords t (position3 xyz) = Ok (position3 xyz).
Proof. reflexivity. Qed.

(** A list of lists is never taken for a coordinate pair. *)
Lemma transform_coords_lists (t : transformer) (l : list json) :
  (forall c, In c l -> scalar c = false) ->
  transform_coords t (JArr l) =
  let? l' := map_result (transform_coords t) l in Ok (JArr l').
Proof.
  intros H. destruct l as [|c0 l]; [reflexivity|].
  apply transform_coords_items.
  specialize (H c0 (or_introl eq_refl)). now destruct c0.
Qed.

Lemma transform_coords_multipolygon (t : transformer)
    (polys : list (list (list (Q * Q)))) :
  transform_coords t (multipolygon polys) =
  let? polys' := map_result (map_result (map_result (transform_pair t))) polys in
  Ok (multipolygon polys').
Proof.
  unfold multipolygon. rewrite transform_coords_lists.
  - rewrite map_result_map.
    rewrite (map_result_ext _
               (fun rings =>
                  let? rings' := map_result (map_result (transform_pair t)) rings in
                  Ok (polygon rings'))).
    + rewrite (map_result_then (map_result (map_result (transform_pair t))) polygon).
      now destruct (map_result _ polys).
    + intros rings. apply transform_coords_polygon.
  - intros c Hc. apply in_map_iff in Hc as (rings & <- & _). reflexivity.
Qed.

(** A transformer that never fails on numbers maps a polygon to the
    polygon of the images. *)
Lemma transform_coords_total (t : transformer) (f : Q * Q -> Q * Q)
    (rings : list (list (Q * Q))) :
  (forall xy, transform_pair t xy = Ok (f xy)) ->
  transform_coords t (polygon rings) = Ok (polygon (map (map f) rings)).
Proof.
  intros Hf. rewrite transform_coords_polygon.
  assert (Hring : forall r, map_result (transform_pair t) r = Ok (map f r)).
  { induction r as [|xy r IH]; [reflexivity|]. cbn. now rewrite Hf, IH. }
  assert (Hrings : map_result (map_result (transform_pair t)) rings
                   = Ok (map (map f) rings)).
  { induction rings as [|r rings IH]; [reflexivity|]. cbn. now rewrite Hring, IH. }
  now rewrite Hrings.
Qed.

Lemma transform_coords_polygon3 (t : transformer) (rings : list (list (Q * Q * Q))) :
  transform_coords t (polygon3 rings) = Ok (polygon3 rings).
Proof.
  assert (Hring : forall r : list (Q * Q * Q),
             transform_coords t (JArr (map position3 r)) = Ok (JArr (map position3 r))).
  { intros r. rewrite transform_coords_lists.
    - rewrite map_result_fixed; [reflexivity|].
      intros c Hc. apply in_map_iff in Hc as (xyz & <- & _). reflexivity.
    - intros c Hc. apply in_map_iff in Hc as (xyz & <- & _). reflexivity. }
  unfold polygon3. rewrite transform_coords_lists.
  - rewrite map_result_fixed; [reflexivity|].
    intros c Hc. apply in_map_iff in Hc as (r & <- & _). apply Hring.
  - intros c Hc. apply in_map_iff in Hc as (r & <- & _). reflexivity.
Qed.

Lemma map_result_lengths3 {A B} (f : A -> result B) (ls : list (list (list A)))
    (rs : list (list (list B))) :
  map_result (map_result (map_result f)) ls = Ok rs ->
  map (map (@length B)) rs = map (map (@length A)) ls.
Proof.
  revert rs. induction ls as [|l ls IH]; cbn; intros rs H.
  - now injection H as <-.
  - destruct (map_result (map_result f) l) as [r|e] eqn:Hr; cbn in H; [|discriminate H].
    destruct (map_result (map_result (map_result f)) ls) as [rs'|e]; cbn in H;
      [|discriminate H].
    injection H as <-. cbn. now rewrite (map_result_lengths f l r Hr), (IH rs' eq_refl).
Qed.

End WithPyproj.

Section Geometry.

Variable transformer : Type.
Variable from_crs : Z -> Z -> result transformer.
Variable transform : transformer -> json -> json -> result (Q * Q).

Abbreviation reproject :=
  (reproject_feature_geometry transformer from_crs transform).

(** X10.  A MultiPolygon is reprojected like a Polygon, one level deeper:
    the result is what transforming every coordinate pair on its own and
    reassembling gives (the first exception included), it is again a
    MultiPolygon with the same number of polygons, rings and positions,
    and [reproject_feature_geometry] returns it under the type
    [MultiPolygon]. *)
Theorem multipolygon_homomorphism :
  (forall (t : transformer) (polys : list (list (list (Q * Q)))),
      Reproject.transform_coords transformer transform t (multipolygon polys)
      = let? polys' :=
          map_result (map_result (map_result
            (ReprojectFacts.transform_pair transformer transform t))) polys in
        Ok (multipolygon polys'))
  /\ (forall (t : transformer) (polys : list (list (list (Q * Q)))) (out : json),
        Reproject.transform_coords transformer transform t (multipolygon polys) = Ok out ->
        exists polys', out = multipolygon polys'
                       /\ map (map (@length (Q * Q))) polys'
                          = map (map (@length (Q * Q))) polys)
  /\ (forall (src dst : Z) (t : transformer) (polys : list (list (list (Q * Q)))),
        from_crs src dst = Ok t ->
        reproject (multipolygon_geometry polys) src dst
        = let? coords :=
            Reproject.transform_coords transformer transform t (multipolygon polys) in
          Ok (JObj [("type", JStr "MultiPolygon"); ("coordinates", coords)])).
Proof.
  split; [|split].
  - intros t polys. apply transform_coords_multipolygon.
  - intros t polys out. rewrite transform_coords_multipolygon.
    destruct (map_result _ polys) as [polys'|e] eqn:Hr; cbn; [|discriminate].
    intros H. injection H as <-. exists polys'. split; [reflexivity|].
    now apply (map_result_lengths3 _ _ _ Hr).
  - intros src dst t polys Ht. unfold reproject_feature_geometry. rewrite Ht.
    reflexivity.
Qed.

(** X11.  Positions that are not pairs are not reprojected.  A list of
    non-list items whose length is not 2 comes back as it is, so a
    polygon whose positions carry an altitude is returned with its
    coordinates unchanged, by [transform_coords] and by
    [reproject_feature_geometry], whatever the two coordinate systems. *)
Theorem altitude_left_untransformed :
  (forall (t : transformer) (l : list json),
      length l <> 2%nat -> forallb scalar l = true ->
      Reproject.transform_coords transformer transform t (JArr l) = Ok (JArr l))
  /\ (forall (t : transformer) (rings : list (list (Q * Q * Q))),
        Reproject.transform_coords transformer transform t (polygon3 rings)
        = Ok (polygon3 rings))
  /\ (forall (src dst : Z) (t : transformer) (rings : list (list (Q * Q * Q))),
        from_crs src dst = Ok t ->
        reproject (JObj [("type", JStr "Polygon"); ("coordinates", polygon3 rings)])
          src dst
        = Ok (JObj [("type", JStr "Polygon"); ("coordinates", polygon3 rings)])).
Proof.
  split; [|split].
  - intros t l Hlen Hs. apply transform_coords_fixed_items; [exact Hlen|].
    intros c Hc. apply transform_coords_scalar.
    rewrite forallb_forall in Hs. now apply Hs.
  - apply transform_coords_polygon3.
  - intros src dst t rings Ht. unfold reproject_feature_geometry. rewrite Ht.
    transitivity
      (let? new_coords :=
         Reproject.transform_coords transformer transform t (polygon3 rings) in
       Ok (JObj [("type", JStr "Polygon"); ("coordinates", new_coords)]));
      [reflexivity|].
    now rewrite transform_coords_polygon3.
Qed.

(** X12.  With transformers that never fail on numbers, reprojecting a
    polygon maps every position and nothing else: the identity
    transformer returns the polygon itself, and reprojecting twice is
    reprojecting once with the composed transformer. *)
Theorem reprojection_composes (t1 t2 t12 : transformer) (f1 f2 : Q * Q -> Q * Q) :
  (forall xy, ReprojectFacts.transform_pair transformer transform t1 xy = Ok (f1 xy)) ->
  (forall xy, ReprojectFacts.transform_pair transformer transform t2 xy = Ok (f2 xy)) ->
  (forall xy, ReprojectFacts.transform_pair transformer transform t12 xy
              = Ok (f2 (f1 xy))) ->
  forall rings : list (list (Q * Q)),
    Reproject.transform_coords transformer transform t1 (polygon rings)
    = Ok (polygon (map (map f1) rings))
    /\ ((forall xy, f1 xy = xy) ->
        Reproject.transform_coords transformer transform t1 (polygon rings)
        = Ok (polygon rings))
    /\ (let? once := Reproject.transform_coords transformer transform t1 (polygon rings) in
        Reproject.transform_coords transformer transform t2 once)
       = Reproject.transform_coords transformer transform t12 (polygon rings).
Proof.
  intros H1 H2 H12 rings.
  pose proof (transform_coords_total transformer transform t1 f1 rings H1) as E1.
  split; [exact E1|]. split.
  - intros Hid. rewrite E1. do 2 f_equal.
    rewrite <- (map_id rings) at 2. apply map_ext. intros r.
    rewrite <- (map_id r) at 2. now apply map_ext.
  - rewrite E1. cbn [rbind].
    rewrite (transform_coords_total transformer transform t2 f2 _ H2).
    rewrite (transform_coords_total transformer transform t12 _ rings H12).
    do 2 f_equal. rewrite map_map. apply map_ext. intros r. now rewrite map_map.
Qed.

End Geometry.

Lemma multipolygon_homomorphism_witness :
  reproject_feature_geometry (Z * Z) Boxes.flat_from_crs Boxes.flat_transform
    (multipolygon_geometry [[[(1, 2); (3, 4)]]; [[(5, 6)]; []]]%Q) 4283 3857
  = Ok (multipolygon_geometry
          [[[(100000, 200000); (300000, 400000)]]; [[(500000, 600000)]; []]]%Q).
Proof.
  destruct (multipolygon_homomorphism (Z * Z) Boxes.flat_from_crs Boxes.flat_transform)
    as (_ & _ & H).
  rewrite (H 4283%Z 3857%Z (4283, 3857)%Z _ eq_refl). reflexivity.
Defined.

Lemma altitude_left_untransformed_witness :
  reproject_feature_geometry (Z * Z) Boxes.flat_from_crs Boxes.flat_transform
    (JObj [("type", JStr "Polygon");
           ("coordinates", polygon3 [[(1, 2, 30); (3, 4, 30); (1, 2, 30)]%Q])])
    4326 3857
  = Ok (JObj [("type", JStr "Polygon");
              ("coordinates", polygon3 [[(1, 2, 30); (3, 4, 30); (1, 2, 30)]%Q])]).
Proof.
  destruct (altitude_left_untransformed (Z * Z) Boxes.flat_from_crs Boxes.flat_transform)
    as (_ & _ & H).
  now apply (H 4326%Z 3857%Z (4326, 3857)%Z).
Defined.

Lemma reprojection_composes_witness :
  Reproject.transform_coords (Z * Z) Boxes.flat_transform (3857, 3857)%Z
    (polygon [[(1, 2); (3, 4)]%Q])
  = Ok (polygon [[(1, 2); (3, 4)]%Q]).
Proof.
  refine (proj1 (proj2 (reprojection_composes (Z * Z) Boxes.flat_transform
            (3857, 3857)%Z (3857, 3857)%Z (3857, 3857)%Z
            (fun xy => (fst xy, snd xy)) (fun xy => (fst xy, snd xy))
            _ _ _ [[(1, 2); (3, 4)]%Q])) _);
    try (intros xy; reflexivity).
  intros [x y]. reflexivity.
Defined.

End ReprojectMore.

(** ** Request handler: validation, responses, records, skipped features *)

Module OverlayMore.
Import Catalog Reproject Overlay OverlayFacts.

(** The three labels a response can carry. *)
Definition unit_label (u : string) : Prop :=
  u = "SA1"%string \/ u = "MB"%string \/ u = "DZN"%string.

(** A JSON object. *)
Definition is_object (v : json) : bool :=
  match v with
  | JObj _ => true
  | _ => false
  end.

Lemma spatial_unit_label (key : string) (yr : Z) (u : string * string) :
  spatial_unit_of key yr = Ok u -> unit_label (snd u).
Proof.
  unfold spatial_unit_of, unit_label.
  repeat match goal with
         | |- (if ?c then _ else _) = _ -> _ => destruct c
         | |- match ?d with Some _ => _ | None => _ end = _ -> _ => destruct d
         end;
    intros H; try discriminate H; injection H as <-; cbn; auto.
Qed.

Section Handler.

Variable L : libs.
Variable w : Store.world.

(** Every way [overlay] can end without raising. *)
Lemma overlay_outcomes (name : string) (yr : Z) (key : string) (vp : option string)
    (precincts_fc data_fc : json) (resp : response) :
  overlay L name yr key vp precincts_fc data_fc = Ok resp ->
  resp = Failure 404 (PrecinctNotFound name)
  \/ resp = Failure 500 PrecinctGeometryInvalid
  \/ exists (p_union : geom L) (data_epsg : Z) (unit : string * string)
            (df : json) (feats : list json),
       spatial_unit_of key yr = Ok unit
       /\ py_get data_fc "features" (JArr []) = Ok df
       /\ py_iter df = Ok feats
       /\ let found :=
            flat_map (record_of L p_union (geom_area L p_union) data_epsg (fst unit) vp)
              feats in
          resp = Success
                   (OverlayResult name yr (geom_area L p_union) (snd unit)
                      (length (sort_reverse areaPct found))
                      (length (sort_reverse areaPct found))
                      (sort_reverse areaPct found)).
Proof.
  intros H. unfold overlay in H.
  repeat step H; injection H as <-;
    try (left; reflexivity); try (right; left; reflexivity).
  right. right.
  match goal with
  | Hs : scan_features _ ?pu _ ?ep (fst ?u) _ ?fs _ = Ok _,
    Hd : py_get data_fc _ _ = Ok ?df |- _ =>
      apply scan_features_flat in Hs; cbn [app] in Hs; subst;
      exists pu, ep, u, df, fs
  end.
  split; [reflexivity|]. split; [reflexivity|]. split; [assumption|]. reflexivity.
Qed.

Lemma flat_map_length_le {A B} (f : A -> list B) (l : list A) :
  (forall a, (length (f a) <= 1)%nat) ->
  (length (flat_map f l) <= length l)%nat.
Proof.
  intros H. induction l as [|a l IH]; cbn; [lia|].
  rewrite length_app. specialize (H a). lia.
Qed.

End Handler.

(** X13.  Every response of the handler is one of these: a 200; a 400
    for a missing precinct name or an unsupported year, given before any
    file is looked at (the store's state is untouched); a 404 that names
    the precinct asked for; a 500 for an invalid precinct geometry or for
    an exception caught at the top.  A 200 repeats the precinct name of
    the request, carries one of the labels SA1, MB and DZN, and both of
    its counts are the number of its records. *)
Theorem responses_classified (L : libs) (w : Store.world) (req : request)
    (s : Store.state) (resp : response) (s' : Store.state) :
  precinct_overlay L w req s = (resp, s') ->
  match resp with
  | Success r =>
      precinctName req = Some (precinct r)
      /\ unit_label (spatialUnit r)
      /\ intersectCount r = length (intersections r)
      /\ dznIntersectCount r = length (intersections r)
  | Failure status message =>
      (status = 400%Z /\ s' = s
       /\ (message = MissingPrecinctName \/ exists y, message = UnsupportedYear y))
      \/ (status = 404%Z
          /\ exists n, precinctName req = Some n /\ message = PrecinctNotFound n)
      \/ (status = 500%Z
          /\ (message = PrecinctGeometryInvalid \/ exists e, message = Unhandled e))
  end.
Proof.
  unfold precinct_overlay, handle.
  destruct (precinctName req) as [name|];
    [|intros H; injection H as <- <-; left; auto].
  destruct (String.eqb name EmptyString);
    [intros H; injection H as <- <-; left; auto|].
  destruct (no_file _);
    [intros H; injection H as <- <-; left; eauto|].
  destruct (data_file _) as [file|];
    [|intros H; injection H as <- <-; right; right; eauto].
  destruct (Store.load_geojson w _ s) as [[precincts_fc|e] s1];
    [|intros H; injection H as <- <-; right; right; eauto].
  destruct (Store.load_geojson w _ s1) as [[data_fc|e] s2];
    [|intros H; injection H as <- <-; right; right; eauto].
  destruct (overlay L name _ _ _ precincts_fc data_fc) as [resp0|e] eqn:Ho;
    [|intros H; injection H as <- <-; right; right; eauto].
  intros H; injection H as <- <-.
  destruct (overlay_outcomes L _ _ _ _ _ _ _ Ho)
    as [->|[->|(p_union & data_epsg & unit & df & feats & Hu & _ & _ & ->)]].
  - right. left. eauto.
  - right. right. auto.
  - cbn. split; [reflexivity|]. split; [|now split].
    eapply spatial_unit_label, Hu.
Qed.

(** X14.  Once the unsupported-year guard has let a request through, the
    lookup of the code property by year cannot fail: for every indicator
    key and year with a data file, [spatial_unit_of] returns a code
    property and one of the labels SA1, MB and DZN.  The [KeyError] of
    [{...}[year]] is unreachable in the handler. *)
Theorem code_prop_lookup_never_fails (text : string) (yr : Z) :
  let key := resolve_indicator text in
  let sel := select_dataset key yr in
  no_file (data_file sel) = false ->
  exists u, spatial_unit_of key (sel_year sel) = Ok u /\ unit_label (snd u).
Proof.
  intros key sel Hfile.
  assert (Hok : exists u, spatial_unit_of key (sel_year sel) = Ok u).
  { revert Hfile. unfold sel.
    assert (Hkeys : In key ["spec"; "socinfra"; "housing_stress"; "lum"; "age_mix";
                            "income_mix"; "walkability"; "residents_sa1"; "dwellings";
                            "residents"; "jobs"]%string).
    { unfold key, resolve_indicator.
      repeat match goal with
             | |- context [if ?c then _ else _] => destruct c
             end; cbn; tauto. }
    cbn in Hkeys.
    repeat (destruct Hkeys as [<-|Hkeys]); try contradiction;
      cbv [select_dataset spatial_unit_of key_is String.eqb Ascii.eqb Bool.eqb orb
           dict_get sel_year data_file no_file not_in_18_21 negb];
      repeat match goal with
             | |- context [(yr =? ?k)%Z] => destruct (yr =? k)%Z
             end;
      intros H; try discriminate H; eauto. }
  destruct Hok as [u Hu]. exists u. split; [exact Hu|].
  eapply spatial_unit_label, Hu.
Qed.

(** X15.  The records of a 200 response, with nothing assumed of
    shapely: each has a positive intersection area and a positive feature
    area, [areaPctFeature] is their quotient, [areaPct] and
    [areaPctPrecinct] are the intersection area over [precinctArea] (0
    when that is not positive), and there are no more records than the
    dataset has features. *)
Theorem records_are_positive (L : libs) (w : Store.world) (req : request)
    (s s' : Store.state) (r : overlay_result) :
  precinct_overlay L w req s = (Success r, s') ->
  Forall (fun i =>
            (0 < area i)%Q /\ (0 < featureArea i)%Q
            /\ areaPctFeature i = (area i / featureArea i)%Q
            /\ areaPctPrecinct i
               = (if positive (precinctArea r)
                  then (area i / precinctArea r)%Q else 0%Q)
            /\ areaPct i = areaPctPrecinct i) (intersections r)
  /\ exists (data_path : string) (s1 : Store.state) (data_fc df : json)
            (feats : list json),
       Store.load_geojson w data_path s1 = (Ok data_fc, s')
       /\ py_get data_fc "features" (JArr []) = Ok df
       /\ py_iter df = Ok feats
       /\ (intersectCount r <= length feats)%nat.
Proof.
  intros H.
  destruct (precinct_overlay_success L w req s s' r H)
    as (name & file & s1 & precincts_fc & data_fc & _ & _ & Hload & Ho).
  destruct (overlay_outcomes L _ _ _ _ _ _ _ Ho)
    as [Hr|[Hr|(p_union & data_epsg & unit & df & feats & _ & Hdf & Hfeats & Hr)]];
    try discriminate Hr.
  injection Hr as ->. cbn [intersections precinctArea intersectCount]. split.
  - eapply Permutation_Forall; [apply sort_reverse_perm|].
    apply Forall_flat_map, Forall_forall. intros f _. apply record_of_facts.
  - eexists _, s1, data_fc, df, feats.
    split; [exact Hload|]. split; [exact Hdf|]. split; [exact Hfeats|].
    rewrite <- (Permutation_length (sort_reverse_perm areaPct _)).
    apply flat_map_length_le. intros f. apply record_of_length.
Qed.

Section Features.

Variable L : libs.
Variable p_union : geom L.
Variable p_area : Q.
Variable data_epsg : Z.
Variable code_prop : string.
Variable val_prop : option string.

Abbreviation scan := (scan_features L p_union p_area data_epsg code_prop val_prop).
Abbreviation records := (record_of L p_union p_area data_epsg code_prop val_prop).

(** On features that are objects the loop cannot raise. *)
Lemma scan_features_objects (feats : list json) :
  forall acc,
    forallb is_object feats = true ->
    scan feats acc = Ok (acc ++ flat_map records feats).
Proof.
  induction feats as [|f feats IH]; intros acc H; cbn [scan_features flat_map].
  - now rewrite app_nil_r.
  - cbn [forallb] in H. apply andb_true_iff in H as [Hf Hrest].
    destruct f; try discriminate Hf. unfold record_of at 1.
    cbn [py_get rbind].
    destruct (truthy _); cbn [negb]; [|now apply IH].
    destruct (feature_record L p_union p_area data_epsg code_prop val_prop _ _)
      as [[r|]|]; rewrite (IH _ Hrest); [|reflexivity|reflexivity].
    now rewrite <- app_assoc.
Qed.

(** A feature that is not an object ends the loop with the
    [AttributeError] of [f.get]. *)
Lemma scan_features_abort (pre : list json) (f : json) (post : list json) :
  forall acc,
    forallb is_object pre = true -> is_object f = false ->
    scan (pre ++ f :: post) acc = Raise AttributeError.
Proof.
  induction pre as [|p pre IH]; intros acc Hpre Hf; cbn [app scan_features].
  - now destruct f.
  - cbn [forallb] in Hpre. apply andb_true_iff in Hpre as [Hp Hpre].
    destruct p; try discriminate Hp. cbn [py_get rbind].
    destruct (truthy _); cbn [negb]; [|now apply IH].
    destruct (feature_record L p_union p_area data_epsg code_prop val_prop _ _)
      as [[r|]|]; now apply IH.
Qed.

Lemma record_of_skipped (f g : json) :
  py_get f "geometry" JNull = Ok g ->
  truthy g = false
  \/ (exists e, feature_record L p_union p_area data_epsg code_prop val_prop f g
                = Raise e) ->
  records f = [].
Proof.
  intros Hg H. unfold record_of. rewrite Hg.
  destruct H as [->|[e ->]]; [reflexivity|]. now destruct (truthy g).
Qed.

End Features.

(** X16.  How the feature loop treats bad features.  On a dataset whose
    features are all JSON objects it never raises and returns the records
    in feature order.  A feature without geometry, or one whose
    processing raises anything at all, contributes nothing: the result is
    what it would be without that feature.  A feature that is not an
    object, though, aborts the loop with an [AttributeError].  And when
    pyproj cannot build the transformer for the dataset's EPSG code,
    every feature is skipped and the result is empty. *)
Theorem malformed_features_are_skipped (L : libs) (p_union : geom L) (p_area : Q)
    (data_epsg : Z) (code_prop : string) (val_prop : option string) :
  (forall feats,
      forallb is_object feats = true ->
      scan_features L p_union p_area data_epsg code_prop val_prop feats []
      = Ok (flat_map (record_of L p_union p_area data_epsg code_prop val_prop) feats))
  /\ (forall pre f post g,
        forallb is_object (pre ++ f :: post) = true ->
        py_get f "geometry" JNull = Ok g ->
        truthy g = false
        \/ (exists e, feature_record L p_union p_area data_epsg code_prop val_prop f g
                      = Raise e) ->
        scan_features L p_union p_area data_epsg code_prop val_prop (pre ++ f :: post) []
        = scan_features L p_union p_area data_epsg code_prop val_prop (pre ++ post) [])
  /\ (forall pre f post,
        forallb is_object pre = true -> is_object f = false ->
        scan_features L p_union p_area data_epsg code_prop val_prop (pre ++ f :: post) []
        = Raise AttributeError)
  /\ (forall e feats,
        from_crs L data_epsg 3857 = Raise e ->
        forallb is_object feats = true ->
        scan_features L p_union p_area data_epsg code_prop val_prop feats [] = Ok []).
Proof.
  split; [|split; [|split]].
  - intros feats H. now rewrite scan_features_objects.
  - intros pre f post g Hobj Hg Hskip.
    assert (Hobj' : forallb is_object (pre ++ post) = true).
    { rewrite forallb_app in *. cbn [forallb] in Hobj.
      apply andb_true_iff in Hobj as [Hpre Hrest].
      apply andb_true_iff in Hrest as [_ Hpost]. now rewrite Hpre, Hpost. }
    rewrite !scan_features_objects by assumption. cbn [app].
    rewrite !flat_map_app. cbn [flat_map].
    now rewrite (record_of_skipped L _ _ _ _ _ f g Hg Hskip).
  - intros pre f post Hpre Hf. now apply scan_features_abort.
  - intros e feats Hcrs Hobj. rewrite scan_features_objects by assumption.
    cbn [app]. f_equal.
    assert (Hnil : forall f,
               record_of L p_union p_area data_epsg code_prop val_prop f = []).
    { intros f. unfold record_of.
      destruct (py_get f "geometry" JNull) as [g|]; [|reflexivity].
      destruct (truthy g); [|reflexivity].
      unfold feature_record, reproject, reproject_feature_geometry. now rewrite Hcrs. }
    clear Hobj. induction feats as [|f feats IH]; [reflexivity|].
    cbn [flat_map]. now rewrite Hnil, IH.
Qed.




End OverlayMore.

(** ** What one request costs the file system *)

Module RequestEffort.
Import Store StoreFacts StoreMore Overlay.

Lemma load_geojson_effort (w : world) (path : string) (s : state)
    (r : result json) (s' : state) :
  load_geojson w path s = (r, s') ->
  exists added,
    trace s' = trace s ++ added
    /\ (count is_any_open added <= 10)%nat
    /\ (count is_sleep added <= 8)%nat
    /\ (slept added <= 63018 # 10000)%Q.
Proof.
  unfold load_geojson.
  destruct (candidates w path s) as [cands s1] eqn:Hc. intros H.
  destruct (candidates_count w path s cands s1 Hc)
    as (Hlen & probe & Hp & Ho0 & Hs0 & Hq0).
  destruct (try_candidates_effort w cands None s1 r s' H)
    as (added & Ht & Ho & Hs & Hq).
  exists (probe ++ added). split; [now rewrite Ht, Hp, app_assoc|].
  rewrite !count_app, Ho0, Hs0. split; [lia|]. split; [lia|].
  rewrite slept_app, Hq0.
  assert (inject_Z (Z.of_nat (length cands)) <= 2)%Q.
  { change 2%Q with (inject_Z 2). rewrite <- Zle_Qle. lia. }
  assert (63018 # 10000 == (31509 # 10000) * 2)%Q as -> by reflexivity.
  nra.
Qed.

(** One load: what it adds to the log concerns its file or the mirror,
    and stays within the bounds. *)
Lemma load_geojson_log (w : world) (path : string) (s : state)
    (r : result json) (s' : state) :
  load_geojson w path s = (r, s') ->
  exists added,
    trace s' = trace s ++ added
    /\ Forall (fun e => about (file_paths w path) e = true) added
    /\ (count is_any_open added <= 10)%nat
    /\ (count is_sleep added <= 8)%nat
    /\ (slept added <= 63018 # 10000)%Q.
Proof.
  intros H.
  destruct (load_geojson_effort w path s r s' H) as (added & Ht & Ho & Hs & Hq).
  destruct (load_geojson_about w path s r s' H) as (added' & Ht' & Ha).
  rewrite Ht in Ht'. apply app_inv_head in Ht'. subst added'.
  exists added. now repeat split.
Qed.

(** X18.  One request looks at two files at most, the boundary file
    first and then the data file of the selected dataset: what the
    handler adds to the log is a stretch that concerns the boundary file
    (or its mirror) alone, followed by a stretch that concerns the data
    file (or its mirror) alone.  Whatever the file system does, it opens
    files at most 20 times, sleeps at most 16 times and spends at most
    12.6036 s asleep before it answers. *)
Theorem request_effort_bounded (L : libs) (w : world) (req : request)
    (s : state) (resp : response) (s' : state) :
  let key :=
    Catalog.resolve_indicator
      (PyStr.strip (match indicator req with Some i => i | None => EmptyString end)) in
  let sel :=
    Catalog.select_dataset key
      (match req_year req with Some y => y | None => 2011%Z end) in
  precinct_overlay L w req s = (resp, s') ->
  exists boundary dataset,
    trace s' = trace s ++ boundary ++ dataset
    /\ Forall (fun e =>
                 about (file_paths w (join w (DATA_DIR w)
                                        "fb-precincts-official-boundary.geojson")) e
                 = true) boundary
    /\ match Catalog.data_file sel with
       | Some file =>
           Forall (fun e => about (file_paths w (join w (DATA_DIR w) file)) e = true)
             dataset
       | None => dataset = []
       end
    /\ (count is_any_open (boundary ++ dataset) <= 20)%nat
    /\ (count is_sleep (boundary ++ dataset) <= 16)%nat
    /\ (slept (boundary ++ dataset) <= 126036 # 10000)%Q.
Proof.
  intros key sel.
  assert (Hnone : forall r0 : response,
             (r0, s) = (resp, s') ->
             exists boundary dataset,
               trace s' = trace s ++ boundary ++ dataset
               /\ Forall (fun e =>
                            about (file_paths w (join w (DATA_DIR w)
                                                   "fb-precincts-official-boundary.geojson"))
                              e = true) boundary
               /\ match Catalog.data_file sel with
                  | Some file =>
                      Forall (fun e =>
                                about (file_paths w (join w (DATA_DIR w) file)) e = true)
                        dataset
                  | None => dataset = []
                  end
               /\ (count is_any_open (boundary ++ dataset) <= 20)%nat
               /\ (count is_sleep (boundary ++ dataset) <= 16)%nat
               /\ (slept (boundary ++ dataset) <= 126036 # 10000)%Q).
  { intros r0 H. injection H as _ <-. exists [], []. rewrite app_nil_r. cbn.
    split; [reflexivity|]. split; [constructor|].
    split; [now destruct (Catalog.data_file sel)|].
    repeat split; try lia. apply Qle_bool_imp_le. reflexivity. }
  unfold precinct_overlay, handle. fold key sel.
  destruct (precinctName req) as [name|]; [|apply Hnone].
  destruct (String.eqb name EmptyString); [apply Hnone|].
  destruct (Catalog.no_file _); [apply Hnone|].
  destruct (Catalog.data_file sel) as [file|]; [|apply Hnone].
  destruct (load_geojson w _ s) as [[precincts_fc|e] s1] eqn:H1;
    apply load_geojson_log in H1 as (a1 & Ht1 & Ha1 & Ho1 & Hs1 & Hq1).
  - destruct (load_geojson w _ s1) as [[data_fc|e] s2] eqn:H2;
      apply load_geojson_log in H2 as (a2 & Ht2 & Ha2 & Ho2 & Hs2 & Hq2);
      [destruct (overlay L _ _ _ _ _ _)|];
      intros H; injection H as _ <-; exists a1, a2;
      (split; [now rewrite Ht2, Ht1, app_assoc|]);
      (split; [exact Ha1|]); (split; [exact Ha2|]);
      rewrite !count_app; (split; [lia|]); (split; [lia|]);
      rewrite slept_app;
      assert (126036 # 10000 == (63018 # 10000) + (63018 # 10000))%Q as ->
        by reflexivity; lra.
  - intros H; injection H as _ <-. exists a1, []. rewrite app_nil_r.
    split; [exact Ht1|]. split; [exact Ha1|]. split; [constructor|].
    split; [lia|]. split; [lia|].
    assert (63018 # 10000 <= 126036 # 10000)%Q
      by (apply Qle_bool_imp_le; reflexivity). lra.
Qed.

End RequestEffort.

Module OverlayMoreExamples.
Import Store Fixture Catalog Reproject Overlay City.
Import OverlayFacts OverlayMore StoreMore RequestEffort.

Lemma responses_classified_witness :
  exists r s',
    precinct_overlay Boxes.lib city (ask 2016 "jobs") Fixture.fresh = (Success r, s')
    /\ spatialUnit r = "DZN"%string
    /\ intersectCount r = length (intersections r).
Proof.
  assert (Hrun : exists r s',
             precinct_overlay Boxes.lib city (ask 2016 "jobs") Fixture.fresh
             = (Success r, s') /\ spatialUnit r = "DZN"%string).
  { vm_compute. eexists _, _. split; reflexivity. }
  destruct Hrun as (r & s' & Hrun & Hunit).
  exists r, s'. split; [exact Hrun|]. split; [exact Hunit|].
  exact (proj1 (proj2 (proj2
           (responses_classified Boxes.lib city _ _ (Success r) s' Hrun)))).
Defined.

Lemma code_prop_lookup_never_fails_witness :
  exists u, spatial_unit_of (resolve_indicator "Number of dwellings") 2021 = Ok u
            /\ unit_label (snd u).
Proof.
  apply (code_prop_lookup_never_fails "Number of dwellings" 2021). reflexivity.
Defined.

Lemma records_are_positive_witness :
  exists r s',
    precinct_overlay Boxes.lib city (ask 2021 "Land use mix") Fixture.fresh
    = (Success r, s')
    /\ Forall (fun i => (0 < area i)%Q /\ (0 < featureArea i)%Q) (intersections r).
Proof.
  assert (Hrun : exists r s',
             precinct_overlay Boxes.lib city (ask 2021 "Land use mix") Fixture.fresh
             = (Success r, s')).
  { vm_compute. eexists _, _. reflexivity. }
  destruct Hrun as (r & s' & Hrun).
  exists r, s'. split; [exact Hrun|].
  destruct (records_are_positive Boxes.lib city _ _ s' r Hrun) as [Hall _].
  revert Hall. apply List.Forall_impl. intros i (Ha & Hf & _). now split.
Defined.

(** The units of the city: E has no geometry and F is a point. *)
Definition city_units : list json :=
  match City.units with
  | JObj items => match assoc "features" items with Some (JArr l) => l | _ => [] end
  | _ => []
  end.

Lemma malformed_features_are_skipped_witness :
  scan_features Boxes.lib (Boxes.Box 0 0 10 10) 100 3857 "SA1_CODE_2" (Some "LUM_21"%string)
    city_units []
  = Ok (flat_map (record_of Boxes.lib (Boxes.Box 0 0 10 10) 100 3857 "SA1_CODE_2"
                    (Some "LUM_21"%string)) city_units)
  /\ scan_features Boxes.lib (Boxes.Box 0 0 10 10) 100 9999 "SA1_CODE_2"
       (Some "LUM_21"%string) city_units [] = Ok [].
Proof.
  destruct (malformed_features_are_skipped Boxes.lib (Boxes.Box 0 0 10 10) 100
              3857 "SA1_CODE_2" (Some "LUM_21"%string)) as (Hobj & _).
  destruct (malformed_features_are_skipped Boxes.lib (Boxes.Box 0 0 10 10) 100
              9999 "SA1_CODE_2" (Some "LUM_21"%string)) as (_ & _ & _ & Hcrs).
  split.
  - now apply Hobj.
  - now apply (Hcrs GeometryError).
Defined.


Lemma request_effort_bounded_witness :
  exists boundary dataset,
    trace (snd (precinct_overlay Boxes.lib city (ask 2016 "jobs") Fixture.fresh))
    = trace Fixture.fresh ++ boundary ++ dataset
    /\ Forall (fun e =>
                 about ["/app/public/data/fb-precincts-official-boundary.geojson";
                        "/app/build/data/fb-precincts-official-boundary.geojson";
                        "/app/build/data/fb-precincts-official-boundary.geojson"] e
                 = true) boundary
    /\ Forall (fun e =>
                 about ["/app/public/data/Number_of_Jobs_DZN_16.geojson";
                        "/app/build/data/Number_of_Jobs_DZN_16.geojson";
                        "/app/build/data/Number_of_Jobs_DZN_16.geojson"] e
                 = true) dataset
    /\ (count is_any_open (boundary ++ dataset) <= 20)%nat.
Proof.
  destruct (precinct_overlay Boxes.lib city (ask 2016 "jobs") Fixture.fresh)
    as [resp s'] eqn:H.
  destruct (request_effort_bounded Boxes.lib city _ _ resp s' H)
    as (boundary & dataset & Ht & Hb & Hd & Ho & _).
  exists boundary, dataset. split; [exact Ht|]. split; [exact Hb|].
  split; [exact Hd|exact Ho].
Defined.

End OverlayMoreExamples.

(** * The search endpoint

    [create_documents_from_metadata], [find_ranked_indicators] and
    [search_indicators].  The sentence-transformer model and the TF-IDF
    vectoriser are external: what they give for a query, the row of
    cosine similarities against the indicator documents, is a parameter
    ([similarity]).  What [request.get_json()] makes of the body is the
    endpoint's input. *)

Module Search.
Import PyStr.

(** One item of the ranking: [{"indicator": ..., "score": ...}]. *)
Record scored : Type := Scored { indicator : string; score : Q }.

(** [sep.join(parts)] *)
Fixpoint py_join (sep : string) (parts : list string) : string :=
  match parts with
  | [] => EmptyString
  | [p] => p
  | p :: rest => (p ++ sep ++ py_join sep rest)%string
  end.

Section Documents.

Variable py_repr : json -> string.

(** The document of one indicator:
    [f"Indicator: {name}. " + ". ".join(f"{key}: {value}" ...)]. *)
Definition document (name : string) (details : list (string * json)) : string :=
  ("Indicator: " ++ name ++ ". "
   ++ py_join ". " (map (fun kv => fst kv ++ ": " ++ Crs.py_str py_repr (snd kv)) details))%string.

(** The loop over the names; [details.items()] raises on anything but a
    dict. *)
Fixpoint documents_of (items : list (string * json)) : result (list string) :=
  match items with
  | [] => Ok []
  | (name, details) :: rest =>
      match details with
      | JObj kvs =>
          let? docs := documents_of rest in
          Ok (document name kvs :: docs)
      | _ => Raise AttributeError
      end
  end.

Definition create_documents_from_metadata (metadata : json)
    : result (list string * list string) :=
  match metadata with
  | JObj items =>
      let indicator_names := map fst items in
      let? documents := documents_of items in
      Ok (indicator_names, documents)
  | _ => Raise AttributeError
  end.

End Documents.

(** [results]: one entry per name with [similarities[i]]; [None] is the
    [IndexError] of a row that is too short. *)
Fixpoint score_all (indicator_names : list string) (similarities : list Q)
    : option (list scored) :=
  match indicator_names with
  | [] => Some []
  | name :: names =>
      match similarities with
      | [] => None
      | x :: sims =>
          match score_all names sims with
          | Some rest => Some (Scored name x :: rest)
          | None => None
          end
      end
  end.

(** [max(...)] of a non-empty sequence, [m] being the greatest so far. *)
Fixpoint py_max (m : Q) (l : list Q) : Q :=
  match l with
  | [] => m
  | x :: l' => py_max (if Qle_bool x m then m else x) l'
  end.

(** [max(r["score"] for r in results) if results else 0.0] *)
Definition current_max (results : list scored) : Q :=
  match results with
  | [] => 0
  | r :: rest => py_max (score r) (map score rest)
  end.

(** [r["indicator"].lower() == 'housing stress'] *)
Definition is_housing_stress (r : scored) : bool :=
  String.eqb (lower (indicator r)) "housing stress".

(** The [for r in results: if ...: r["score"] = ...; break] loops. *)
Fixpoint boost_first (f : Q -> Q) (results : list scored) : list scored :=
  match results with
  | [] => []
  | r :: rest =>
      if is_housing_stress r then Scored (indicator r) (f (score r)) :: rest
      else r :: boost_first f rest
  end.

Definition find_ranked_indicators (similarity : string -> list Q) (query : string)
    (indicator_names : list string) : option (list scored) :=
  match score_all indicator_names (similarity query) with
  | None => None
  | Some results =>
      let qlow := lower query in
      let results :=
        if contains "housing" qlow && contains "stress" qlow then
          let current_max := current_max results in
          boost_first (fun _ => current_max + (1 # 1000000))%Q results
        else if contains "housing" qlow then
          boost_first (fun x => x * (105 # 100))%Q results
        else results in
      Some (Overlay.sort_reverse score results)
  end.

(** Which backend the server came up with.  The embeddings path lower-
    cases the query itself, so its similarities are asked for texts only;
    on the TF-IDF path the vectoriser is handed whatever the body holds
    and may raise ([None]). *)
Inductive backend : Type :=
| Embeddings (similarity : string -> list Q)
| TfIdf (similarity : json -> option (list Q)).

(** What [request.get_json()] gives: the parsed body, or an HTTP error
    that Flask answers by itself (a body that is not declared as JSON, or
    does not parse). *)
Inductive get_json : Type :=
| Parsed (data : json)
| Aborted (status : Z).

Inductive search_response : Type :=
| Ranking (ranked : list scored)
| SearchError (status : Z) (message : string)
| HttpError (status : Z).

(** ['query' in data]: a key of a dict, an item of a list, a piece of a
    text; [None] is the [TypeError] of a number or a boolean. *)
Definition has_query (data : json) : option bool :=
  match data with
  | JObj items =>
      Some (match assoc "query" items with Some _ => true | None => false end)
  | JArr l =>
      Some (existsb (fun v => match v with
                              | JStr s => String.eqb s "query"
                              | _ => false
                              end) l)
  | JStr s => Some (contains "query" s)
  | _ => None
  end.

(** [data['query']]; [None] is the [TypeError] of indexing a list or a
    text with a text, or a [KeyError]. *)
Definition query_of (data : json) : option json :=
  match data with
  | JObj items => assoc "query" items
  | _ => None
  end.

(** The two ways to [ranked_indicators]; [None] is an exception. *)
Definition ranked_indicators (INDICATOR_NAMES : list string) (b : backend)
    (user_query : json) : option (list scored) :=
  match b with
  | Embeddings similarity =>
      match user_query with
      | JStr q => find_ranked_indicators similarity q INDICATOR_NAMES
      | _ => None      (* [query.lower()] of something that is no text *)
      end
  | TfIdf similarity =>
      match similarity user_query with
      | Some sims =>
          match score_all INDICATOR_NAMES sims with
          | Some results => Some (Overlay.sort_reverse score results)
          | None => None
          end
      | None => None
      end
  end.

(** [POST /api/search]; the result [None] is an exception that escapes
    the view. *)
Definition search_indicators (INDICATOR_NAMES : list string) (b : backend)
    (body : get_json) : option search_response :=
  match INDICATOR_NAMES with
  | [] => Some (SearchError 500 "Server is not ready, metadata could not be loaded.")
  | _ =>
      match body with
      | Aborted status => Some (HttpError status)
      | Parsed data =>
          if negb (truthy data)
          then Some (SearchError 400 "Missing 'query' in request body")
          else
            match has_query data with
            | None => None
            | Some false => Some (SearchError 400 "Missing 'query' in request body")
            | Some true =>
                match query_of data with
                | None => None
                | Some user_query =>
                    option_map Ranking
                      (ranked_indicators INDICATOR_NAMES b user_query)
                end
            end
      end
  end.

End Search.

Module SearchFacts.
Import PyStr Search.

(** Names and similarities paired up in order. *)
Fixpoint pairs (names : list string) (sims : list Q) : list scored :=
  match names, sims with
  | name :: names', x :: sims' => Scored name x :: pairs names' sims'
  | _, _ => []
  end.

Lemma score_all_pairs (names : list string) :
  forall sims results,
    score_all names sims = Some results ->
    results = pairs names sims /\ map indicator results = names
    /\ (length names <= length sims)%nat.
Proof.
  induction names as [|name names IH]; intros sims results H; cbn in H.
  - injection H as <-. cbn. repeat split. lia.
  - destruct sims as [|x sims]; [discriminate H|].
    destruct (score_all names sims) as [rest|] eqn:E; [|discriminate H].
    injection H as <-. destruct (IH sims rest E) as (-> & Hn & Hl).
    cbn. rewrite Hn. repeat split. lia.
Qed.

Lemma score_all_none (names : list string) :
  forall sims, score_all names sims = None <-> (length sims < length names)%nat.
Proof.
  induction names as [|name names IH]; intros sims; cbn.
  - split; [discriminate|lia].
  - destruct sims as [|x sims]; cbn; [split; [lia|reflexivity]|].
    specialize (IH sims). destruct (score_all names sims).
    + split; [discriminate|]. intros H.
      assert (Hlt : (length sims < length names)%nat) by lia.
      apply IH in Hlt. discriminate Hlt.
    + split; [|reflexivity]. intros _.
      assert (length sims < length names)%nat by now apply IH.
      lia.
Qed.

Lemma boost_first_names (f : Q -> Q) (l : list scored) :
  map indicator (boost_first f l) = map indicator l.
Proof.
  induction l as [|r l IH]; cbn; [reflexivity|].
  destruct (is_housing_stress r); cbn; [reflexivity|]. now rewrite IH.
Qed.

(** The loop changes the first housing-stress entry and nothing else. *)
Lemma boost_first_split (f : Q -> Q) (a : list scored) (r : scored) (b : list scored) :
  forallb (fun o => negb (is_housing_stress o)) a = true ->
  is_housing_stress r = true ->
  boost_first f (a ++ r :: b) = a ++ Scored (indicator r) (f (score r)) :: b.
Proof.
  intros Ha Hr. induction a as [|o a IH]; cbn.
  - now rewrite Hr.
  - cbn in Ha. apply andb_true_iff in Ha as [Ho Ha].
    apply negb_true_iff in Ho. rewrite Ho. now rewrite (IH Ha).
Qed.

Lemma boost_first_none (f : Q -> Q) (l : list scored) :
  forallb (fun o => negb (is_housing_stress o)) l = true ->
  boost_first f l = l.
Proof.
  induction l as [|o l IH]; intros H; cbn; [reflexivity|].
  cbn in H. apply andb_true_iff in H as [Ho Hl].
  apply negb_true_iff in Ho. rewrite Ho. now rewrite (IH Hl).
Qed.

Lemma boost_first_others (f : Q -> Q) (l : list scored) (r : scored) :
  In r (boost_first f l) -> is_housing_stress r = false -> In r l.
Proof.
  induction l as [|o l IH]; cbn; [tauto|].
  destruct (is_housing_stress o) eqn:E; cbn.
  - intros [<-|H] Hr; [|now right]. unfold is_housing_stress in *. cbn in Hr. congruence.
  - intros [<-|H] Hr; [now left|right; now apply IH].
Qed.

Lemma py_max_ge (l : list Q) :
  forall m, (m <= py_max m l)%Q /\ Forall (fun x => (x <= py_max m l)%Q) l.
Proof.
  induction l as [|x l IH]; intros m; cbn; [split; [apply Qle_refl|constructor]|].
  destruct (IH (if Qle_bool x m then m else x)) as [Hm Hall].
  destruct (Qle_bool x m) eqn:E.
  - apply Qle_bool_iff in E. split; [exact Hm|]. constructor; [|exact Hall].
    eapply Qle_trans; eassumption.
  - assert (m <= x)%Q.
    { apply Qlt_le_weak, Qnot_le_lt. intros H. apply Qle_bool_iff in H. congruence. }
    split; [eapply Qle_trans; eassumption|]. constructor; [exact Hm|exact Hall].
Qed.

Lemma current_max_ge (l : list scored) :
  Forall (fun r => (score r <= current_max l)%Q) l.
Proof.
  destruct l as [|r l]; [constructor|]. cbn.
  destruct (py_max_ge (map score l) (score r)) as [Hm Hall].
  constructor; [exact Hm|]. rewrite List.Forall_map in Hall. exact Hall.
Qed.

(** An item whose key beats all others comes out first, and the rest is
    the sort of the rest. *)
Lemma insert_reverse_top {A} (key : A -> Q) (x : A) (l : list A) :
  Forall (fun y => (key y < key x)%Q) l -> Overlay.insert_reverse key x l = x :: l.
Proof.
  intros H. destruct l as [|y l]; [reflexivity|]. cbn.
  inversion H as [|? ? Hy _]; subst.
  assert (Qle_bool (key y) (key x) = true) as ->; [|reflexivity].
  apply Qle_bool_iff. now apply Qlt_le_weak.
Qed.

Lemma sort_reverse_top {A} (key : A -> Q) (x : A) (a b : list A) :
  Forall (fun y => (key y < key x)%Q) (a ++ b) ->
  Overlay.sort_reverse key (a ++ x :: b) = x :: Overlay.sort_reverse key (a ++ b).
Proof.
  induction a as [|y a IH]; intros H.
  - cbn [app Overlay.sort_reverse fold_right]. fold (Overlay.sort_reverse key b).
    apply insert_reverse_top.
    eapply Permutation_Forall; [apply OverlayFacts.sort_reverse_perm|exact H].
  - cbn [app] in *. inversion H as [|? ? Hy Hrest]; subst.
    cbn [Overlay.sort_reverse fold_right]. fold (Overlay.sort_reverse key (a ++ x :: b)).
    fold (Overlay.sort_reverse key (a ++ b)). rewrite (IH Hrest). cbn [Overlay.insert_reverse].
    assert (Qle_bool (key x) (key y) = false) as ->; [|reflexivity].
    destruct (Qle_bool (key x) (key y)) eqn:E; [|reflexivity].
    apply Qle_bool_iff in E. exfalso. apply (Qlt_irrefl (key y)).
    eapply Qlt_le_trans; eassumption.
Qed.

Lemma ranked_of_results (results : list scored) (f : Q -> Q) :
  Permutation (map indicator (Overlay.sort_reverse score (boost_first f results)))
    (map indicator results).
Proof.
  rewrite <- (boost_first_names f results).
  apply Permutation_map. symmetry. apply OverlayFacts.sort_reverse_perm.
Qed.

(** What [find_ranked_indicators] sorts: the results after the boosting
    rules. *)
Definition boosted (query : string) (results : list scored) : list scored :=
  if contains "housing" (lower query) && contains "stress" (lower query) then
    boost_first (fun _ => current_max results + (1 # 1000000))%Q results
  else if contains "housing" (lower query) then
    boost_first (fun x => x * (105 # 100))%Q results
  else results.

Lemma find_ranked_boosted (similarity : string -> list Q) (query : string)
    (names : list string) (results : list scored) :
  score_all names (similarity query) = Some results ->
  find_ranked_indicators similarity query names
  = Some (Overlay.sort_reverse score (boosted query results)).
Proof. intros H. unfold find_ranked_indicators, boosted. now rewrite H. Qed.

Lemma boosted_names (query : string) (results : list scored) :
  map indicator (boosted query results) = map indicator results.
Proof.
  unfold boosted. destruct (_ && _); [apply boost_first_names|].
  destruct (contains _ _); [apply boost_first_names|reflexivity].
Qed.

(** X19.  The ranking lists every indicator exactly once, greatest score
    first, whatever the query and the boosting; the only way it can fail
    is a similarity row shorter than the list of indicators. *)
Theorem ranking_complete_and_sorted (similarity : string -> list Q) (query : string)
    (names : list string) :
  (find_ranked_indicators similarity query names = None
   <-> (length (similarity query) < length names)%nat)
  /\ (forall ranked,
        find_ranked_indicators similarity query names = Some ranked ->
        Permutation (map indicator ranked) names
        /\ OverlayFacts.descending score ranked
        /\ length ranked = length names).
Proof.
  destruct (score_all names (similarity query)) as [results|] eqn:E.
  - rewrite (find_ranked_boosted _ _ _ _ E).
    destruct (score_all_pairs _ _ _ E) as (_ & Hnames & Hlen).
    split; [split; [discriminate|lia]|].
    intros ranked H. injection H as <-.
    assert (Hperm : Permutation
                      (map indicator (Overlay.sort_reverse score (boosted query results)))
                      names).
    { rewrite <- Hnames, <- (boosted_names query results).
      apply Permutation_map. symmetry. apply OverlayFacts.sort_reverse_perm. }
    split; [exact Hperm|]. split; [apply OverlayFacts.sort_reverse_descending|].
    rewrite <- (length_map indicator). now apply Permutation_length.
  - unfold find_ranked_indicators. rewrite E.
    split; [split; [intros _; now apply score_all_none|reflexivity]|discriminate].
Qed.

(** X20.  A query that mentions both housing and stress puts the first
    indicator named "housing stress" (in any letter case) at the top: its
    score becomes the greatest similarity plus 0.000001, strictly above
    every other score, and below it the other indicators stand as they
    would be ranked among themselves. *)
Theorem housing_stress_boost_tops (similarity : string -> list Q) (query : string)
    (names : list string) (a : list scored) (r : scored) (b : list scored) :
  contains "housing" (lower query) = true ->
  contains "stress" (lower query) = true ->
  score_all names (similarity query) = Some (a ++ r :: b) ->
  forallb (fun o => negb (is_housing_stress o)) a = true ->
  is_housing_stress r = true ->
  let top := (current_max (a ++ r :: b) + (1 # 1000000))%Q in
  find_ranked_indicators similarity query names
  = Some (Scored (indicator r) top :: Overlay.sort_reverse score (a ++ b))
  /\ Forall (fun o => (score o < top)%Q) (a ++ b).
Proof.
  intros Hh Hs Hres Ha Hr top.
  assert (Hlow : Forall (fun o => (score o < top)%Q) (a ++ b)).
  { pose proof (current_max_ge (a ++ r :: b)) as Hmax.
    apply Forall_app in Hmax as [Hma Hmb]. inversion Hmb as [|? ? _ Hmb']; subst.
    apply Forall_app. split; [revert Hma|revert Hmb'];
      apply List.Forall_impl; intros o Ho; unfold top; lra. }
  split; [|exact Hlow].
  rewrite (find_ranked_boosted _ _ _ _ Hres). unfold boosted. rewrite Hh, Hs.
  cbn [andb]. rewrite (boost_first_split _ a r b Ha Hr). fold top.
  now rewrite (sort_reverse_top score (Scored (indicator r) top) a b Hlow).
Qed.

(** X21.  The boosting rules touch one score at most.  Every ranked entry
    that is not a housing-stress indicator carries its raw similarity.  A
    query that does not mention housing, or a list without a
    housing-stress indicator, is ranked by raw similarity alone.  A query
    that mentions housing but not stress multiplies the first
    housing-stress indicator's similarity by 1.05 and leaves the rest. *)
Theorem boost_touches_one_score (similarity : string -> list Q) (query : string)
    (names : list string) (results ranked : list scored) :
  score_all names (similarity query) = Some results ->
  find_ranked_indicators similarity query names = Some ranked ->
  (forall o, In o ranked -> is_housing_stress o = false -> In o results)
  /\ (contains "housing" (lower query) = false ->
      ranked = Overlay.sort_reverse score results)
  /\ (forallb (fun o => negb (is_housing_stress o)) results = true ->
      ranked = Overlay.sort_reverse score results)
  /\ (contains "housing" (lower query) = true ->
      contains "stress" (lower query) = false ->
      forall a r b,
        results = a ++ r :: b ->
        forallb (fun o => negb (is_housing_stress o)) a = true ->
        is_housing_stress r = true ->
        ranked = Overlay.sort_reverse score
                   (a ++ Scored (indicator r) (score r * (105 # 100))%Q :: b)).
Proof.
  intros Hres H. rewrite (find_ranked_boosted _ _ _ _ Hres) in H. injection H as <-.
  split; [|split; [|split]].
  - intros o Ho Hn.
    apply (Permutation_in o (Permutation_sym (OverlayFacts.sort_reverse_perm score _)))
      in Ho.
    unfold boosted in Ho. destruct (_ && _); [now apply boost_first_others in Ho|].
    destruct (contains _ _); [now apply boost_first_others in Ho|exact Ho].
  - intros Hh. unfold boosted. now rewrite Hh.
  - intros Hnone. unfold boosted.
    destruct (_ && _); [now rewrite boost_first_none|].
    destruct (contains _ _); [now rewrite boost_first_none|reflexivity].
  - intros Hh Hs a r b -> Ha Hr. unfold boosted. rewrite Hh, Hs. cbn [andb].
    now rewrite (boost_first_split _ a r b Ha Hr).
Qed.

(** A ranking by either backend lists every indicator once, greatest
    score first. *)
Lemma ranked_indicators_complete (names : list string) (b : backend)
    (user_query : json) (ranked : list scored) :
  ranked_indicators names b user_query = Some ranked ->
  Permutation (map indicator ranked) names
  /\ OverlayFacts.descending score ranked.
Proof.
  unfold ranked_indicators. destruct b as [similarity|similarity].
  - destruct user_query as [| | |q| |]; try discriminate.
    destruct (score_all names (similarity q)) as [results|] eqn:E.
    + rewrite (find_ranked_boosted _ _ _ _ E). intros H. injection H as <-.
      destruct (score_all_pairs _ _ _ E) as (_ & Hnames & _).
      split; [|apply OverlayFacts.sort_reverse_descending].
      rewrite <- Hnames, <- (boosted_names q results).
      apply Permutation_map. symmetry. apply OverlayFacts.sort_reverse_perm.
    + unfold find_ranked_indicators. rewrite E. discriminate.
  - destruct (similarity user_query) as [sims|]; [|discriminate].
    destruct (score_all names sims) as [results|] eqn:E; [|discriminate].
    intros H. injection H as <-.
    destruct (score_all_pairs _ _ _ E) as (_ & Hnames & _).
    split; [|apply OverlayFacts.sort_reverse_descending].
    rewrite <- Hnames. apply Permutation_map. symmetry.
    apply OverlayFacts.sort_reverse_perm.
Qed.

(** The endpoint once there are indicators and the body has parsed. *)
Lemma search_parsed (n : string) (names : list string) (b : backend) (data : json) :
  search_indicators (n :: names) b (Parsed data) =
  if negb (truthy data)
  then Some (SearchError 400 "Missing 'query' in request body")
  else
    match has_query data with
    | None => None
    | Some false => Some (SearchError 400 "Missing 'query' in request body")
    | Some true =>
        match query_of data with
        | None => None
        | Some user_query =>
            option_map Ranking (ranked_indicators (n :: names) b user_query)
        end
    end.
Proof. reflexivity. Qed.

(** X22.  The search endpoint.  Without indicators every request is
    answered 500, before the body is looked at.  With indicators, an
    HTTP error of [get_json] is passed on; the endpoint's own 400 is
    given exactly for a body that is falsy ([null], [{}], [[]], [0], an
    empty text) or a dict, list or text without ['query'] in it; a
    truthy body that is no dict never gets an answer from the view: a
    list or text with ['query'] in it, a number and [true] all end in an
    exception.  A ranking is only ever returned for a dict with a
    [query] key; it lists every indicator exactly once, greatest score
    first, with either backend.  Under the TF-IDF backend the scores are
    the raw similarities of whatever the query holds, no boosting rule
    being applied; under the embeddings backend a query that is no text
    ends in an exception. *)
Theorem search_responses :
  (forall b body,
      search_indicators [] b body
      = Some (SearchError 500 "Server is not ready, metadata could not be loaded."))
  /\ (forall n names b status,
        search_indicators (n :: names) b (Aborted status) = Some (HttpError status))
  /\ (forall n names b data,
        search_indicators (n :: names) b (Parsed data)
        = Some (SearchError 400 "Missing 'query' in request body")
        <-> truthy data = false \/ has_query data = Some false)
  /\ (forall n names b data,
        truthy data = true -> OverlayMore.is_object data = false ->
        has_query data <> Some false ->
        search_indicators (n :: names) b (Parsed data) = None)
  /\ (forall n names b data ranked,
        search_indicators (n :: names) b (Parsed data) = Some (Ranking ranked) ->
        (exists items user_query,
            data = JObj items /\ assoc "query" items = Some user_query)
        /\ Permutation (map indicator ranked) (n :: names)
        /\ OverlayFacts.descending score ranked)
  /\ (forall n names similarity items user_query resp,
        assoc "query" items = Some user_query ->
        search_indicators (n :: names) (TfIdf similarity) (Parsed (JObj items))
        = Some resp ->
        exists row results,
          similarity user_query = Some row
          /\ score_all (n :: names) row = Some results
          /\ resp = Ranking (Overlay.sort_reverse score results))
  /\ (forall n names similarity items user_query,
        assoc "query" items = Some user_query ->
        (forall q, user_query <> JStr q) ->
        search_indicators (n :: names) (Embeddings similarity) (Parsed (JObj items))
        = None).
Proof.
  assert (Hdict : forall items user_query,
             assoc "query" items = Some user_query ->
             truthy (JObj items) = true
             /\ has_query (JObj items) = Some true
             /\ query_of (JObj items) = Some user_query).
  { intros items user_query H. cbn. rewrite H.
    destruct items; [discriminate H|]. now repeat split. }
  split; [reflexivity|]. split; [reflexivity|].
  split; [|split; [|split; [|split]]].
  - intros n names b data. rewrite search_parsed. split.
    + destruct (truthy data); cbn [negb]; [|now left].
      destruct (has_query data) as [[|]|]; [|now right|discriminate].
      destruct (query_of data) as [user_query|]; [|discriminate].
      destruct (ranked_indicators (n :: names) b user_query); discriminate.
    + intros [Hf|Hq].
      * now rewrite Hf.
      * rewrite Hq. now destruct (truthy data).
  - intros n names b data Ht Hobj Hq. rewrite search_parsed, Ht. cbn [negb].
    destruct (has_query data) as [[|]|]; [|now destruct Hq|reflexivity].
    now destruct data.
  - intros n names b data ranked. rewrite search_parsed.
    destruct (truthy data); cbn [negb]; [|discriminate].
    destruct (has_query data) as [[|]|]; [|discriminate|discriminate].
    destruct (query_of data) as [user_query|] eqn:Hq; [|discriminate].
    destruct (ranked_indicators (n :: names) b user_query) as [r|] eqn:Hr;
      [|discriminate].
    intros H. injection H as <-.
    split; [|now apply (ranked_indicators_complete _ b user_query)].
    destruct data; try discriminate Hq. now exists items, user_query.
  - intros n names similarity items user_query resp Hq.
    destruct (Hdict _ _ Hq) as (Ht & Hh & Ho).
    rewrite search_parsed, Ht, Hh, Ho. cbn [negb ranked_indicators].
    destruct (similarity user_query) as [row|]; [|discriminate].
    destruct (score_all (n :: names) row) as [results|] eqn:Hres; [|discriminate].
    intros H. injection H as <-. now exists row, results.
  - intros n names similarity items user_query Hq Hno.
    destruct (Hdict _ _ Hq) as (Ht & Hh & Ho).
    rewrite search_parsed, Ht, Hh, Ho. cbn [negb ranked_indicators].
    destruct user_query as [| | |q| |]; try reflexivity. now destruct (Hno q).
Qed.

Lemma prefix_append (a b : string) : String.prefix a (a ++ b) = true.
Proof.
  induction a as [|c a IH]; [now destruct b|].
  change (String c a ++ b)%string with (String c (a ++ b)%string).
  cbn [String.prefix].
  destruct (ascii_dec c c) as [_|Hne]; [exact IH|now destruct Hne].
Qed.

Lemma prefix_cancel (c a b : string) :
  String.prefix a b = true -> String.prefix (c ++ a) (c ++ b) = true.
Proof.
  intros H. induction c as [|x c IH]; [exact H|].
  change (String.prefix (String x (c ++ a)%string) (String x (c ++ b)%string) = true).
  cbn [String.prefix].
  destruct (ascii_dec x x) as [_|Hne]; [exact IH|now destruct Hne].
Qed.

Section Documents.

Variable py_repr : json -> string.

Lemma documents_of_aligned (items : list (string * json)) :
  forall docs,
    documents_of py_repr items = Ok docs ->
    Forall2 (fun name doc =>
               String.prefix ("Indicator: " ++ name ++ ". ") doc = true)
      (map fst items) docs.
Proof.
  induction items as [|[name details] items IH]; intros docs H; cbn in H.
  - injection H as <-. constructor.
  - destruct details; try discriminate H.
    destruct (documents_of py_repr items) as [rest|]; [|discriminate H].
    injection H as <-. cbn. constructor; [|now apply IH].
    unfold document.
    apply (prefix_cancel "Indicator: "), (prefix_cancel name), prefix_append.
Qed.

Lemma documents_of_bad (items : list (string * json)) (name : string) (v : json) :
  In (name, v) items -> OverlayMore.is_object v = false ->
  documents_of py_repr items = Raise AttributeError.
Proof.
  induction items as [|[n d] items IH]; intros Hin Hv; [destruct Hin|].
  cbn. destruct Hin as [Heq|Hin].
  - injection Heq as -> ->. now destruct v.
  - destruct d; try reflexivity. now rewrite (IH Hin Hv).
Qed.

(** X23.  The documents line up with the indicator names: on success the
    names are the metadata's keys in order, there is one document per
    name, and each document begins with ["Indicator: <name>. "].  A
    metadata value, or the details of any one indicator, that is not an
    object makes the whole call raise [AttributeError]. *)
Theorem documents_follow_names :
  (forall metadata names docs,
      create_documents_from_metadata py_repr metadata = Ok (names, docs) ->
      exists items,
        metadata = JObj items /\ names = map fst items
        /\ length docs = length names
        /\ Forall2 (fun name doc =>
                      String.prefix ("Indicator: " ++ name ++ ". ") doc = true)
             names docs)
  /\ (forall metadata,
        OverlayMore.is_object metadata = false ->
        create_documents_from_metadata py_repr metadata = Raise AttributeError)
  /\ (forall items name v,
        In (name, v) items -> OverlayMore.is_object v = false ->
        create_documents_from_metadata py_repr (JObj items) = Raise AttributeError).
Proof.
  split; [|split].
  - intros metadata names docs H. destruct metadata; try discriminate H.
    cbn in H. destruct (documents_of py_repr items) as [ds|] eqn:E; [|discriminate H].
    injection H as <- <-. exists items. split; [reflexivity|]. split; [reflexivity|].
    pose proof (documents_of_aligned items ds E) as Hal.
    split; [symmetry; eapply Forall2_length; exact Hal|exact Hal].
  - intros metadata H. now destruct metadata.
  - intros items name v Hin Hv. cbn. now rewrite (documents_of_bad items name v Hin Hv).
Qed.

End Documents.

End SearchFacts.

(** ** The module's start: the metadata file and the indicator names *)

Module Startup.
Import Search SearchFacts.

Section Start.

Variable py_repr : json -> string.

(** [open(filepath)] followed by [json.load]. *)
Variable read : string -> result json.




End Start.

End Startup.

Module SearchExamples.
Import PyStr Search SearchFacts.

Definition names : list string :=
  ["Number of jobs"; "Housing Stress"; "Walkability"]%string.

(** A similarity row that ranks the jobs indicator first. *)
Definition sims (_ : string) : list Q := [9 # 10; 1 # 10; 5 # 10].

(** A row that is one score short. *)
Definition short_row (_ : string) : list Q := [9 # 10; 1 # 10].

Lemma ranking_complete_and_sorted_witness :
  (exists ranked,
      find_ranked_indicators sims "Housing costs" names = Some ranked
      /\ Permutation (map indicator ranked) names
      /\ OverlayFacts.descending score ranked)
  /\ find_ranked_indicators short_row "Housing costs" names = None.
Proof.
  split.
  - destruct (find_ranked_indicators sims "Housing costs" names) as [ranked|] eqn:H;
      [|vm_compute in H; discriminate H].
    exists ranked. split; [reflexivity|].
    destruct (proj2 (ranking_complete_and_sorted sims "Housing costs" names) ranked H)
      as (Hperm & Hdesc & _).
    now split.
  - apply (proj1 (ranking_complete_and_sorted short_row "Housing costs" names)).
    cbn. lia.
Defined.

Lemma housing_stress_boost_tops_witness :
  find_ranked_indicators sims "rental STRESS and housing" names
  = Some [Scored "Housing Stress" ((9 # 10) + (1 # 1000000));
          Scored "Number of jobs" (9 # 10); Scored "Walkability" (5 # 10)].
Proof.
  exact (proj1 (housing_stress_boost_tops sims "rental STRESS and housing" names
                  [Scored "Number of jobs" (9 # 10)]
                  (Scored "Housing Stress" (1 # 10))
                  [Scored "Walkability" (5 # 10)]
                  eq_refl eq_refl eq_refl eq_refl eq_refl)).
Defined.

Lemma boost_touches_one_score_witness :
  find_ranked_indicators sims "housing" names
  = Some (Overlay.sort_reverse score
            [Scored "Number of jobs" (9 # 10);
             Scored "Housing Stress" ((1 # 10) * (105 # 100));
             Scored "Walkability" (5 # 10)]).
Proof.
  destruct (find_ranked_indicators sims "housing" names) as [ranked|] eqn:H;
    [|vm_compute in H; discriminate H].
  f_equal.
  destruct (boost_touches_one_score sims "housing" names
              [Scored "Number of jobs" (9 # 10); Scored "Housing Stress" (1 # 10);
               Scored "Walkability" (5 # 10)] ranked eq_refl H)
    as (_ & _ & _ & Hmild).
  exact (Hmild eq_refl eq_refl [Scored "Number of jobs" (9 # 10)]
           (Scored "Housing Stress" (1 # 10)) [Scored "Walkability" (5 # 10)]
           eq_refl eq_refl eq_refl).
Defined.

(** A vectoriser that takes texts only. *)
Definition tfidf_sims (q : json) : option (list Q) :=
  match q with
  | JStr _ => Some [9 # 10; 1 # 10; 5 # 10]
  | _ => None
  end.

Lemma search_responses_witness :
  search_indicators names (TfIdf tfidf_sims)
    (Parsed (JObj [("query", JStr "housing stress")]))
  = Some (Ranking [Scored "Number of jobs" (9 # 10); Scored "Walkability" (5 # 10);
                   Scored "Housing Stress" (1 # 10)])
  /\ search_indicators names (TfIdf tfidf_sims) (Parsed (JStr "my query")) = None
  /\ search_indicators names (TfIdf tfidf_sims) (Parsed (JStr "housing"))
     = Some (SearchError 400 "Missing 'query' in request body")
  /\ search_indicators names (Embeddings sims) (Parsed (JObj [("query", JNum 5)]))
     = None.
Proof.
  destruct search_responses as (_ & _ & H400 & Hno & _ & Htfidf & Hemb).
  split; [|split; [|split]].
  - destruct (search_indicators names (TfIdf tfidf_sims)
                (Parsed (JObj [("query", JStr "housing stress")]))) as [resp|] eqn:H;
      [|vm_compute in H; discriminate H].
    destruct (Htfidf "Number of jobs"%string ["Housing Stress"; "Walkability"]%string
                tfidf_sims [("query", JStr "housing stress")] (JStr "housing stress")
                resp eq_refl H) as (row & results & Hrow & Hres & ->).
    injection Hrow as <-. vm_compute in Hres. injection Hres as <-. reflexivity.
  - apply (Hno "Number of jobs"%string ["Housing Stress"; "Walkability"]%string);
      [reflexivity|reflexivity|discriminate].
  - apply (H400 "Number of jobs"%string ["Housing Stress"; "Walkability"]%string).
    right. reflexivity.
  - apply (Hemb "Number of jobs"%string ["Housing Stress"; "Walkability"]%string
             sims [("query", JNum 5)] (JNum 5)); [reflexivity|discriminate].
Defined.

Lemma documents_follow_names_witness :
  create_documents_from_metadata (fun _ => "?"%string)
    (JObj [("Walkability", JObj [("unit", JStr "index")]); ("Number of jobs", JNull)])
  = Raise AttributeError.
Proof.
  apply (proj2 (proj2 (documents_follow_names (fun _ => "?"%string)))
           _ "Number of jobs"%string JNull).
  - right. left. reflexivity.
  - reflexivity.
Defined.

(** A file system without the metadata file. *)
Definition no_file (_ : string) : result json := Raise (OSError None).


End SearchExamples.
